(** * Evernode client library: state decoding, key derivation, lease URIs

    A shallow embedding of the byte-level helpers of the Evernode JavaScript
    client ([src/state-helpers.js], [src/util-helpers.js]), of the
    sequential control flow of the tenant client and of its two watch
    loops on a clock of milliseconds ([src/clients/tenant-client.js]),
    followed by the properties proved about them.

    Conventions.
    - A Node [Buffer] is a [list byte]; a byte is read as a number with [u8].
    - A JavaScript string of 8-bit characters (hex text, addresses, base64
      text) is a [string]; text obtained by UTF-8 decoding is a list of
      UTF-16 code units ([Text]).
    - A JavaScript call that may throw returns a [Result]; statements are
      sequenced with [x <- e ;; k] in source order, so the first exception
      of the source is the one the model returns.
    - A JavaScript Number whose value is an integer is represented by that
      integer ([Z]); [NumberOfBigInt] is the rounding [Number(bigint)]
      performs.  A Number produced by [parseFloat] is a binary64 [float].
    - Modules of the library that are not part of the sources at hand
      (address codec, hash functions, the scaled-decimal codec, the
      constants of evernode-common) are interfaces: type classes whose
      instances are arguments of the definitions that use them. *)

From Stdlib Require Import ZArith String Ascii List Bool Lia DecimalString.
From Stdlib Require Import Strings.Byte.
From Stdlib Require Import Floats.PrimFloat Floats.SpecFloat Floats.FloatOps.
Import ListNotations.

Local Open Scope string_scope.
Local Open Scope list_scope.
Local Open Scope Z_scope.

(* ================================================================== *)
(** ** JavaScript completions *)
(* ================================================================== *)

Module Js.

(** The outcome of evaluating an expression: a value, or a thrown
    exception of type [E]. *)
Inductive Result (E A : Type) : Type :=
| Ok (a : A)
| Throw (e : E).

Arguments Ok {E A} a.
Arguments Throw {E A} e.

Definition bind {E A B : Type} (r : Result E A) (k : A -> Result E B) : Result E B :=
  match r with
  | Ok a => k a
  | Throw e => Throw e
  end.

(** Exceptions of the helper modules. *)
Inductive Exn : Type :=
| RangeError                          (* the Buffer API's ERR_OUT_OF_RANGE *)
| TypeError                           (* property access on null *)
| Thrown (type message : string)      (* throw { type: ..., message: ... } *)
| External (what : string).           (* an exception raised by a collaborator *)

(** [ToBoolean] of a Number with an integer value. *)
Definition truthy (n : Z) : bool := negb (n =? 0).

(** Values of the language, as far as the client code handles them
    dynamically: option bags, their members, and what a callback returns.
    An object is the list of its own properties. *)
Inductive Value : Type :=
| VUndefined
| VNull
| VBool (b : bool)
| VNumber (x : float)
| VString (s : string)
| VObject (props : Props)
with Props : Type :=
| PNil
| PCons (name : string) (v : Value) (rest : Props).

Definition ToBoolean (v : Value) : bool :=
  match v with
  | VUndefined | VNull => false
  | VBool b => b
  | VNumber x => negb (PrimFloat.is_zero x || PrimFloat.is_nan x)
  | VString s => negb (String.eqb s "")
  | VObject _ => true
  end.

Fixpoint lookup (name : string) (props : Props) : Value :=
  match props with
  | PNil => VUndefined
  | PCons k v r => if String.eqb k name then v else lookup name r
  end.

(** [v.name]: a member of an object, [undefined] on a primitive (whose
    prototype has no such member), a TypeError on [undefined] and [null]. *)
Definition get (v : Value) (name : string) : Result Exn Value :=
  match v with
  | VUndefined | VNull => Throw TypeError
  | VObject props => Ok (lookup name props)
  | _ => Ok VUndefined
  end.

(** [a || b]. *)
Definition or (a b : Value) : Value := if ToBoolean a then a else b.

(** A parameter declared [options = {}]. *)
Definition defaultEmpty (arg : Value) : Value :=
  match arg with
  | VUndefined => VObject PNil
  | _ => arg
  end.

(** [arr.find(callback)]: the first element on which the callback's
    result is truthy. *)
Fixpoint find {A : Type} (callback : A -> Value) (arr : list A) : option A :=
  match arr with
  | [] => None
  | x :: r => if ToBoolean (callback x) then Some x else find callback r
  end.

End Js.

Export Js.

Declare Scope js_scope.
Delimit Scope js_scope with js.
Notation "x <- e ;; k" := (Js.bind e (fun x => k))
  (at level 61, e at next level, right associativity) : js_scope.
Local Open Scope js_scope.

(* ================================================================== *)
(** ** The Buffer API of the runtime *)
(* ================================================================== *)

Module Buf.

Definition Buffer : Type := list byte.

(** Text produced by UTF-8 decoding: UTF-16 code units. *)
Definition Text : Type := list N.

Definition u8 (b : byte) : Z := Z.of_N (Byte.to_N b).

Definition byte_of_Z (z : Z) : byte :=
  match Byte.of_N (Z.to_N (z mod 256)) with
  | Some b => b
  | None => x00
  end.

(** [Buffer.alloc(n, fill)]. *)
Definition alloc (n : nat) (fill : byte) : Buffer := repeat fill n.

(** [buf.slice(start, end)] for non-negative integer bounds: both are
    clamped to the length and an end before the start gives the empty
    buffer. *)
Definition slice (b : Buffer) (start end_ : nat) : Buffer :=
  firstn (end_ - start) (skipn start b).

(** [buf.slice(start)]. *)
Definition sliceFrom (b : Buffer) (start : nat) : Buffer := skipn start b.

(** Big-endian value of a run of bytes. *)
Fixpoint be (bs : list byte) (acc : Z) : Z :=
  match bs with
  | [] => acc
  | b :: r => be r (acc * 256 + u8 b)
  end.

(** The unsigned big-endian readers; out of range they throw. *)
Definition readUIntBE (width : nat) (b : Buffer) (offset : nat) : Result Exn Z :=
  if (offset + width <=? length b)%nat
  then Ok (be (slice b offset (offset + width)) 0)
  else Throw RangeError.

Definition readUInt8 := readUIntBE 1.
Definition readUInt16BE := readUIntBE 2.
Definition readUInt32BE := readUIntBE 4.
Definition readBigUInt64BE := readUIntBE 8.

Definition readBigInt64BE (b : Buffer) (offset : nat) : Result Exn Z :=
  v <- readUIntBE 8 b offset ;;
  Ok (if v <? 2 ^ 63 then v else v - 2 ^ 64).

(** Overwrite [bytes] at [offset] (the caller has checked the range). *)
Definition write (b : Buffer) (offset : nat) (bytes : list byte) : Buffer :=
  firstn offset b ++ bytes ++ skipn (offset + length bytes) b.

Definition writeUInt8 (b : Buffer) (value : Z) (offset : nat) : Result Exn Buffer :=
  if (0 <=? value) && (value <=? 255) && (offset + 1 <=? length b)%nat
  then Ok (write b offset [byte_of_Z value])
  else Throw RangeError.

Definition writeInt16BE (b : Buffer) (value : Z) (offset : nat) : Result Exn Buffer :=
  if (-32768 <=? value) && (value <=? 32767) && (offset + 2 <=? length b)%nat
  then Ok (write b offset [byte_of_Z (value / 256); byte_of_Z value])
  else Throw RangeError.

(** [source.copy(target, targetStart, sourceStart, sourceEnd)]; the result
    is the target after the call.  What does not fit is not copied; a
    source start past the end of the source throws. *)
Definition copy (source target : Buffer) (targetStart sourceStart sourceEnd : nat)
  : Result Exn Buffer :=
  if (length source <? sourceStart)%nat then Throw RangeError
  else
    let chunk := firstn (length target - targetStart) (slice source sourceStart sourceEnd) in
    Ok (write target targetStart chunk).

(** [a.compare(b)]: -1, 0 or 1 by lexicographic order. *)
Fixpoint compare (a b : Buffer) : Z :=
  match a, b with
  | [], [] => 0
  | [], _ :: _ => -1
  | _ :: _, [] => 1
  | x :: a', y :: b' =>
      if u8 x <? u8 y then -1
      else if u8 y <? u8 x then 1
      else compare a' b'
  end.

(** [source.compare(target, targetStart, targetEnd)]: the whole source
    against a window of the target; a window end past the target throws. *)
Definition compareRange (source target : Buffer) (targetStart targetEnd : nat)
  : Result Exn Z :=
  if (length target <? targetEnd)%nat then Throw RangeError
  else Ok (compare source (slice target targetStart targetEnd)).

(** *** Hexadecimal text *)

Definition hexDigit (n : Z) : ascii :=
  nth (Z.to_nat n) (list_ascii_of_string "0123456789abcdef") "0"%char.

Definition unhex (c : ascii) : option Z :=
  let n := Z.of_N (N_of_ascii c) in
  if (48 <=? n) && (n <=? 57) then Some (n - 48)
  else if (97 <=? n) && (n <=? 102) then Some (n - 87)
  else if (65 <=? n) && (n <=? 70) then Some (n - 55)
  else None.

(** [buf.toString('hex')]: lower-case digits. *)
Fixpoint toHex (b : Buffer) : string :=
  match b with
  | [] => EmptyString
  | x :: r => String (hexDigit (u8 x / 16)) (String (hexDigit (u8 x mod 16)) (toHex r))
  end.

(** [Buffer.from(s, 'hex')]: pairs of digits, stopping at the first pair
    that is not hexadecimal; a last unpaired character is dropped. *)
Fixpoint fromHex (s : string) : Buffer :=
  match s with
  | String c1 (String c2 r) =>
      match unhex c1, unhex c2 with
      | Some h, Some l => byte_of_Z (16 * h + l) :: fromHex r
      | _, _ => []
      end
  | _ => []
  end.

Definition upper (c : ascii) : ascii :=
  let n := N_of_ascii c in
  if ((97 <=? n) && (n <=? 122))%N then ascii_of_N (n - 32) else c.

(** [s.toUpperCase()] on text of 7-bit characters. *)
Fixpoint toUpperCase (s : string) : string :=
  match s with
  | EmptyString => EmptyString
  | String c r => String (upper c) (toUpperCase r)
  end.

(** [Buffer.from(s, 'utf-8')] and back, for text of 8-bit code units. *)
Definition fromLatin (s : string) : Buffer := list_byte_of_string s.
Definition toLatin (b : Buffer) : string := string_of_list_byte b.

(** *** Base64 text *)

Definition base64Alphabet : list ascii :=
  list_ascii_of_string "ABCDEFGHIJKLMNOPQRSTUVWXYZabcdefghijklmnopqrstuvwxyz0123456789+/".

Definition base64Char (n : Z) : ascii := nth (Z.to_nat n) base64Alphabet "A"%char.

(** The decoder's table: the standard and the URL-safe alphabet. *)
Definition unbase64 (c : ascii) : option Z :=
  let n := Z.of_N (N_of_ascii c) in
  if (65 <=? n) && (n <=? 90) then Some (n - 65)
  else if (97 <=? n) && (n <=? 122) then Some (n - 71)
  else if (48 <=? n) && (n <=? 57) then Some (n + 4)
  else if (n =? 43) || (n =? 45) then Some 62
  else if (n =? 47) || (n =? 95) then Some 63
  else None.

(** The legal characters up to the first [=], as 6-bit values; characters
    outside the alphabet are skipped. *)
Fixpoint sextets (s : string) : list Z :=
  match s with
  | EmptyString => []
  | String c r =>
      if Ascii.eqb c "="%char then []
      else match unbase64 c with
           | Some v => v :: sextets r
           | None => sextets r
           end
  end.

Fixpoint bytesOfSextets (l : list Z) : Buffer :=
  match l with
  | a :: b :: c :: d :: r =>
      byte_of_Z (a * 4 + b / 16)
        :: byte_of_Z ((b mod 16) * 16 + c / 4)
        :: byte_of_Z ((c mod 4) * 64 + d)
        :: bytesOfSextets r
  | [a; b; c] => [byte_of_Z (a * 4 + b / 16); byte_of_Z ((b mod 16) * 16 + c / 4)]
  | [a; b] => [byte_of_Z (a * 4 + b / 16)]
  | _ => []
  end.

(** [Buffer.from(s, 'base64')]. *)
Definition fromBase64 (s : string) : Buffer := bytesOfSextets (sextets s).

(** [buf.toString('base64')]: the padded encoding of RFC 4648. *)
Fixpoint toBase64 (b : Buffer) : string :=
  match b with
  | x :: y :: z :: r =>
      String (base64Char (u8 x / 4))
        (String (base64Char ((u8 x mod 4) * 16 + u8 y / 16))
           (String (base64Char ((u8 y mod 16) * 4 + u8 z / 64))
              (String (base64Char (u8 z mod 64)) (toBase64 r))))
  | [x; y] =>
      String (base64Char (u8 x / 4))
        (String (base64Char ((u8 x mod 4) * 16 + u8 y / 16))
           (String (base64Char ((u8 y mod 16) * 4)) "="))
  | [x] =>
      String (base64Char (u8 x / 4))
        (String (base64Char ((u8 x mod 4) * 16)) "==")
  | [] => EmptyString
  end.

(** *** Numbers *)

(** Number of binary digits of a non-negative integer. *)
Definition bitLength (z : Z) : Z := if z <=? 0 then 0 else Z.log2 z + 1.

(** [Number(n)] for a BigInt [n]: the value of the nearest binary64 number,
    ties to even.  BigInts read from a buffer are below [2^64] in absolute
    value, far from overflow. *)
Definition NumberOfBigInt (n : Z) : Z :=
  let a := Z.abs n in
  let s := bitLength a - 53 in
  if s <=? 0 then n
  else
    let q := Z.shiftr a s in
    let r := a mod 2 ^ s in
    let half := 2 ^ (s - 1) in
    let q' := if (half <? r) || ((r =? half) && Z.odd q) then q + 1 else q in
    Z.sgn n * Z.shiftl q' s.

End Buf.

Export Buf.

(* ================================================================== *)
(** ** Collaborators *)
(* ================================================================== *)

Module Collab.

(** ripple-address-codec: both directions throw on malformed input. *)
Class AddressCodec : Type := {
  encodeAccountID : Buffer -> Result Exn string;
  decodeAccountID : string -> Result Exn Buffer
}.

(** Node's [crypto] SHA-512 and xrpl-binary-codec's [sha512Half]. *)
Class Hashes : Type := {
  sha512 : Buffer -> Buffer;
  sha512Half : Buffer -> Buffer
}.

(** The runtime: UTF-8 decoding of [buf.toString()], [parseFloat] and
    [Number.prototype.toString]. *)
Class Runtime : Type := {
  utf8 : Buffer -> Text;
  parseFloat : string -> float;
  numberToString : float -> string
}.

(** xfl-helpers: the scaled-decimal codec, from a BigInt to decimal text. *)
Class XflHelpers : Type := {
  XflHelpers_toString : Z -> Result Exn string
}.

(** evernode-common: [HookStateKeys], hex text. *)
Record HookStateKeysT : Type := {
  EVR_ISSUER_ADDR : string;
  FOUNDATION_ADDR : string;
  MOMENT_SIZE : string;
  MINT_LIMIT : string;
  FIXED_REG_FEE : string;
  HOST_HEARTBEAT_FREQ : string;
  LEASE_ACQUIRE_WINDOW : string;
  REWARD_CONFIGURATION : string;
  MAX_TOLERABLE_DOWNTIME : string;
  MOMENT_TRANSIT_INFO : string;
  MAX_TRX_EMISSION_FEE : string;
  HEARTBEAT_ADDR : string;
  REGISTRY_ADDR : string;
  GOVERNANCE_CONFIGURATION : string;
  HOST_COUNT : string;
  MOMENT_BASE_INFO : string;
  HOST_REG_FEE : string;
  MAX_REG : string;
  REWARD_INFO : string;
  GOVERNANCE_INFO : string;
  PREFIX_HOST_TOKENID : string;
  PREFIX_HOST_ADDR : string;
  PREFIX_TRANSFEREE_ADDR : string;
  PREFIX_CANDIDATE_OWNER : string;
  PREFIX_CANDIDATE_ID : string
}.

(** evernode-common: the members of [EvernodeConstants] the helpers read. *)
Record EvernodeConstantsT : Type := {
  CANDIDATE_SUPPORTED : Z;
  CANDIDATE_ELECTED : Z;
  CANDIDATE_VETOED : Z;
  CANDIDATE_EXPIRED : Z;
  Piloted : Z;
  CoPiloted : Z;
  AutoPiloted : Z;
  NewHook : Z;
  PilotedMode : Z;
  DudHost : Z;
  HOOK_NAMESPACE : string;
  LEASE_TOKEN_PREFIX_HEX : string
}.

Class EvernodeCommon : Type := {
  HookStateKeys : HookStateKeysT;
  EvernodeConstants : EvernodeConstantsT
}.

End Collab.

Export Collab.

(* ================================================================== *)
(** ** src/state-helpers.js *)
(* ================================================================== *)

Module StateHelpers.

(** *** Offsets and constants of the module *)

Definition EPOCH_OFFSET : nat := 0.
Definition SAVED_MOMENT_OFFSET : nat := 1.
Definition PREV_MOMENT_ACTIVE_HOST_COUNT_OFFSET : nat := 5.
Definition CUR_MOMENT_ACTIVE_HOST_COUNT_OFFSET : nat := 9.
Definition EPOCH_POOL_OFFSET : nat := 13.

Definition EPOCH_COUNT_OFFSET : nat := 0.
Definition FIRST_EPOCH_REWARD_QUOTA_OFFSET : nat := 1.
Definition EPOCH_REWARD_AMOUNT_OFFSET : nat := 5.
Definition REWARD_START_MOMENT_OFFSET : nat := 9.

Definition TRANSIT_IDX_OFFSET : nat := 0.
Definition TRANSIT_MOMENT_SIZE_OFFSET : nat := 8.
Definition TRANSIT_MOMENT_TYPE_OFFSET : nat := 10.

Definition MOMENT_BASE_POINT_OFFSET : nat := 0.
Definition MOMENT_AT_TRANSITION_OFFSET : nat := 8.
Definition MOMENT_TYPE_OFFSET : nat := 12.

Definition ELIGIBILITY_PERIOD_OFFSET : nat := 0.
Definition CANDIDATE_LIFE_PERIOD_OFFSET : nat := 4.
Definition CANDIDATE_ELECTION_PERIOD_OFFSET : nat := 8.
Definition CANDIDATE_SUPPORT_AVERAGE_OFFSET : nat := 12.

Definition GOVERNANCE_MODE_OFFSET : nat := 0.
Definition LAST_CANDIDATE_IDX_OFFSET : nat := 1.
Definition VOTER_BASE_COUNT_OFFSET : nat := 5.
Definition VOTER_BASE_COUNT_CHANGED_TIMESTAMP_OFFSET : nat := 9.
Definition FOUNDATION_LAST_VOTED_CANDIDATE_IDX : nat := 17.
Definition FOUNDATION_LAST_VOTED_TIMESTAMP_OFFSET : nat := 21.
Definition ELECTED_PROPOSAL_UNIQUE_ID_OFFSET : nat := 29.
Definition PROPOSAL_ELECTED_TIMESTAMP_OFFSET : nat := 61.
Definition UPDATED_HOOK_COUNT_OFFSET : nat := 69.
Definition FOUNDATION_SUPPORT_VOTE_FLAG_OFFSET : nat := 70.

Definition HOST_TOKEN_ID_OFFSET : nat := 0.
Definition HOST_COUNTRY_CODE_OFFSET : nat := 32.
Definition HOST_RESERVED_OFFSET : nat := 34.
Definition HOST_DESCRIPTION_OFFSET : nat := 42.
Definition HOST_REG_LEDGER_OFFSET : nat := 68.
Definition HOST_REG_FEE_OFFSET : nat := 76.
Definition HOST_TOT_INS_COUNT_OFFSET : nat := 84.
Definition HOST_ACT_INS_COUNT_OFFSET : nat := 88.
Definition HOST_HEARTBEAT_TIMESTAMP_OFFSET : nat := 92.
Definition HOST_VERSION_OFFSET : nat := 100.
Definition HOST_REG_TIMESTAMP_OFFSET : nat := 103.
Definition HOST_TRANSFER_FLAG_OFFSET : nat := 111.
Definition HOST_LAST_VOTE_CANDIDATE_IDX_OFFSET : nat := 112.
Definition HOST_LAST_VOTE_TIMESTAMP_OFFSET : nat := 116.
Definition HOST_SUPPORT_VOTE_FLAG_OFFSET : nat := 124.

Definition HOST_ADDRESS_OFFSET : nat := 0.
Definition HOST_CPU_MODEL_NAME_OFFSET : nat := 20.
Definition HOST_CPU_COUNT_OFFSET : nat := 60.
Definition HOST_CPU_SPEED_OFFSET : nat := 62.
Definition HOST_CPU_MICROSEC_OFFSET : nat := 64.
Definition HOST_RAM_MB_OFFSET : nat := 68.
Definition HOST_DISK_MB_OFFSET : nat := 72.
Definition HOST_EMAIL_ADDRESS_OFFSET : nat := 76.

Definition PREV_HOST_ADDRESS_OFFSET : nat := 0.
Definition TRANSFER_LEDGER_IDX_OFFSET : nat := 20.
Definition TRANSFERRED_NFT_ID_OFFSET : nat := 28.

Definition CANDIDATE_GOVERNOR_HOOK_HASH_OFFSET : nat := 0.
Definition CANDIDATE_REGISTRY_HOOK_HASH_OFFSET : nat := 32.
Definition CANDIDATE_HEARTBEAT_HOOK_HASH_OFFSET : nat := 64.

Definition CANDIDATE_OWNER_ADDRESS_OFFSET : nat := 0.
Definition CANDIDATE_IDX_OFFSET : nat := 20.
Definition CANDIDATE_SHORT_NAME_OFFSET : nat := 24.
Definition CANDIDATE_CREATED_TIMESTAMP_OFFSET : nat := 44.
Definition CANDIDATE_PROPOSAL_FEE_OFFSET : nat := 52.
Definition CANDIDATE_POSITIVE_VOTE_COUNT_OFFSET : nat := 60.
Definition CANDIDATE_LAST_VOTE_TIMESTAMP_OFFSET : nat := 64.
Definition CANDIDATE_STATUS_OFFSET : nat := 72.
Definition CANDIDATE_STATUS_CHANGE_TIMESTAMP_OFFSET : nat := 73.
Definition CANDIDATE_FOUNDATION_VOTE_STATUS_OFFSET : nat := 81.

(** [STATE_KEY_TYPES]. *)
Module STATE_KEY_TYPES.
Definition TOKEN_ID : Z := 2.
Definition HOST_ADDR : Z := 3.
Definition TRANSFEREE_ADDR : Z := 4.
Definition CANDIDATE_OWNER : Z := 5.
Definition CANDIDATE_ID : Z := 6.
End STATE_KEY_TYPES.

(** [MOMENT_TYPES] and [TRANSFER_STATES]. *)
Definition MOMENT_TYPES_LEDGER : Z := 0.
Definition MOMENT_TYPES_TIMESTAMP : Z := 1.
Definition TRANSFER_STATES_NO_TRANSFER : Z := 0.
Definition TRANSFER_STATES_HAS_A_TRANSFER : Z := 1.

Definition EVERNODE_PREFIX : string := "EVR".
Definition HOST_ADDR_KEY_ZERO_COUNT : nat := 8.
Definition TRANSFEREE_ADDR_KEY_ZERO_COUNT : nat := 8.
Definition CANDIDATE_OWNER_KEY_ZERO_COUNT : nat := 8.
Definition HOOK_STATE_LEDGER_TYPE_PREFIX : Z := 118.
Definition PENDING_TRANSFER : Z := 1.
Definition HOST_EMAIL_ADDRESS_LEN : nat := 40.

(** [StateHelpers.StateTypes]; [stateTypeName] gives the text of each. *)
Inductive StateType : Type :=
| TOKEN_ID | HOST_ADDR | SIGLETON | CONFIGURATION
| TRANSFEREE_ADDR | CANDIDATE_OWNER | CANDIDATE_ID.

Definition stateTypeName (t : StateType) : string :=
  match t with
  | TOKEN_ID => "tokenId"
  | HOST_ADDR => "hostAddr"
  | SIGLETON => "singleton"
  | CONFIGURATION => "configuration"
  | TRANSFEREE_ADDR => "transfereeAddr"
  | CANDIDATE_OWNER => "candidateOwner"
  | CANDIDATE_ID => "candidateId"
  end.

(** *** Helpers for text and loops *)

(** [t.replace(/\0/g, '')]. *)
Definition removeNul (t : Text) : Text := filter (fun c => negb (N.eqb c 0)) t.

(** [t.replace(/\x00+$/, '')]. *)
Fixpoint trimEndNul (t : Text) : Text :=
  match t with
  | [] => []
  | c :: r =>
      match trimEndNul r with
      | [] => if N.eqb c 0 then [] else [c]
      | r' => c :: r'
      end
  end.

(** Decimal text of an integer Number, as a template literal prints it. *)
Definition decimal (z : Z) : string := NilZero.string_of_int (Z.to_int z).

(** [for (let i = 0; i < n; i++) body]: the body runs for i = from, from+1, ... *)
Fixpoint forLoop {S : Type} (n from : nat) (body : nat -> S -> Result Exn S) (s : S)
  : Result Exn S :=
  match n with
  | O => Ok s
  | Datatypes.S n' => s' <- body from s ;; forLoop n' (Datatypes.S from) body s'
  end.

(** [Buffer.allocUnsafe(n)]: [n] bytes of whatever the allocator's pool
    holds, given here as [mem]. *)
Definition allocUnsafe (n : nat) (mem : Buffer) : Buffer := firstn n (mem ++ repeat x00 n).

(** *** Decoded entities *)

Module HostAddress.
Record t : Type := mk {
  address : string;
  uriTokenId : string;
  countryCode : Text;
  description : Text;
  registrationLedger : Z;
  registrationFee : Z;
  maxInstances : Z;
  activeInstances : Z;
  lastHeartbeatIndex : Z;
  version : string;
  isATransferer : Z;
  lastVoteCandidateIdx : Z;
  lastVoteTimestamp : Z;
  supportVoteSent : Z;
  registrationTimestamp : option Z     (* [None]: the property is absent *)
}.

(** [data.registrationTimestamp = v]. *)
Definition set_registrationTimestamp (v : Z) (d : t) : t :=
  mk (address d) (uriTokenId d) (countryCode d) (description d) (registrationLedger d)
     (registrationFee d) (maxInstances d) (activeInstances d) (lastHeartbeatIndex d)
     (version d) (isATransferer d) (lastVoteCandidateIdx d) (lastVoteTimestamp d)
     (supportVoteSent d) (Some v).
End HostAddress.

Module TokenId.
Record t : Type := mk {
  address : string;
  cpuModelName : Text;
  cpuCount : Z;
  cpuMHz : Z;
  cpuMicrosec : Z;
  ramMb : Z;
  diskMb : Z;
  email : Text
}.
End TokenId.

Module TransfereeAddr.
Record t : Type := mk {
  futureOwnerAddress : string;
  prevHostAddressKey : string;
  prevHostAddress : string;
  transferLedgerIdx : Z;
  transferredNfTokenId : string
}.
End TransfereeAddr.

Module CandidateOwner.
Record t : Type := mk {
  ownerAddress : string;
  uniqueId : string;
  governorHookHash : string;
  registryHookHash : string;
  heartbeatHookHash : string
}.
End CandidateOwner.

Module CandidateId.
Record t : Type := mk {
  ownerAddress : string;
  index : Z;
  shortName : Text;
  createdTimestamp : Z;
  proposalFee : string;
  positiveVoteCount : Z;
  lastVoteTimestamp : Z;
  status : string;
  statusChangeTimestamp : Z;
  foundationVoteStatus : string
}.
End CandidateId.

(** What [decodeStateData] returns besides [type] and [key]: the spread
    fields of an entity, or the [value] property of a singleton or
    configuration entry. *)
Inductive StateBody : Type :=
| HostAddrFields (d : HostAddress.t)
| TokenIdFields (addressKey : string) (d : TokenId.t)
| TransfereeAddrFields (d : TransfereeAddr.t)
| CandidateOwnerFields (idKey : string) (d : CandidateOwner.t)
| CandidateIdFields (d : CandidateId.t)
| ValueNumber (value : Z)
| ValueAddress (value : string)
| ValueMomentBaseInfo (baseIdx baseTransitionMoment : Z) (momentType : string)
| ValueRewardConfiguration
    (epochCount firstEpochRewardQuota epochRewardAmount rewardStartMoment : Z)
| ValueRewardInfo
    (epoch savedMoment prevMomentActiveHostCount curMomentActiveHostCount : Z)
    (epochPool : string)
| ValueMomentTransitInfo (transitionIndex momentSize : Z) (momentType : string)
| ValueGovernanceConfiguration
    (eligibilityPeriod candidateLifePeriod candidateElectionPeriod
       candidateSupportAverage : Z)
| ValueGovernanceInfo
    (governanceMode : string)
    (lastCandidateIdx voteBaseCount voteBaseCountChangedTimestamp
       foundationLastVotedCandidateIdx foundationLastVotedTimestamp
       electedProposalUniqueId proposalElectedTimestamp updatedHookCount
       supportVoteSent : Z).

Record State : Type := mkState {
  state_type : StateType;
  state_key : string;
  state_body : StateBody
}.

(** The object [decodeStateKey] returns. *)
Record KeyInfo : Type := mkKeyInfo {
  key : string;
  type : StateType
}.

(** An element of the list [getStateData] searches: [{ key, data }]. *)
Record Entry : Type := mkEntry {
  entry_key : string;
  entry_data : Value
}.

Definition getStateData (states : list Entry) (key : string) : Value :=
  match find (fun s => VBool (String.eqb key (entry_key s))) states with
  | None => VNull
  | Some state => entry_data state
  end.

Section Decoders.

Context {codec : AddressCodec} {hashes : Hashes} {runtime : Runtime}
        {xfl : XflHelpers} {common : EvernodeCommon}.

(** *** Key generation *)

Definition generateHostAddrStateKey (mem : Buffer) (address : string) : Result Exn string :=
  (* 1 byte - Key Type.  8 bytes - Zeros. *)
  let buf := allocUnsafe 9 mem in
  buf <- writeUInt8 buf STATE_KEY_TYPES.HOST_ADDR 0 ;;
  buf <- forLoop HOST_ADDR_KEY_ZERO_COUNT 0 (fun i b => writeUInt8 b 0 (i + 1)) buf ;;
  addrBuf <- decodeAccountID address ;;
  let stateKeyBuf := fromLatin EVERNODE_PREFIX ++ buf ++ addrBuf in
  Ok (toUpperCase (toHex stateKeyBuf)).

Definition generateTransfereeAddrStateKey (mem : Buffer) (address : string)
  : Result Exn string :=
  let buf := allocUnsafe 9 mem in
  buf <- writeUInt8 buf STATE_KEY_TYPES.TRANSFEREE_ADDR 0 ;;
  buf <- forLoop TRANSFEREE_ADDR_KEY_ZERO_COUNT 0 (fun i b => writeUInt8 b 0 (i + 1)) buf ;;
  addrBuf <- decodeAccountID address ;;
  let stateKeyBuf := fromLatin EVERNODE_PREFIX ++ buf ++ addrBuf in
  Ok (toUpperCase (toHex stateKeyBuf)).

Definition generateCandidateOwnerStateKey (mem : Buffer) (owner : string)
  : Result Exn string :=
  let buf := allocUnsafe 9 mem in
  buf <- writeUInt8 buf STATE_KEY_TYPES.CANDIDATE_OWNER 0 ;;
  buf <- forLoop CANDIDATE_OWNER_KEY_ZERO_COUNT 0 (fun i b => writeUInt8 b 0 (i + 1)) buf ;;
  addrBuf <- decodeAccountID owner ;;
  let stateKeyBuf := fromLatin EVERNODE_PREFIX ++ buf ++ addrBuf in
  Ok (toUpperCase (toHex stateKeyBuf)).

(** [crypto.createHash('sha512')]: a hash object is the input fed to it so
    far; [digest('hex')] is the hex text of the SHA-512 of that input. *)
Definition createHash : Buffer := [].
Definition update (hash data : Buffer) : Buffer := hash ++ data.
Definition digestHex (hash : Buffer) : string := toHex (sha512 hash).

(** [hookNamespace] is [None] when the caller leaves the argument out. *)
Definition getHookStateIndex (mem : Buffer) (hookAccount stateKey : string)
    (hookNamespace : option string) : Result Exn string :=
  let hookNamespace :=
    match hookNamespace with
    | Some ns => ns
    | None => HOOK_NAMESPACE EvernodeConstants
    end in
  let typeBuf := allocUnsafe 2 mem in
  typeBuf <- writeInt16BE typeBuf HOOK_STATE_LEDGER_TYPE_PREFIX 0 ;;
  accIdBuf <- decodeAccountID hookAccount ;;
  let stateKeyBuf := fromHex stateKey in
  let namespaceBuf := fromHex hookNamespace in
  let hash := createHash in
  let data := update hash typeBuf in
  let data := update data accIdBuf in
  let data := update data stateKeyBuf in
  let data := update data namespaceBuf in
  let digest := digestHex data in
  (* Get the first 32 bytes of hash. *)
  Ok (toUpperCase (substring 0 64 digest)).

Definition getNewHookCandidateId (hashesBuf : Buffer) : Result Exn string :=
  let idBuf := alloc 32 x00 in
  idBuf <- writeUInt8 idBuf (NewHook EvernodeConstants) 4 ;;
  idBuf <- copy (sha512Half hashesBuf) idBuf 5 5 (length (sha512Half hashesBuf)) ;;
  Ok (toUpperCase (toHex idBuf)).

(** *** Entity decoders *)

Definition decodeHostAddressState (stateKeyBuf stateDataBuf : Buffer)
  : Result Exn HostAddress.t :=
  address <- encodeAccountID (sliceFrom stateKeyBuf 12) ;;
  let uriTokenId :=
    toUpperCase (toHex (slice stateDataBuf HOST_TOKEN_ID_OFFSET HOST_COUNTRY_CODE_OFFSET)) in
  let countryCode := utf8 (slice stateDataBuf HOST_COUNTRY_CODE_OFFSET HOST_RESERVED_OFFSET) in
  let description :=
    removeNul (utf8 (slice stateDataBuf HOST_DESCRIPTION_OFFSET HOST_REG_LEDGER_OFFSET)) in
  registrationLedger <- readBigUInt64BE stateDataBuf HOST_REG_LEDGER_OFFSET ;;
  registrationFee <- readBigUInt64BE stateDataBuf HOST_REG_FEE_OFFSET ;;
  maxInstances <- readUInt32BE stateDataBuf HOST_TOT_INS_COUNT_OFFSET ;;
  activeInstances <- readUInt32BE stateDataBuf HOST_ACT_INS_COUNT_OFFSET ;;
  lastHeartbeatIndex <- readBigUInt64BE stateDataBuf HOST_HEARTBEAT_TIMESTAMP_OFFSET ;;
  v0 <- readUInt8 stateDataBuf HOST_VERSION_OFFSET ;;
  v1 <- readUInt8 stateDataBuf (HOST_VERSION_OFFSET + 1) ;;
  v2 <- readUInt8 stateDataBuf (HOST_VERSION_OFFSET + 2) ;;
  let version := (decimal v0 ++ "." ++ decimal v1 ++ "." ++ decimal v2)%string in
  transferFlag <- readUInt8 stateDataBuf HOST_TRANSFER_FLAG_OFFSET ;;
  let isATransferer :=
    if transferFlag =? PENDING_TRANSFER
    then TRANSFER_STATES_HAS_A_TRANSFER else TRANSFER_STATES_NO_TRANSFER in
  lastVoteCandidateIdx <- readUInt32BE stateDataBuf HOST_LAST_VOTE_CANDIDATE_IDX_OFFSET ;;
  lastVoteTimestamp <- readBigUInt64BE stateDataBuf HOST_LAST_VOTE_TIMESTAMP_OFFSET ;;
  supportVoteSent <- readUInt8 stateDataBuf HOST_SUPPORT_VOTE_FLAG_OFFSET ;;
  let data :=
    HostAddress.mk address uriTokenId countryCode description
      (NumberOfBigInt registrationLedger) (NumberOfBigInt registrationFee)
      maxInstances activeInstances (NumberOfBigInt lastHeartbeatIndex)
      version isATransferer lastVoteCandidateIdx (NumberOfBigInt lastVoteTimestamp)
      supportVoteSent None in
  if (HOST_REG_TIMESTAMP_OFFSET <? length stateDataBuf)%nat
  then
    ts <- readBigUInt64BE stateDataBuf HOST_REG_TIMESTAMP_OFFSET ;;
    Ok (HostAddress.set_registrationTimestamp (NumberOfBigInt ts) data)
  else Ok data.

Definition decodeTokenIdState (stateDataBuf : Buffer) : Result Exn TokenId.t :=
  address <- encodeAccountID (slice stateDataBuf HOST_ADDRESS_OFFSET HOST_CPU_MODEL_NAME_OFFSET) ;;
  let cpuModelName :=
    trimEndNul (utf8 (slice stateDataBuf HOST_CPU_MODEL_NAME_OFFSET HOST_CPU_COUNT_OFFSET)) in
  cpuCount <- readUInt16BE stateDataBuf HOST_CPU_COUNT_OFFSET ;;
  cpuMHz <- readUInt16BE stateDataBuf HOST_CPU_SPEED_OFFSET ;;
  cpuMicrosec <- readUInt32BE stateDataBuf HOST_CPU_MICROSEC_OFFSET ;;
  ramMb <- readUInt32BE stateDataBuf HOST_RAM_MB_OFFSET ;;
  diskMb <- readUInt32BE stateDataBuf HOST_DISK_MB_OFFSET ;;
  let email :=
    removeNul (utf8 (slice stateDataBuf HOST_EMAIL_ADDRESS_OFFSET
                       (HOST_EMAIL_ADDRESS_OFFSET + HOST_EMAIL_ADDRESS_LEN))) in
  Ok (TokenId.mk address cpuModelName cpuCount cpuMHz cpuMicrosec ramMb diskMb email).

Definition decodeTransfereeAddrState (mem stateKeyBuf stateDataBuf : Buffer)
  : Result Exn TransfereeAddr.t :=
  prevHostClassicAddress <-
    encodeAccountID (slice stateDataBuf PREV_HOST_ADDRESS_OFFSET TRANSFER_LEDGER_IDX_OFFSET) ;;
  futureOwnerAddress <- encodeAccountID (sliceFrom stateKeyBuf 12) ;;
  prevHostAddressKey <- generateHostAddrStateKey mem prevHostClassicAddress ;;
  transferLedgerIdx <- readBigUInt64BE stateDataBuf TRANSFER_LEDGER_IDX_OFFSET ;;
  let transferredNfTokenId :=
    toUpperCase (toHex (slice stateDataBuf TRANSFERRED_NFT_ID_OFFSET 60)) in
  Ok (TransfereeAddr.mk futureOwnerAddress prevHostAddressKey prevHostClassicAddress
        (NumberOfBigInt transferLedgerIdx) transferredNfTokenId).

Definition decodeCandidateOwnerState (stateKeyBuf stateDataBuf : Buffer)
  : Result Exn CandidateOwner.t :=
  ownerAddress <- encodeAccountID (sliceFrom stateKeyBuf 12) ;;
  uniqueId <- getNewHookCandidateId stateDataBuf ;;
  let governorHookHash :=
    toUpperCase (toHex (slice stateDataBuf CANDIDATE_GOVERNOR_HOOK_HASH_OFFSET
                          CANDIDATE_REGISTRY_HOOK_HASH_OFFSET)) in
  let registryHookHash :=
    toUpperCase (toHex (slice stateDataBuf CANDIDATE_REGISTRY_HOOK_HASH_OFFSET
                          CANDIDATE_HEARTBEAT_HOOK_HASH_OFFSET)) in
  let heartbeatHookHash :=
    toUpperCase (toHex (slice stateDataBuf CANDIDATE_HEARTBEAT_HOOK_HASH_OFFSET
                          (CANDIDATE_HEARTBEAT_HOOK_HASH_OFFSET + 32))) in
  Ok (CandidateOwner.mk ownerAddress uniqueId governorHookHash registryHookHash
        heartbeatHookHash).

Definition decodeCandidateIdState (stateDataBuf : Buffer) : Result Exn CandidateId.t :=
  s <- readUInt8 stateDataBuf CANDIDATE_STATUS_OFFSET ;;
  let status :=
    if s =? CANDIDATE_SUPPORTED EvernodeConstants then "supported"
    else if s =? CANDIDATE_ELECTED EvernodeConstants then "elected"
    else if s =? CANDIDATE_VETOED EvernodeConstants then "vetoed"
    else if s =? CANDIDATE_EXPIRED EvernodeConstants then "expired"
    else "rejected" in
  ownerAddress <-
    encodeAccountID (slice stateDataBuf CANDIDATE_OWNER_ADDRESS_OFFSET CANDIDATE_IDX_OFFSET) ;;
  index <- readUInt32BE stateDataBuf CANDIDATE_IDX_OFFSET ;;
  let shortName :=
    trimEndNul (utf8 (slice stateDataBuf CANDIDATE_SHORT_NAME_OFFSET
                        CANDIDATE_CREATED_TIMESTAMP_OFFSET)) in
  createdTimestamp <- readBigUInt64BE stateDataBuf CANDIDATE_CREATED_TIMESTAMP_OFFSET ;;
  fee <- readBigInt64BE stateDataBuf CANDIDATE_PROPOSAL_FEE_OFFSET ;;
  proposalFee <- XflHelpers_toString fee ;;
  positiveVoteCount <- readUInt32BE stateDataBuf CANDIDATE_POSITIVE_VOTE_COUNT_OFFSET ;;
  lastVoteTimestamp <- readBigUInt64BE stateDataBuf CANDIDATE_LAST_VOTE_TIMESTAMP_OFFSET ;;
  statusChangeTimestamp <-
    readBigUInt64BE stateDataBuf CANDIDATE_STATUS_CHANGE_TIMESTAMP_OFFSET ;;
  f <- readUInt8 stateDataBuf CANDIDATE_FOUNDATION_VOTE_STATUS_OFFSET ;;
  let foundationVoteStatus :=
    if f =? CANDIDATE_SUPPORTED EvernodeConstants then "supported" else "rejected" in
  Ok (CandidateId.mk ownerAddress index shortName (NumberOfBigInt createdTimestamp)
        proposalFee positiveVoteCount (NumberOfBigInt lastVoteTimestamp) status
        (NumberOfBigInt statusChangeTimestamp) foundationVoteStatus).

(** *** Dispatch on the key *)

(** [Buffer.from(prefix, 'hex').compare(stateKey, 0, 4) === 0]. *)
Definition hasPrefix (prefix : string) (stateKey : Buffer) : Result Exn bool :=
  c <- compareRange (fromHex prefix) stateKey 0 4 ;;
  Ok (c =? 0).

(** [Buffer.from(k, 'hex').compare(stateKey) === 0]. *)
Definition isKey (k : string) (stateKey : Buffer) : bool :=
  compare (fromHex k) stateKey =? 0.

Definition decodeStateData (mem stateKey stateData : Buffer) : Result Exn State :=
  let K := HookStateKeys in
  let C := EvernodeConstants in
  let hexKey := toUpperCase (toHex stateKey) in
  m <- hasPrefix (PREFIX_HOST_ADDR K) stateKey ;;
  if m then
    (d <- decodeHostAddressState stateKey stateData ;;
     Ok (mkState HOST_ADDR hexKey (HostAddrFields d)))
  else
  m <- hasPrefix (PREFIX_HOST_TOKENID K) stateKey ;;
  if m then
    ((* Generate the address state key. *)
     let addressKeyBuf := alloc 32 x00 in
     let p := fromHex (PREFIX_HOST_ADDR K) in
     addressKeyBuf <- copy p addressKeyBuf 0 0 (length p) ;;
     addressKeyBuf <-
       copy stateData addressKeyBuf 12 HOST_ADDRESS_OFFSET HOST_CPU_MODEL_NAME_OFFSET ;;
     d <- decodeTokenIdState stateData ;;
     Ok (mkState TOKEN_ID hexKey (TokenIdFields (toUpperCase (toHex addressKeyBuf)) d)))
  else
  m <- hasPrefix (PREFIX_TRANSFEREE_ADDR K) stateKey ;;
  if m then
    (d <- decodeTransfereeAddrState mem stateKey stateData ;;
     Ok (mkState TRANSFEREE_ADDR hexKey (TransfereeAddrFields d)))
  else
  m <- hasPrefix (PREFIX_CANDIDATE_OWNER K) stateKey ;;
  if m then
    (decoded <- decodeCandidateOwnerState stateKey stateData ;;
     (* Generate the address state key. *)
     let idBuf := alloc 32 x00 in
     let p := fromHex (PREFIX_CANDIDATE_ID K) in
     idBuf <- copy p idBuf 0 0 (length p) ;;
     idBuf <- copy (fromHex (CandidateOwner.uniqueId decoded)) idBuf 4 4 32 ;;
     Ok (mkState CANDIDATE_OWNER hexKey
           (CandidateOwnerFields (toUpperCase (toHex idBuf)) decoded)))
  else
  m <- hasPrefix (PREFIX_CANDIDATE_ID K) stateKey ;;
  if m then
    (d <- decodeCandidateIdState stateData ;;
     Ok (mkState CANDIDATE_ID hexKey (CandidateIdFields d)))
  else if isKey (HOST_COUNT K) stateKey then
    (v <- readUInt32BE stateData 0 ;;
     Ok (mkState SIGLETON hexKey (ValueNumber v)))
  else if isKey (MOMENT_BASE_INFO K) stateKey then
    (baseIdx <- readBigUInt64BE stateData MOMENT_BASE_POINT_OFFSET ;;
     baseTransitionMoment <-
       (if (MOMENT_AT_TRANSITION_OFFSET <? length stateData)%nat
        then readUInt32BE stateData MOMENT_AT_TRANSITION_OFFSET
        else Ok 0) ;;
     momentType <-
       (if (length stateData <=? MOMENT_TYPE_OFFSET)%nat then Ok "ledger"
        else (t <- readUInt8 stateData MOMENT_TYPE_OFFSET ;;
              Ok (if t =? MOMENT_TYPES_LEDGER then "ledger" else "timestamp"))) ;;
     Ok (mkState SIGLETON hexKey
           (ValueMomentBaseInfo (NumberOfBigInt baseIdx) baseTransitionMoment momentType)))
  else if isKey (HOST_REG_FEE K) stateKey || isKey (MAX_REG K) stateKey then
    (v <- readBigUInt64BE stateData 0 ;;
     Ok (mkState SIGLETON hexKey (ValueNumber (NumberOfBigInt v))))
  else if isKey (REGISTRY_ADDR K) stateKey
          || isKey (HEARTBEAT_ADDR K) stateKey
          || isKey (EVR_ISSUER_ADDR K) stateKey
          || isKey (FOUNDATION_ADDR K) stateKey then
    (a <- encodeAccountID stateData ;;
     Ok (mkState CONFIGURATION hexKey (ValueAddress a)))
  else if isKey (MOMENT_SIZE K) stateKey
          || isKey (HOST_HEARTBEAT_FREQ K) stateKey
          || isKey (LEASE_ACQUIRE_WINDOW K) stateKey then
    (v <- readUInt16BE stateData 0 ;;
     Ok (mkState CONFIGURATION hexKey (ValueNumber v)))
  else if isKey (MINT_LIMIT K) stateKey || isKey (FIXED_REG_FEE K) stateKey then
    (v <- readBigUInt64BE stateData 0 ;;
     Ok (mkState CONFIGURATION hexKey (ValueNumber (NumberOfBigInt v))))
  else if isKey (REWARD_CONFIGURATION K) stateKey then
    (epochCount <- readUInt8 stateData EPOCH_COUNT_OFFSET ;;
     firstEpochRewardQuota <- readUInt32BE stateData FIRST_EPOCH_REWARD_QUOTA_OFFSET ;;
     epochRewardAmount <- readUInt32BE stateData EPOCH_REWARD_AMOUNT_OFFSET ;;
     rewardStartMoment <- readUInt32BE stateData REWARD_START_MOMENT_OFFSET ;;
     Ok (mkState CONFIGURATION hexKey
           (ValueRewardConfiguration epochCount firstEpochRewardQuota epochRewardAmount
              rewardStartMoment)))
  else if isKey (REWARD_INFO K) stateKey then
    (epoch <- readUInt8 stateData EPOCH_OFFSET ;;
     savedMoment <- readUInt32BE stateData SAVED_MOMENT_OFFSET ;;
     prevMomentActiveHostCount <-
       readUInt32BE stateData PREV_MOMENT_ACTIVE_HOST_COUNT_OFFSET ;;
     curMomentActiveHostCount <-
       readUInt32BE stateData CUR_MOMENT_ACTIVE_HOST_COUNT_OFFSET ;;
     pool <- readBigInt64BE stateData EPOCH_POOL_OFFSET ;;
     epochPool <- XflHelpers_toString pool ;;
     Ok (mkState SIGLETON hexKey
           (ValueRewardInfo epoch savedMoment prevMomentActiveHostCount
              curMomentActiveHostCount epochPool)))
  else if isKey (MAX_TOLERABLE_DOWNTIME K) stateKey then
    (v <- readUInt16BE stateData 0 ;;
     Ok (mkState CONFIGURATION hexKey (ValueNumber v)))
  else if isKey (MOMENT_TRANSIT_INFO K) stateKey then
    (_ <- readUInt8 (alloc 1 x00) 0 ;;
     transitionIndex <- readBigInt64BE stateData TRANSIT_IDX_OFFSET ;;
     momentSize <- readUInt16BE stateData TRANSIT_MOMENT_SIZE_OFFSET ;;
     t <- readUInt8 stateData TRANSIT_MOMENT_TYPE_OFFSET ;;
     Ok (mkState CONFIGURATION hexKey
           (ValueMomentTransitInfo (NumberOfBigInt transitionIndex) momentSize
              (if t =? MOMENT_TYPES_LEDGER then "ledger" else "timestamp"))))
  else if isKey (MAX_TRX_EMISSION_FEE K) stateKey then
    (v <- readBigUInt64BE stateData 0 ;;
     Ok (mkState CONFIGURATION hexKey (ValueNumber (NumberOfBigInt v))))
  else if isKey (GOVERNANCE_CONFIGURATION K) stateKey then
    (eligibilityPeriod <- readUInt32BE stateData ELIGIBILITY_PERIOD_OFFSET ;;
     candidateLifePeriod <- readUInt32BE stateData CANDIDATE_LIFE_PERIOD_OFFSET ;;
     candidateElectionPeriod <- readUInt32BE stateData CANDIDATE_ELECTION_PERIOD_OFFSET ;;
     candidateSupportAverage <- readUInt16BE stateData CANDIDATE_SUPPORT_AVERAGE_OFFSET ;;
     Ok (mkState CONFIGURATION hexKey
           (ValueGovernanceConfiguration eligibilityPeriod candidateLifePeriod
              candidateElectionPeriod candidateSupportAverage)))
  else if isKey (GOVERNANCE_INFO K) stateKey then
    (g <- readUInt8 stateData GOVERNANCE_MODE_OFFSET ;;
     let mode :=
       if g =? Piloted C then "piloted"
       else if g =? CoPiloted C then "co-piloted"
       else if g =? AutoPiloted C then "auto-piloted"
       else "undefined" in
     lastCandidateIdx <- readUInt32BE stateData LAST_CANDIDATE_IDX_OFFSET ;;
     voteBaseCount <- readUInt32BE stateData VOTER_BASE_COUNT_OFFSET ;;
     voteBaseCountChangedTimestamp <-
       readBigUInt64BE stateData VOTER_BASE_COUNT_CHANGED_TIMESTAMP_OFFSET ;;
     foundationLastVotedCandidateIdx <-
       readUInt32BE stateData FOUNDATION_LAST_VOTED_CANDIDATE_IDX ;;
     foundationLastVotedTimestamp <-
       readBigUInt64BE stateData FOUNDATION_LAST_VOTED_TIMESTAMP_OFFSET ;;
     electedProposalUniqueId <- readUInt32BE stateData ELECTED_PROPOSAL_UNIQUE_ID_OFFSET ;;
     proposalElectedTimestamp <-
       readBigUInt64BE stateData PROPOSAL_ELECTED_TIMESTAMP_OFFSET ;;
     updatedHookCount <- readUInt8 stateData UPDATED_HOOK_COUNT_OFFSET ;;
     supportVoteSent <- readUInt8 stateData FOUNDATION_SUPPORT_VOTE_FLAG_OFFSET ;;
     Ok (mkState CONFIGURATION hexKey
           (ValueGovernanceInfo mode lastCandidateIdx voteBaseCount
              (NumberOfBigInt voteBaseCountChangedTimestamp)
              foundationLastVotedCandidateIdx
              (NumberOfBigInt foundationLastVotedTimestamp)
              electedProposalUniqueId
              (NumberOfBigInt proposalElectedTimestamp)
              updatedHookCount supportVoteSent)))
  else
    Throw (Thrown "Validation Error" "Invalid state key.").

Definition decodeStateKey (stateKey : Buffer) : Result Exn KeyInfo :=
  let K := HookStateKeys in
  let hexKey := toUpperCase (toHex stateKey) in
  m <- hasPrefix (PREFIX_HOST_ADDR K) stateKey ;;
  if m then Ok (mkKeyInfo hexKey HOST_ADDR)
  else
  m <- hasPrefix (PREFIX_HOST_TOKENID K) stateKey ;;
  if m then Ok (mkKeyInfo hexKey TOKEN_ID)
  else
  m <- hasPrefix (PREFIX_TRANSFEREE_ADDR K) stateKey ;;
  if m then Ok (mkKeyInfo hexKey TRANSFEREE_ADDR)
  else
  m <- hasPrefix (PREFIX_CANDIDATE_ID K) stateKey ;;
  if m then Ok (mkKeyInfo hexKey CANDIDATE_ID)
  else
  m <- hasPrefix (PREFIX_CANDIDATE_OWNER K) stateKey ;;
  if m then Ok (mkKeyInfo hexKey CANDIDATE_OWNER)
  else if isKey (HOST_COUNT K) stateKey
          || isKey (MOMENT_BASE_INFO K) stateKey
          || isKey (HOST_REG_FEE K) stateKey
          || isKey (MAX_REG K) stateKey
          || isKey (REWARD_INFO K) stateKey then
    Ok (mkKeyInfo hexKey SIGLETON)
  else if isKey (EVR_ISSUER_ADDR K) stateKey
          || isKey (FOUNDATION_ADDR K) stateKey
          || isKey (MOMENT_SIZE K) stateKey
          || truthy (compare (fromHex (HOST_HEARTBEAT_FREQ K)) stateKey)
          || isKey (MINT_LIMIT K) stateKey
          || isKey (FIXED_REG_FEE K) stateKey
          || isKey (LEASE_ACQUIRE_WINDOW K) stateKey
          || isKey (REWARD_CONFIGURATION K) stateKey
          || isKey (MAX_TOLERABLE_DOWNTIME K) stateKey
          || isKey (MOMENT_TRANSIT_INFO K) stateKey
          || isKey (MAX_TRX_EMISSION_FEE K) stateKey
          || isKey (REGISTRY_ADDR K) stateKey
          || isKey (HEARTBEAT_ADDR K) stateKey
          || isKey (GOVERNANCE_CONFIGURATION K) stateKey
          || isKey (GOVERNANCE_INFO K) stateKey then
    Ok (mkKeyInfo hexKey CONFIGURATION)
  else
    Throw (Thrown "Validation Error" "Invalid state key.").

(** *** The content-keyed generators and the candidate identifiers *)

Definition generateTokenIdStateKey (mem : Buffer) (uriToken : string) : Result Exn string :=
  (* 1 byte - Key Type. *)
  let buf := allocUnsafe 1 mem in
  buf <- writeUInt8 buf STATE_KEY_TYPES.TOKEN_ID 0 ;;
  let uriTokenBuf := fromHex uriToken in
  let stateKeyBuf := fromLatin EVERNODE_PREFIX ++ buf ++ slice uriTokenBuf 4 32 in
  Ok (toUpperCase (toHex stateKeyBuf)).

Definition generateCandidateIdStateKey (mem : Buffer) (uniqueId : string)
  : Result Exn string :=
  (* 1 byte - Key Type. *)
  let buf := allocUnsafe 1 mem in
  buf <- writeUInt8 buf STATE_KEY_TYPES.CANDIDATE_ID 0 ;;
  let idBuf := fromHex uniqueId in
  let stateKeyBuf := fromLatin EVERNODE_PREFIX ++ buf ++ slice idBuf 4 32 in
  Ok (toUpperCase (toHex stateKeyBuf)).

Definition getPilotedModeCandidateId : Result Exn string :=
  let idBuf := alloc 32 x00 in
  idBuf <- writeUInt8 idBuf (PilotedMode EvernodeConstants) 4 ;;
  let namespaceBuf := fromHex (HOOK_NAMESPACE EvernodeConstants) in
  idBuf <- copy namespaceBuf idBuf 5 5 (length namespaceBuf) ;;
  Ok (toUpperCase (toHex idBuf)).

Definition getDudHostCandidateId (hostAddress : string) : Result Exn string :=
  let idBuf := alloc 32 x00 in
  idBuf <- writeUInt8 idBuf (DudHost EvernodeConstants) 4 ;;
  accIdBuf <- decodeAccountID hostAddress ;;
  idBuf <- copy accIdBuf idBuf 12 0 (length accIdBuf) ;;
  Ok (toUpperCase (toHex idBuf)).

Definition getCandidateType (candidateId : string) : Result Exn Z :=
  readUInt8 (fromHex candidateId) 4.

End Decoders.

End StateHelpers.

(* ================================================================== *)
(** ** src/util-helpers.js *)
(* ================================================================== *)

Module UtilHelpers.

(** transaction-helper. *)
Class TransactionHelper : Type := {
  hexToASCII : string -> string
}.

Record LeaseDescriptor : Type := mkLease {
  leaseIndex : Z;
  halfTos : Buffer;
  leaseAmount : Value
}.

Section Lease.

Context {runtime : Runtime} {xfl : XflHelpers} {common : EvernodeCommon}
        {th : TransactionHelper}.

(** The layout both functions apply to the decoded buffer.  [prefixLen] is
    half the length of the prefix text; when that length is odd the offset
    is not an integer and the first read refuses it. *)
Definition decodeLeaseNftUri (hexUri : string) : Result Exn LeaseDescriptor :=
  (* <prefix><lease index (uint16)><half of tos hash (16 bytes)><lease amount (uint32)> *)
  let prefixHexLen := String.length (LEASE_TOKEN_PREFIX_HEX EvernodeConstants) in
  let halfToSLen := 16%nat in
  let uriBuf := fromHex hexUri in
  if Nat.odd prefixHexLen then Throw RangeError
  else
    let prefixLen := (prefixHexLen / 2)%nat in
    leaseIndex <- readUInt16BE uriBuf prefixLen ;;
    let halfTos := slice uriBuf (prefixLen + 2) halfToSLen in
    amount <- readBigInt64BE uriBuf (prefixLen + 2 + halfToSLen) ;;
    text <- XflHelpers_toString amount ;;
    Ok (mkLease leaseIndex halfTos (VNumber (parseFloat text))).

Definition decodeLeaseTokenUri (hexUri : string) : Result Exn LeaseDescriptor :=
  let asciiUri := hexToASCII hexUri in
  let uriBuf := fromBase64 asciiUri in
  let prefixHexLen := String.length (LEASE_TOKEN_PREFIX_HEX EvernodeConstants) in
  let halfToSLen := 16%nat in
  if Nat.odd prefixHexLen then Throw RangeError
  else
    let prefixLen := (prefixHexLen / 2)%nat in
    leaseIndex <- readUInt16BE uriBuf prefixLen ;;
    let halfTos := slice uriBuf (prefixLen + 2) halfToSLen in
    amount <- readBigInt64BE uriBuf (prefixLen + 2 + halfToSLen) ;;
    text <- XflHelpers_toString amount ;;
    Ok (mkLease leaseIndex halfTos (VNumber (parseFloat text))).

End Lease.

End UtilHelpers.

(* ================================================================== *)
(** ** src/clients/tenant-client.js *)
(* ================================================================== *)

Module TenantClient.

Definition DEFAULT_WAIT_TIMEOUT : float := 60000%float.

(** evernode-common: the members of [ErrorReasons] and [ErrorCodes] the
    tenant client names. *)
Inductive ErrorReason : Type :=
| HOST_INVALID | HOST_INACTIVE | NO_OFFER | INTERNAL_ERR
| TIMEOUT | NO_TOKEN | TRANSACTION_FAILURE.

Inductive ErrorCode : Type := ACQUIRE_ERR | EXTEND_ERR.

(** What an awaited call raises: an object [{ reason, error }] thrown by
    the client, or an exception of the runtime or of a collaborator. *)
Inductive Failure : Type :=
| Reason (reason : ErrorReason) (error : string)
| Native (e : Exn).

Definition native {A : Type} (r : Result Exn A) : Result Failure A :=
  match r with
  | Ok a => Ok a
  | Throw e => Throw (Native e)
  end.

Record UriToken : Type := mkUriToken {
  index : string;
  URI : string;
  Issuer : string
}.

Record HostInfo : Type := mkHostInfo { active : bool }.

Record Tx : Type := mkTx {
  id : string;
  ledger_index : float      (* tx.details.ledger_index *)
}.

Record Memo : Type := mkMemo { memo_type : string; memo_format : string; memo_data : string }.
Record HookParam : Type := mkHookParam { param_name : string; param_value : string }.

Record ExtendResponse : Type := mkExtendResponse {
  transaction : Value;
  expiryMoment : Value;
  extendRefId : Value
}.

Inductive Content : Type :=
| ContentText (s : string)
| ContentError (e : Failure).

(** The object a promise of the client is rejected with. *)
Record Rejection : Type := mkRejection {
  rej_error : ErrorCode;
  rej_reason : ErrorReason + Value;   (* a member of ErrorReasons, or what the event reports *)
  rej_content : option Content
}.

(** How a promise built with [new Promise(async (resolve, reject) => ...)]
    ends.  An exception inside the async executor reaches neither
    [resolve] nor [reject]: the promise stays pending. *)
Inductive Outcome (A : Type) : Type :=
| Resolved (a : A)
| Rejected (r : Rejection)
| Pending.

Arguments Resolved {A} a.
Arguments Rejected {A} r.
Arguments Pending {A}.

(** The collaborators of a tenant client instance: constants of
    evernode-common, the XRPL account and API objects, the helpers of
    other modules.  [pollExtend tx delay] stands for the remainder of
    [watchExtendResponse] once its fail timer is armed with [delay]: the
    race between that timer and the polling loop, which runs on the event
    loop. *)
Class Client : Type := {
  TOKEN_PREFIX_HEX : string;
  EVR : string;
  ACQUIRE_LEASE : string;
  EXTEND_LEASE : string;
  BASE64 : string;
  PARAM_EVENT_TYPE_KEY : string;
  PARAM_EVENT_DATA1_KEY : string;
  registryAddress : string;
  evrIssuerAddress : string;
  ownAddress : string;
  ledgerIndex : Value;
  getURITokens : string -> Result Failure (option (list UriToken));
  getHostInfo : string -> Result Failure (option HostInfo);
  getLeaseOffers : string -> Result Failure (option (list UriToken));
  getMessageKey : string -> Result Failure Value;
  encrypt : Value -> Value -> Value -> Value -> Result Failure string;
  buyURIToken : UriToken -> list Memo -> list HookParam -> Value -> Result Failure Tx;
  makePayment :
    string -> string -> string -> string -> list HookParam -> Value -> Result Failure Tx;
  pollExtend : Tx -> Value -> Outcome ExtendResponse
}.

(** [a === b] on primitives. *)
Definition strictEquals (a b : Value) : Value :=
  VBool
    match a, b with
    | VUndefined, VUndefined => true
    | VNull, VNull => true
    | VBool x, VBool y => Bool.eqb x y
    | VNumber x, VNumber y => PrimFloat.eqb x y
    | VString x, VString y => String.eqb x y
    | _, _ => false
    end.

(** An arrow function whose body is a block [{ statement }]: the statement
    is evaluated and, with no [return], the call gives [undefined]. *)
Definition block (statement : Value) : Value := VUndefined.

Section Tenant.

Context {runtime : Runtime} {xfl : XflHelpers} {common : EvernodeCommon}
        {th : UtilHelpers.TransactionHelper} {client : Client}.

Definition getLeaseHost (hostAddress : string) : Result Failure string :=
  let host := hostAddress in
  (* Find an owned URI token with matching Evernode host NFT prefix. *)
  tokens <- getURITokens host ;;
  tokens <- match tokens with
            | Some l => Ok l
            | None => Throw (Native TypeError)
            end ;;
  match find (fun n => VBool (String.prefix TOKEN_PREFIX_HEX (URI n))) tokens with
  | None => Throw (Reason HOST_INVALID "Host is not registered.")
  | Some uriToken =>
      (* Check whether the token was actually issued from Evernode registry contract. *)
      if negb (String.eqb (Issuer uriToken) registryAddress)
      then Throw (Reason HOST_INVALID "Host is not registered.")
      else
        (* Check whether active. *)
        hostInfo <- getHostInfo host ;;
        match hostInfo with
        | None => Throw (Reason HOST_INVALID "Host is not registered.")
        | Some info =>
            if negb (active info)
            then Throw (Reason HOST_INACTIVE "Host is not active.")
            else Ok host
        end
  end.

Definition acquireLeaseSubmit (hostAddress : string) (requirement options : Value)
  : Result Failure Tx :=
  let options := defaultEmpty options in
  hostAcc <- getLeaseHost hostAddress ;;
  selectedOfferIndex <- native (get options "leaseOfferIndex") ;;
  uriTokenOffers <- getLeaseOffers hostAcc ;;
  let buyUriOffer :=
    if negb (ToBoolean selectedOfferIndex) then
      (* Attempt to get first available offer, if offer is not specified in options. *)
      match uriTokenOffers with
      | None => None
      | Some offers => nth_error offers 0
      end
    else
      (* Attempt to get relevant available offer using selectedOfferIndex. *)
      match uriTokenOffers with
      | None => None
      | Some offers =>
          find (fun uriOffer =>
                  block (strictEquals (VString (index uriOffer)) selectedOfferIndex))
               offers
      end in
  match buyUriOffer with
  | None => Throw (Reason NO_OFFER "No offers available.")
  | Some buyUriOffer =>
      (* Encrypt the requirements with the host's encryption key. *)
      encKey <- getMessageKey hostAcc ;;
      if negb (ToBoolean encKey)
      then Throw (Reason INTERNAL_ERR "Host encryption key not set.")
      else
        iv <- native (get options "iv") ;;
        ephemPrivateKey <- native (get options "ephemPrivateKey") ;;
        ecrypted <- encrypt encKey requirement iv ephemPrivateKey ;;
        transactionOptions <- native (get options "transactionOptions") ;;
        buyURIToken buyUriOffer
          [mkMemo ACQUIRE_LEASE BASE64 ecrypted]
          [mkHookParam PARAM_EVENT_TYPE_KEY ACQUIRE_LEASE]
          transactionOptions
  end.

Definition extendLeaseSubmit (hostAddress : string) (amount : float) (tokenID : string)
    (options : Value) : Result Failure Tx :=
  let options := defaultEmpty options in
  host <- getLeaseHost hostAddress ;;
  let amountText := numberToString amount in
  transactionOptions <- native (get options "transactionOptions") ;;
  makePayment host amountText EVR evrIssuerAddress
    [mkHookParam PARAM_EVENT_TYPE_KEY EXTEND_LEASE;
     mkHookParam PARAM_EVENT_DATA1_KEY tokenID]
    transactionOptions.

(** The fail timer is armed with [options.timeout || DEFAULT_WAIT_TIMEOUT]
    before the first poll. *)
Definition watchExtendResponse (tx : Tx) (options : Value) : Outcome ExtendResponse :=
  let options := defaultEmpty options in
  match get options "timeout" with
  | Throw _ => Pending
  | Ok timeout => pollExtend tx (or timeout (VNumber DEFAULT_WAIT_TIMEOUT))
  end.

(** [reject({ error: EXTEND_ERR, reason: error.reason || TRANSACTION_FAILURE,
              content: error.error || error })]. *)
Definition submitRejection (code : ErrorCode) (error : Failure) : Rejection :=
  match error with
  | Reason r e =>
      mkRejection code (inl r)
        (Some (if String.eqb e "" then ContentError error else ContentText e))
  | Native _ => mkRejection code (inl TRANSACTION_FAILURE) (Some (ContentError error))
  end.

Definition extendLease (hostAddress : string) (moments : float) (instanceName : string)
    (options : Value) : Outcome ExtendResponse :=
  let options := defaultEmpty options in
  let tokenID := instanceName in
  match getURITokens ownAddress with
  | Throw _ => Pending
  | Ok tokens =>
      let uriToken :=
        match tokens with
        | None => None
        | Some l => find (fun n => VBool (String.eqb (index n) tokenID)) l
        end in
      match uriToken with
      | None =>
          Rejected (mkRejection EXTEND_ERR (inl NO_TOKEN)
                      (Some (ContentText "Could not find the uri token for lease extend request.")))
      | Some uriToken =>
          let minLedgerIndex := ledgerIndex in
          (* Get the agreement lease amount from the nft and calculate EVR amount to be sent. *)
          match UtilHelpers.decodeLeaseTokenUri (URI uriToken) with
          | Throw _ => Pending
          | Ok uriInfo =>
              let amount :=
                match UtilHelpers.leaseAmount uriInfo with
                | VNumber x => PrimFloat.mul moments x
                | _ => PrimFloat.nan
                end in
              match extendLeaseSubmit hostAddress amount tokenID options with
              | Throw error => Rejected (submitRejection EXTEND_ERR error)
              | Ok tx =>
                  (* watchExtendResponse(tx, minLedgerIndex, options): the
                     function declares (tx, options = {}); the third
                     argument has no parameter. *)
                  watchExtendResponse tx minLedgerIndex
              end
          end
      end
  end.

End Tenant.

(** *** The acquire flow *)

Record AcquireResponse : Type := mkAcquireResponse {
  acquire_transaction : Value;
  instance : Value;
  acquireRefId : Value
}.

(** [pollAcquire tx delay] stands for the remainder of
    [watchAcquireResponse] once its fail timer is armed with [delay], as
    [pollExtend] does for the extend flow. *)
Class AcquireWatch : Type := {
  pollAcquire : Tx -> Value -> Outcome AcquireResponse
}.

Section Acquire.

Context {client : Client} {watch : AcquireWatch}.

Definition watchAcquireResponse (tx : Tx) (options : Value) : Outcome AcquireResponse :=
  let options := defaultEmpty options in
  match get options "timeout" with
  | Throw _ => Pending
  | Ok timeout => pollAcquire tx (or timeout (VNumber DEFAULT_WAIT_TIMEOUT))
  end.

Definition acquireLease (hostAddress : string) (requirement options : Value)
  : Outcome AcquireResponse :=
  let options := defaultEmpty options in
  match acquireLeaseSubmit hostAddress requirement options with
  | Throw error => Rejected (submitRejection ACQUIRE_ERR error)
  | Ok tx => watchAcquireResponse tx options
  end.

End Acquire.

End TenantClient.

(* ================================================================== *)
(** ** src/clients/tenant-client.js: the two watch loops *)
(* ================================================================== *)

(** [watchAcquireResponse] and [watchExtendResponse] on a clock of
    milliseconds that starts at the call.  The promise's executor arms a
    fail timer and runs a loop; each pass queries the transaction history,
    extracts an event from each transaction listed, and sleeps.  The
    clock advances at the [await]s only: by the time a query takes, by
    the time each extraction takes, and by each sleep.  The timer's
    callback runs while the loop is suspended; a timer that is due at the
    instant an [await] resumes runs first.  The queries and extractions
    are taken to succeed.  [TenantClient.pollExtend] and
    [TenantClient.pollAcquire] stand for these loops where only the delay
    the timer is armed with matters. *)

Module Watch.

Import TenantClient.

Local Open Scope N_scope.

(** evernode-common: the members of [EvernodeEvents] the watches name;
    [TenantEvents] gives each of them under the same name. *)
Class EvernodeEvents : Type := {
  AcquireSuccess : string;
  AcquireError : string;
  ExtendSuccess : string;
  ExtendError : string
}.

(** The runtime's timers: the delay in milliseconds [setTimeout] makes of
    its second argument. *)
Class Timers : Type := {
  delayMs : Value -> N
}.

(** What [extractEvernodeEvent] resolves to for a transaction that carries
    an event: [{ name, data }]. *)
Record Event : Type := mkEvent {
  name : Value;
  data : Value
}.

(** One query of the history as a pass of the loop meets it: the time the
    query takes and, for each transaction listed, in order, the time its
    extraction takes and what is extracted ([None] for [null]). *)
Record Poll : Type := mkPoll {
  queryMs : N;
  extracted : list (N * option Event)
}.

(** The object the promise is rejected with: [{ error, reason: TIMEOUT }]
    by the fail timer, [{ error, transaction, reason }] on an error event
    (with [acquireRefId] in the acquire watch). *)
Inductive WatchRejection : Type :=
| TimedOut (error : ErrorCode)
| EventError (error : ErrorCode) (transaction reason : Value) (refId : option Value).

(** How the promise ends, and when. *)
Inductive Settlement (A : Type) : Type :=
| ResolvedAt (t : N) (a : A)
| RejectedAt (t : N) (r : WatchRejection)
| NeverSettled.

Arguments ResolvedAt {A} t a.
Arguments RejectedAt {A} t r.
Arguments NeverSettled {A}.

(** [res.name === expected]. *)
Definition nameIs (res : Event) (expected : string) : bool :=
  ToBoolean (strictEquals (name res) (VString expected)).

(** [v?.field]. *)
Definition optionalGet (v : Value) (field : string) : Value :=
  match get v field with
  | Ok x => x
  | Throw _ => VUndefined
  end.

Section Loop.

Context {A : Type}.

(** What the two functions differ in: the test of the [if] inside the
    [for] loop (on a result that is not [null]), the statements after the
    [while] loop (run at a given instant on [relevantTx]), the object the
    fail timer rejects with, and the sleep that ends a pass. *)
Variable isRelevant : Event -> bool.
Variable settle : N -> Event -> Settlement A.
Variable timedOut : WatchRejection.
Variable sleepMs : N.

(** What the account's history gives to the first, second, ... query. *)
Variable history : nat -> Poll.

(** The instant the fail timer is due. *)
Variable deadline : N.

(** The [for] loop entered at [now]: the instant it is left and
    [relevantTx]. *)
Fixpoint scan (now : N) (txList : list (N * option Event)) : N * option Event :=
  match txList with
  | [] => (now, None)
  | (ms, res) :: rest =>
      let now := now + ms in
      match res with
      | Some ev => if isRelevant ev then (now, Some ev) else scan now rest
      | None => scan now rest
      end
  end.

(** The [while] loop from its pass [i], entered at [now] with the timer
    armed and [relevantTx] unset. *)
Fixpoint passes (fuel i : nat) (now : N) : option (Settlement A) :=
  match fuel with
  | O => None
  | S fuel =>
      let poll := history i in
      let (found, relevantTx) := scan (now + queryMs poll) (extracted poll) in
      match relevantTx with
      | Some ev =>
          if deadline <=? found then
            (* The timer ran before: rejected is set, nothing follows the loop. *)
            Some (RejectedAt deadline timedOut)
          else
            (* clearTimeout(failTimeout); break; the sleep; the loop ends. *)
            Some (settle (found + sleepMs) ev)
      | None =>
          let now := found + sleepMs in
          if deadline <=? now then Some (RejectedAt deadline timedOut)
          else passes fuel (S i) now
      end
  end.

(** Every pass takes at least the sleep, so the loop is over after
    [deadline / sleepMs + 1] passes. *)
Definition watch : option (Settlement A) :=
  passes (S (N.to_nat (deadline / sleepMs))) 0 0.

End Loop.

Section Watchers.

Context {events : EvernodeEvents} {timers : Timers}.

Definition acquireRelevant (txId : string) (res : Event) : bool :=
  (nameIs res AcquireSuccess || nameIs res AcquireError)
  && ToBoolean (strictEquals (optionalGet (data res) "acquireRefId") (VString txId)).

Definition acquireSettle (t : N) (relevantTx : Event) : Settlement AcquireResponse :=
  if nameIs relevantTx AcquireSuccess then
    match (transaction <- get (data relevantTx) "transaction" ;;
           payload <- get (data relevantTx) "payload" ;;
           content <- get payload "content" ;;
           refId <- get (data relevantTx) "acquireRefId" ;;
           Ok (mkAcquireResponse transaction content refId)) with
    | Ok response => ResolvedAt t response
    | Throw _ => NeverSettled
    end
  else if nameIs relevantTx AcquireError then
    match (transaction <- get (data relevantTx) "transaction" ;;
           reason <- get (data relevantTx) "reason" ;;
           refId <- get (data relevantTx) "acquireRefId" ;;
           Ok (EventError ACQUIRE_ERR transaction reason (Some refId))) with
    | Ok rejection => RejectedAt t rejection
    | Throw _ => NeverSettled
    end
  else NeverSettled.

(** [history] is what [this.xrplAcc.getAccountTrx(tx.details.ledger_index)]
    and the extraction give, query after query.  An exception inside the
    executor before the timer is armed leaves the promise unsettled. *)
Definition watchAcquireResponse (history : nat -> Poll) (tx : Tx) (options : Value)
  : option (Settlement AcquireResponse) :=
  let options := defaultEmpty options in
  match get options "timeout" with
  | Throw _ => Some NeverSettled
  | Ok timeout =>
      watch (acquireRelevant (id tx)) acquireSettle (TimedOut ACQUIRE_ERR) 2000 history
        (delayMs (or timeout (VNumber DEFAULT_WAIT_TIMEOUT)))
  end.

Definition extendRelevant (txId : string) (res : Event) : bool :=
  (nameIs res ExtendSuccess || nameIs res ExtendError)
  && ToBoolean (strictEquals (optionalGet (data res) "extendRefId") (VString txId)).

Definition extendSettle (t : N) (relevantTx : Event) : Settlement ExtendResponse :=
  if nameIs relevantTx ExtendSuccess then
    match (transaction <- get (data relevantTx) "transaction" ;;
           expiry <- get (data relevantTx) "expiryMoment" ;;
           refId <- get (data relevantTx) "extendRefId" ;;
           Ok (mkExtendResponse transaction expiry refId)) with
    | Ok response => ResolvedAt t response
    | Throw _ => NeverSettled
    end
  else if nameIs relevantTx ExtendError then
    match (transaction <- get (data relevantTx) "transaction" ;;
           reason <- get (data relevantTx) "reason" ;;
           Ok (EventError EXTEND_ERR transaction reason None)) with
    | Ok rejection => RejectedAt t rejection
    | Throw _ => NeverSettled
    end
  else NeverSettled.

Definition watchExtendResponse (history : nat -> Poll) (tx : Tx) (options : Value)
  : option (Settlement ExtendResponse) :=
  let options := defaultEmpty options in
  match get options "timeout" with
  | Throw _ => Some NeverSettled
  | Ok timeout =>
      watch (extendRelevant (id tx)) extendSettle (TimedOut EXTEND_ERR) 1000 history
        (delayMs (or timeout (VNumber DEFAULT_WAIT_TIMEOUT)))
  end.

End Watchers.

End Watch.

(* ================================================================== *)
(** ** src/clients/tenant-client.js, second part: HookClientFactory *)
(* ================================================================== *)

Module HookClientFactory.

(** defaults: [HookTypes]. *)
Record HookTypesT : Type := mkHookTypes {
  governor : string;
  registry : string;
  heartbeat : string;
  reputation : string
}.

(** The clients the factory constructs, with the option each is given. *)
Inductive HookClient : Type :=
| GovernorClient
| RegistryClient (registryAddress : Value)
| HeartbeatClient (heartbeatAddress : Value)
| ReputationClient (reputationAddress : Value).

(** [governorHook.config]. *)
Record Config : Type := mkConfig {
  registryAddress : Value;
  heartbeatAddress : Value;
  reputationAddress : Value
}.

(** The governor client the factory talks to: how its [connect] and
    [disconnect] end, and the configuration it holds once connected. *)
Class Governor : Type := {
  HookTypes : HookTypesT;
  connect : Result Exn unit;
  config : Config;
  disconnect : Result Exn unit
}.

(** The calls made on the governor client, in order. *)
Inductive Call : Type := Connect | Disconnect.

(** A computation that calls the governor: its completion and the calls
    it made. *)
Definition Traced (A : Type) : Type := (Result Exn A * list Call)%type.

Section Factory.

Context {gov : Governor}.

(** [try { await connect(); configs = config } catch (error) { throw (error) }
     finally { await disconnect() }]: the disconnect runs on both paths,
    and an exception of the disconnect replaces the pending one. *)
Definition getAccountAddress (hookType : string) : Traced Value :=
  let attempt : Result Exn Config :=
    match connect with
    | Ok _ => Ok config
    | Throw error => Throw error
    end in
  let calls := [Connect; Disconnect] in
  match disconnect with
  | Throw error => (Throw error, calls)
  | Ok _ =>
      match attempt with
      | Throw error => (Throw error, calls)
      | Ok configs =>
          if String.eqb hookType (registry HookTypes)
          then (Ok (registryAddress configs), calls)
          else if String.eqb hookType (heartbeat HookTypes)
          then (Ok (heartbeatAddress configs), calls)
          else if String.eqb hookType (reputation HookTypes)
          then (Ok (reputationAddress configs), calls)
          else (Ok VUndefined, calls)
      end
  end.

(** [None] is the [null] client of the default case. *)
Definition create (hookType : string) : Traced (option HookClient) :=
  if String.eqb hookType (governor HookTypes) then (Ok (Some GovernorClient), [])
  else if String.eqb hookType (registry HookTypes) then
    match getAccountAddress hookType with
    | (Ok address, calls) => (Ok (Some (RegistryClient address)), calls)
    | (Throw error, calls) => (Throw error, calls)
    end
  else if String.eqb hookType (heartbeat HookTypes) then
    match getAccountAddress hookType with
    | (Ok address, calls) => (Ok (Some (HeartbeatClient address)), calls)
    | (Throw error, calls) => (Throw error, calls)
    end
  else if String.eqb hookType (reputation HookTypes) then
    match getAccountAddress hookType with
    | (Ok address, calls) => (Ok (Some (ReputationClient address)), calls)
    | (Throw error, calls) => (Throw error, calls)
    end
  else (Ok None, []).

End Factory.

End HookClientFactory.

(* ================================================================== *)
(** ** src/clients/hook-client.js *)
(* ================================================================== *)

Module HookClient.

(** A hook state as the account lists it: key and data as hex text. *)
Record HookState : Type := mkHookState {
  key : string;
  data : string
}.

Record Host : Type := mkHost {
  address : string;
  token : Text;
  txHash : string;
  instanceSize : Text;
  location : Text
}.

(** [s.slice(-n)]: the last [n] characters, the whole text when it is
    shorter. *)
Definition sliceLast (n : nat) (s : string) : string :=
  substring (String.length s - n) n s.

(** [arr.map(f)] for a callback that may throw: the first exception ends
    the call. *)
Fixpoint mapResult {A B : Type} (f : A -> Result Exn B) (l : list A)
  : Result Exn (list B) :=
  match l with
  | [] => Ok []
  | x :: r => y <- f x ;; ys <- mapResult f r ;; Ok (y :: ys)
  end.

Section Hosts.

(** [HOST_ADDR] is the member of this module's [HookStateKeys] that the
    host entries' key texts begin with. *)
Context {codec : AddressCodec} {runtime : Runtime}.
Variable HOST_ADDR : string.

Definition hostOfState (s : HookState) : Result Exn Host :=
  address <- encodeAccountID (fromHex (sliceLast 40 (key s))) ;;
  let token := utf8 (fromHex (substring 8 6 (data s))) in
  let txHash := substring 14 64 (data s) in
  let instanceSize := StateHelpers.removeNul (utf8 (fromHex (substring 78 120 (data s)))) in
  let location := StateHelpers.removeNul (utf8 (fromHex (substring 198 20 (data s)))) in
  Ok (mkHost address token txHash instanceSize location).

(** [hookStates] is what [this.xrplAcc.getHookStates()] resolved to. *)
Definition getHosts (hookStates : list HookState) : Result Exn (list Host) :=
  let states := filter (fun s => String.prefix HOST_ADDR (key s)) hookStates in
  mapResult hostOfState states.

End Hosts.

End HookClient.

(* ================================================================== *)
(** ** Stand-ins for the collaborators *)
(* ================================================================== *)

(** Concrete instances of the interfaces, used to evaluate the model on
    concrete inputs.  They fix a well-typed behaviour for each
    collaborator; none of them is the deployed implementation. *)

Module Sample.

(** An address is the letter r followed by the 40 hex digits of the
    account id. *)
Definition sampleEncodeAccountID (b : Buffer) : Result Exn string :=
  if (length b =? 20)%nat
  then Ok (String "r"%char (toUpperCase (toHex b)))
  else Throw (External "encodeAccountID").

Definition sampleDecodeAccountID (s : string) : Result Exn Buffer :=
  match s with
  | String "r"%char h =>
      if (length (fromHex h) =? 20)%nat && (String.length h =? 40)%nat
      then Ok (fromHex h)
      else Throw (External "decodeAccountID")
  | _ => Throw (External "decodeAccountID")
  end.

Definition sampleCodec : AddressCodec :=
  {| encodeAccountID := sampleEncodeAccountID;
     decodeAccountID := sampleDecodeAccountID |}.

(** Fixed-width functions of the input (not hash functions): the input
    cut or zero-padded to the digest width. *)
Definition sampleHashes : Hashes :=
  {| sha512 := fun b => firstn 64 (b ++ repeat x00 64);
     sha512Half := fun b => firstn 32 (b ++ repeat x00 32) |}.

Fixpoint floatOfPositive (p : positive) : float :=
  match p with
  | xH => 1%float
  | xO q => PrimFloat.mul 2%float (floatOfPositive q)
  | xI q => PrimFloat.add (PrimFloat.mul 2%float (floatOfPositive q)) 1%float
  end.

Fixpoint digitsValue (s : string) (acc : Z) : Z :=
  match s with
  | EmptyString => acc
  | String c r =>
      let n := Z.of_N (N_of_ascii c) in
      if (48 <=? n) && (n <=? 57) then digitsValue r (10 * acc + (n - 48)) else acc
  end.

(** [parseFloat] on a run of decimal digits. *)
Definition sampleParseFloat (s : string) : float :=
  match digitsValue s 0 with
  | Zpos p => floatOfPositive p
  | _ => 0%float
  end.

(** [toString] of a Number whose value is an integer. *)
Definition sampleNumberToString (x : float) : string :=
  match Prim2SF x with
  | S754_zero _ => "0"
  | S754_finite s m e =>
      if 0 <=? e
      then StateHelpers.decimal ((if s then -1 else 1) * Zpos m * 2 ^ e)
      else if (Zpos m) mod 2 ^ (- e) =? 0
           then StateHelpers.decimal ((if s then -1 else 1) * (Zpos m / 2 ^ (- e)))
           else "(not an integer)"
  | _ => "(not an integer)"
  end.

(** 7-bit text: each byte is one code unit. *)
Definition sampleRuntime : Runtime :=
  {| utf8 := map (fun b => Z.to_N (u8 b));
     parseFloat := sampleParseFloat;
     numberToString := sampleNumberToString |}.

(** A codec of scale 0: the decimal text of a non-negative value. *)
Definition sampleXfl : XflHelpers :=
  {| XflHelpers_toString := fun z =>
       if z <? 0 then Throw (External "XFL cannot be negative")
       else Ok (StateHelpers.decimal z) |}.

Definition sampleHookStateKeys : HookStateKeysT :=
  {| EVR_ISSUER_ADDR := "4556520100000000000000000000000000000000000000000000000000000001";
     FOUNDATION_ADDR := "4556520100000000000000000000000000000000000000000000000000000002";
     MOMENT_SIZE := "4556520100000000000000000000000000000000000000000000000000000003";
     MINT_LIMIT := "4556520100000000000000000000000000000000000000000000000000000004";
     FIXED_REG_FEE := "4556520100000000000000000000000000000000000000000000000000000005";
     HOST_HEARTBEAT_FREQ := "4556520100000000000000000000000000000000000000000000000000000006";
     LEASE_ACQUIRE_WINDOW := "4556520100000000000000000000000000000000000000000000000000000007";
     REWARD_CONFIGURATION := "4556520100000000000000000000000000000000000000000000000000000008";
     MAX_TOLERABLE_DOWNTIME := "4556520100000000000000000000000000000000000000000000000000000009";
     MOMENT_TRANSIT_INFO := "455652010000000000000000000000000000000000000000000000000000000A";
     MAX_TRX_EMISSION_FEE := "455652010000000000000000000000000000000000000000000000000000000B";
     HEARTBEAT_ADDR := "455652010000000000000000000000000000000000000000000000000000000C";
     REGISTRY_ADDR := "455652010000000000000000000000000000000000000000000000000000000D";
     GOVERNANCE_CONFIGURATION := "455652010000000000000000000000000000000000000000000000000000000E";
     HOST_COUNT := "4556523200000000000000000000000000000000000000000000000000000000";
     MOMENT_BASE_INFO := "4556523300000000000000000000000000000000000000000000000000000000";
     HOST_REG_FEE := "4556523400000000000000000000000000000000000000000000000000000000";
     MAX_REG := "4556523500000000000000000000000000000000000000000000000000000000";
     REWARD_INFO := "4556523600000000000000000000000000000000000000000000000000000000";
     GOVERNANCE_INFO := "4556523700000000000000000000000000000000000000000000000000000000";
     PREFIX_HOST_TOKENID := "45565202";
     PREFIX_HOST_ADDR := "45565203";
     PREFIX_TRANSFEREE_ADDR := "45565204";
     PREFIX_CANDIDATE_OWNER := "45565205";
     PREFIX_CANDIDATE_ID := "45565206" |}.

Definition sampleConstants : EvernodeConstantsT :=
  {| CANDIDATE_SUPPORTED := 0;
     CANDIDATE_ELECTED := 1;
     CANDIDATE_VETOED := 2;
     CANDIDATE_EXPIRED := 3;
     Piloted := 0;
     CoPiloted := 1;
     AutoPiloted := 2;
     NewHook := 1;
     PilotedMode := 2;
     DudHost := 3;
     HOOK_NAMESPACE := "01EAF09326B4911554384121FF56FA8FECC215FDDE2EC35D9E59F2C53EC665A0";
     LEASE_TOKEN_PREFIX_HEX := "6576726C65617365" |}.

Definition sampleCommon : EvernodeCommon :=
  {| HookStateKeys := sampleHookStateKeys;
     EvernodeConstants := sampleConstants |}.

(** Modelled from the spec: transaction-helper's [hexToASCII] is not among
    the sources; the lease URI codec's decode chain is "hex, then ASCII
    text, then base64, then raw bytes", so [hexToASCII] turns each pair of
    hex digits into the character with that code. *)
Definition hexToASCII_model (hex : string) : string := toLatin (fromHex hex).

Definition sampleTransactionHelper : UtilHelpers.TransactionHelper :=
  {| UtilHelpers.hexToASCII := hexToASCII_model |}.

(** A second stand-in for [hexToASCII], which agrees with a UTF-8 decoder
    on 7-bit bytes and puts the character ? for every other byte. *)
Definition hexToASCII_utf8_model (hex : string) : string :=
  string_of_list_ascii
    (map (fun b => if u8 b <? 128 then ascii_of_byte b else "?"%char) (fromHex hex)).

Definition sampleUtf8Helper : UtilHelpers.TransactionHelper :=
  {| UtilHelpers.hexToASCII := hexToASCII_utf8_model |}.

(** Sample inputs. *)

Definition zeroKey : Buffer := alloc 32 x00.

(** An account id and its address under [sampleCodec]. *)
Definition sampleAccountId : Buffer := fromHex "0102030405060708090A0B0C0D0E0F1011121314".
Definition sampleAddress : string := "r0102030405060708090A0B0C0D0E0F1011121314".

(** A host-address key for [sampleAccountId]. *)
Definition sampleHostKey : Buffer :=
  fromHex "455652030000000000000000" ++ sampleAccountId.

(** A lease URI buffer: the prefix evrlease, lease index 7, the half hash
    A0..AF, and the amount 2. *)
Definition sampleLeaseBytes : Buffer :=
  fromHex "6576726C656173650007A0A1A2A3A4A5A6A7A8A9AAABACADAEAF0000000000000002".

(** The same bytes as the text of a lease token URI. *)
Definition sampleLeaseUri : string :=
  toUpperCase (toHex (fromLatin (toBase64 sampleLeaseBytes))).

(** A tenant client whose host rHOST is registered and active and offers
    one lease, and whose own account holds one lease token.  [pollExtend]
    resolves at once and reports the delay its timer was armed with. *)
Definition sampleHostToken : TenantClient.UriToken :=
  TenantClient.mkUriToken "HOSTTOKEN" "657672686F737401" "rREGISTRY".

Definition sampleOffer : TenantClient.UriToken :=
  TenantClient.mkUriToken "OFFER1" sampleLeaseUri "rHOST".

Definition sampleLeaseToken : TenantClient.UriToken :=
  TenantClient.mkUriToken "LEASE1" sampleLeaseUri "rHOST".

Definition sampleClient : TenantClient.Client :=
  {| TenantClient.TOKEN_PREFIX_HEX := "657672686F7374";
     TenantClient.EVR := "EVR";
     TenantClient.ACQUIRE_LEASE := "evnAcquireLease";
     TenantClient.EXTEND_LEASE := "evnExtendLease";
     TenantClient.BASE64 := "base64";
     TenantClient.PARAM_EVENT_TYPE_KEY := "4556520100000000000000000000000000000000000000000000000000000002";
     TenantClient.PARAM_EVENT_DATA1_KEY := "4556520100000000000000000000000000000000000000000000000000000003";
     TenantClient.registryAddress := "rREGISTRY";
     TenantClient.evrIssuerAddress := "rISSUER";
     TenantClient.ownAddress := "rTENANT";
     TenantClient.ledgerIndex := VNumber 1000%float;
     TenantClient.getURITokens := fun account =>
       if String.eqb account "rHOST" then Ok (Some [sampleHostToken])
       else if String.eqb account "rTENANT" then Ok (Some [sampleLeaseToken])
       else Ok (Some []);
     TenantClient.getHostInfo := fun _ => Ok (Some (TenantClient.mkHostInfo true));
     TenantClient.getLeaseOffers := fun _ => Ok (Some [sampleOffer]);
     TenantClient.getMessageKey := fun _ => Ok (VString "02ABCDEF");
     TenantClient.encrypt := fun _ _ _ _ => Ok "ciphertext";
     TenantClient.buyURIToken := fun _ _ _ _ => Ok (TenantClient.mkTx "TX1" 1000%float);
     TenantClient.makePayment := fun _ _ _ _ _ _ => Ok (TenantClient.mkTx "TX2" 1001%float);
     TenantClient.pollExtend := fun tx delay =>
       TenantClient.Resolved
         (TenantClient.mkExtendResponse (VString (TenantClient.id tx)) delay
            (VString (TenantClient.id tx))) |}.

(** A governor that connects and disconnects without error. *)
Definition sampleGovernor : HookClientFactory.Governor :=
  {| HookClientFactory.HookTypes :=
       HookClientFactory.mkHookTypes "GOVERNOR" "REGISTRY" "HEARTBEAT" "REPUTATION";
     HookClientFactory.connect := Ok tt;
     HookClientFactory.config :=
       HookClientFactory.mkConfig (VString "rREGISTRY") (VString "rHEARTBEAT")
         (VString "rREPUTATION");
     HookClientFactory.disconnect := Ok tt |}.

(** A governor whose [connect] fails. *)
Definition sampleOfflineGovernor : HookClientFactory.Governor :=
  {| HookClientFactory.HookTypes :=
       HookClientFactory.mkHookTypes "GOVERNOR" "REGISTRY" "HEARTBEAT" "REPUTATION";
     HookClientFactory.connect := Throw (External "connect");
     HookClientFactory.config :=
       HookClientFactory.mkConfig VUndefined VUndefined VUndefined;
     HookClientFactory.disconnect := Ok tt |}.

(** An acquire watch that resolves at once and reports the delay its
    timer was armed with. *)
Definition sampleAcquireWatch : TenantClient.AcquireWatch :=
  {| TenantClient.pollAcquire := fun tx delay =>
       TenantClient.Resolved
         (TenantClient.mkAcquireResponse (VString (TenantClient.id tx)) delay
            (VString (TenantClient.id tx))) |}.

(** Two hook states as an account lists them: a host entry under the key
    of [sampleAccountId], and an entry of another kind. *)
Definition sampleHostState : HookClient.HookState :=
  HookClient.mkHookState
    "4556520300000000000000000102030405060708090A0B0C0D0E0F1011121314"
    "00000000414243AB".

Definition sampleOtherState : HookClient.HookState :=
  HookClient.mkHookState
    "4556523200000000000000000000000000000000000000000000000000000000"
    "00000005".

(** A second account, a token id, and a data buffer of [n] bytes that
    begins with the sample account id. *)
Definition otherAddress : string := "r14131211100F0E0D0C0B0A090807060504030201".
Definition otherAccountId : Buffer := fromHex "14131211100F0E0D0C0B0A090807060504030201".
Definition sampleTokenId : string :=
  "AAAAAAAA0102030405060708090A0B0C0D0E0F101112131415161718191A1B1C".
Definition sampleEntryData (n : nat) : Buffer := sampleAccountId ++ alloc (n - 20) x00.

(** Event names, and timers that take the whole milliseconds of a Number
    between 1 and 2^31 - 1 and 1 ms for any other Number; a value that is
    not a Number, which the runtime would convert first, is given 1 ms
    here. *)
Definition sampleEvents : Watch.EvernodeEvents :=
  {| Watch.AcquireSuccess := "AcquireSuccess";
     Watch.AcquireError := "AcquireError";
     Watch.ExtendSuccess := "ExtendSuccess";
     Watch.ExtendError := "ExtendError" |}.

Definition sampleDelayMs (v : Value) : N :=
  match v with
  | VNumber x =>
      match Prim2SF x with
      | S754_finite false m e =>
          let n := if 0 <=? e then Zpos m * 2 ^ e else Zpos m / 2 ^ (- e) in
          if (1 <=? n) && (n <=? 2147483647) then Z.to_N n else 1%N
      | _ => 1%N
      end
  | _ => 1%N
  end.

Definition sampleTimers : Watch.Timers := {| Watch.delayMs := sampleDelayMs |}.

(** The transaction TX1 and the events that answer it. *)
Definition sampleTx : TenantClient.Tx := TenantClient.mkTx "TX1" 1000%float.

Definition sampleAcquireSuccess : Watch.Event :=
  Watch.mkEvent (VString "AcquireSuccess")
    (VObject
       (PCons "transaction" (VString "T9")
          (PCons "payload" (VObject (PCons "content" (VString "instance") PNil))
             (PCons "acquireRefId" (VString "TX1") PNil)))).

Definition sampleAcquireError : Watch.Event :=
  Watch.mkEvent (VString "AcquireError")
    (VObject
       (PCons "transaction" (VString "T9")
          (PCons "reason" (VString "user_install_error")
             (PCons "acquireRefId" (VString "TX1") PNil)))).

Definition sampleExtendSuccess : Watch.Event :=
  Watch.mkEvent (VString "ExtendSuccess")
    (VObject
       (PCons "transaction" (VString "T9")
          (PCons "expiryMoment" (VNumber 42%float)
             (PCons "extendRefId" (VString "TX1") PNil)))).

(** An event of another request. *)
Definition sampleOtherSuccess : Watch.Event :=
  Watch.mkEvent (VString "AcquireSuccess")
    (VObject (PCons "acquireRefId" (VString "TX0") PNil)).

(** Histories whose queries take 10 ms and whose extractions take 1 ms:
    one that answers in the given pass with the given event, after a
    transaction without an event and an event of another request, and one
    that never answers. *)
Definition answeringIn (pass : nat) (answer : Watch.Event) (i : nat) : Watch.Poll :=
  Watch.mkPoll 10
    ((1%N, None) :: (1%N, Some sampleOtherSuccess)
     :: (if Nat.eqb i pass then [(1%N, Some answer)] else [])).

Definition neverAnswering (i : nat) : Watch.Poll :=
  Watch.mkPoll 10 [(1%N, None); (1%N, Some sampleOtherSuccess)].

End Sample.

(* ================================================================== *)
(** ** Vocabulary of the properties *)
(* ================================================================== *)

Module Vocabulary.

(** The five key prefixes and the twenty well-known keys of a table. *)
Definition prefixes (K : HookStateKeysT) : list string :=
  [PREFIX_HOST_ADDR K; PREFIX_HOST_TOKENID K; PREFIX_TRANSFEREE_ADDR K;
   PREFIX_CANDIDATE_OWNER K; PREFIX_CANDIDATE_ID K].

Definition wellKnownKeys (K : HookStateKeysT) : list string :=
  [HOST_COUNT K; MOMENT_BASE_INFO K; HOST_REG_FEE K; MAX_REG K; REWARD_INFO K;
   EVR_ISSUER_ADDR K; FOUNDATION_ADDR K; MOMENT_SIZE K; HOST_HEARTBEAT_FREQ K;
   MINT_LIMIT K; FIXED_REG_FEE K; LEASE_ACQUIRE_WINDOW K; REWARD_CONFIGURATION K;
   MAX_TOLERABLE_DOWNTIME K; MOMENT_TRANSIT_INFO K; MAX_TRX_EMISSION_FEE K;
   REGISTRY_ADDR K; HEARTBEAT_ADDR K; GOVERNANCE_CONFIGURATION K; GOVERNANCE_INFO K].

(** A key no entry of the table recognises: its first four bytes are none
    of the prefixes and it is none of the well-known keys. *)
Definition unrecognized (K : HookStateKeysT) (stateKey : Buffer) : Prop :=
  Forall (fun p => firstn 4 stateKey <> fromHex p) (prefixes K) /\
  Forall (fun k => stateKey <> fromHex k) (wellKnownKeys K).

Definition invalidStateKey : Exn := Thrown "Validation Error" "Invalid state key.".

(** The layout of an address key: the 3-byte prefix EVR, the kind tag,
    eight zero bytes, the account id. *)
Definition addressKey (tag : Z) (accountId : Buffer) : Buffer :=
  fromLatin "EVR" ++ [byte_of_Z tag] ++ repeat x00 8 ++ accountId.

(** The input of the storage-index digest: the ledger entry type tag
    (0x0076), the account id, the state key, the namespace. *)
Definition stateIndexInput (accountId stateKeyBytes namespaceBytes : Buffer) : Buffer :=
  [x00; x76] ++ accountId ++ stateKeyBytes ++ namespaceBytes.

(** Text made of the digits 0-9 and A-F only. *)
Definition isUpperHexChar (c : ascii) : bool :=
  existsb (Ascii.eqb c) (list_ascii_of_string "0123456789ABCDEF").

Fixpoint isUpperHex (s : string) : bool :=
  match s with
  | EmptyString => true
  | String c r => isUpperHexChar c && isUpperHex r
  end.

(** The length in bytes of the lease token prefix. *)
Definition prefixLen {common : EvernodeCommon} : nat :=
  (String.length (LEASE_TOKEN_PREFIX_HEX EvernodeConstants) / 2)%nat.

(** The window the lease layout gives the half hash: the 16 bytes after
    the 2-byte lease index. *)
Definition halfHashWindow {common : EvernodeCommon} (uriBuf : Buffer) : Buffer :=
  slice uriBuf (prefixLen + 2) (prefixLen + 2 + 16).

(** Text of 7-bit characters. *)
Fixpoint isAscii (s : string) : bool :=
  match s with
  | EmptyString => true
  | String c r => (N_of_ascii c <? 128)%N && isAscii r
  end.

(** The contract of transaction-helper's [hexToASCII] that the decode
    chain names (hex, then ASCII text): the hex text, in either case, of
    7-bit text is turned back into that text.  Nothing is asked of it on
    bytes above 127, where decoders of different character sets differ. *)
Definition hexToASCII_contract {th : UtilHelpers.TransactionHelper} : Prop :=
  forall s : string,
    isAscii s = true ->
    UtilHelpers.hexToASCII (toHex (fromLatin s)) = s /\
    UtilHelpers.hexToASCII (toUpperCase (toHex (fromLatin s))) = s.

(** A table whose five prefixes are what the key generators write: the
    text EVR followed by the kind tag of [STATE_KEY_TYPES]. *)
Definition standardPrefixes (K : HookStateKeysT) : Prop :=
  fromHex (PREFIX_HOST_TOKENID K) = fromLatin "EVR" ++ [x02] /\
  fromHex (PREFIX_HOST_ADDR K) = fromLatin "EVR" ++ [x03] /\
  fromHex (PREFIX_TRANSFEREE_ADDR K) = fromLatin "EVR" ++ [x04] /\
  fromHex (PREFIX_CANDIDATE_OWNER K) = fromLatin "EVR" ++ [x05] /\
  fromHex (PREFIX_CANDIDATE_ID K) = fromLatin "EVR" ++ [x06].

(** A table whose well-known keys are pairwise different buffers and whose
    candidate prefixes differ. *)
Definition distinctKeys (K : HookStateKeysT) : Prop :=
  NoDup (map fromHex (wellKnownKeys K)) /\
  fromHex (PREFIX_CANDIDATE_OWNER K) <> fromHex (PREFIX_CANDIDATE_ID K).

(** Upper-case hex text of a buffer, as the helpers print keys. *)
Definition hexKeyText (b : Buffer) : string := toUpperCase (toHex b).

(** The layout of a content key: the prefix EVR, the kind tag, and the
    bytes 4 to 31 of the content. *)
Definition contentKey (tag : Z) (content : Buffer) : Buffer :=
  fromLatin "EVR" ++ [byte_of_Z tag] ++ slice content 4 32.

(** *** The history a watch meets *)

(** A listed transaction that the loop passes over. *)
Definition passedOver (isRelevant : Watch.Event -> bool) (r : N * option Watch.Event)
  : Prop :=
  match snd r with
  | Some ev => isRelevant ev = false
  | None => True
  end.

(** The time the extractions of a list of transactions take. *)
Definition extractionMs (l : list (N * option Watch.Event)) : N :=
  fold_right N.add 0%N (map fst l).

(** The instant pass [i] begins when no earlier pass holds a relevant
    event: each earlier pass took its query, all its extractions and the
    sleep. *)
Fixpoint passStart (sleepMs : N) (history : nat -> Watch.Poll) (i : nat) : N :=
  match i with
  | O => 0%N
  | S j =>
      (passStart sleepMs history j
       + (Watch.queryMs (history j) + extractionMs (Watch.extracted (history j)))
       + sleepMs)%N
  end.

(** The first relevant event of the history is [ev], met in pass [i] at
    the instant [t]: the earlier passes hold none, and in pass [i] it
    comes after transactions that are passed over, at the end of its own
    extraction. *)
Definition foundAt (isRelevant : Watch.Event -> bool) (sleepMs : N)
    (history : nat -> Watch.Poll) (i : nat) (t : N) (ev : Watch.Event) : Prop :=
  (forall j, (j < i)%nat ->
             Forall (passedOver isRelevant) (Watch.extracted (history j))) /\
  exists before ms after,
    Watch.extracted (history i) = before ++ (ms, Some ev) :: after /\
    Forall (passedOver isRelevant) before /\
    isRelevant ev = true /\
    t = (passStart sleepMs history i + Watch.queryMs (history i)
         + extractionMs before + ms)%N.

End Vocabulary.

Export Vocabulary.

(* ================================================================== *)
(** * Properties *)
(* ================================================================== *)

(** ** Facts about the Buffer API *)

Module BufFacts.

Lemma u8_range (b : byte) : 0 <= u8 b < 256.
Proof.
  unfold u8. pose proof (Byte.to_N_bounded b). lia.
Qed.

Lemma byte_of_Z_u8 (b : byte) : byte_of_Z (u8 b) = b.
Proof.
  unfold byte_of_Z. rewrite Z.mod_small by apply u8_range.
  unfold u8. rewrite N2Z.id, Byte.of_to_N. reflexivity.
Qed.

Lemma u8_inj (a b : byte) : u8 a = u8 b -> a = b.
Proof.
  intros H. rewrite <- (byte_of_Z_u8 a), <- (byte_of_Z_u8 b). now rewrite H.
Qed.

(** [compare] is 0 exactly on equal buffers. *)
Lemma compare_refl (a : Buffer) : compare a a = 0.
Proof.
  induction a as [|x a IH]; simpl; [reflexivity|].
  rewrite Z.ltb_irrefl. exact IH.
Qed.

Lemma compare_eq (a b : Buffer) : compare a b = 0 -> a = b.
Proof.
  revert b. induction a as [|x a IH]; intros [|y b]; simpl; try discriminate; auto.
  destruct (u8 x <? u8 y) eqn:E1; [discriminate|].
  destruct (u8 y <? u8 x) eqn:E2; [discriminate|].
  intros H. f_equal; [apply u8_inj; lia | now apply IH].
Qed.

Lemma compare_neq (a b : Buffer) : a <> b -> (compare a b =? 0) = false.
Proof.
  intros H. apply Z.eqb_neq. intros E. apply H. now apply compare_eq.
Qed.

Lemma compare_neq_truthy (a b : Buffer) : a <> b -> truthy (compare a b) = true.
Proof.
  intros H. unfold truthy. now rewrite compare_neq.
Qed.

Lemma slice_0 (b : Buffer) (n : nat) : slice b 0 n = firstn n b.
Proof. unfold slice. simpl. now rewrite Nat.sub_0_r. Qed.

Lemma compareRange_prefix (p key : Buffer) :
  (4 <= length key)%nat ->
  compareRange p key 0 4 = Ok (compare p (firstn 4 key)).
Proof.
  intros H. unfold compareRange.
  destruct (length key <? 4)%nat eqn:E; [apply Nat.ltb_lt in E; lia|].
  now rewrite slice_0.
Qed.

(** *** Hexadecimal text *)

Lemma unhex_hexDigit (x : byte) :
  unhex (hexDigit (u8 x / 16)) = Some (u8 x / 16) /\
  unhex (hexDigit (u8 x mod 16)) = Some (u8 x mod 16).
Proof. destruct x; split; reflexivity. Qed.

Lemma unhex_upper_hexDigit (x : byte) :
  unhex (upper (hexDigit (u8 x / 16))) = Some (u8 x / 16) /\
  unhex (upper (hexDigit (u8 x mod 16))) = Some (u8 x mod 16).
Proof. destruct x; split; reflexivity. Qed.

Lemma nibbles (x : byte) : byte_of_Z (16 * (u8 x / 16) + u8 x mod 16) = x.
Proof.
  rewrite <- Z.div_mod by lia. apply byte_of_Z_u8.
Qed.

Lemma fromHex_toHex (b : Buffer) : fromHex (toHex b) = b.
Proof.
  induction b as [|x b IH]; [reflexivity|].
  cbn [toHex fromHex].
  destruct (unhex_hexDigit x) as [-> ->].
  now rewrite nibbles, IH.
Qed.

Lemma fromHex_toUpperCase_toHex (b : Buffer) : fromHex (toUpperCase (toHex b)) = b.
Proof.
  induction b as [|x b IH]; [reflexivity|].
  cbn [toHex toUpperCase fromHex].
  destruct (unhex_upper_hexDigit x) as [-> ->].
  now rewrite nibbles, IH.
Qed.

Lemma length_toHex (b : Buffer) : String.length (toHex b) = (2 * length b)%nat.
Proof.
  induction b as [|x b IH]; [reflexivity|]. cbn [toHex String.length length]. lia.
Qed.

Lemma length_toUpperCase (s : string) : String.length (toUpperCase s) = String.length s.
Proof.
  induction s as [|c s IH]; [reflexivity|]. cbn. now rewrite IH.
Qed.

(** A prefix of an even number of digits is the text of a prefix of the bytes. *)
Lemma substring_toHex (n : nat) (b : Buffer) :
  substring 0 (2 * n) (toHex b) = toHex (firstn n b).
Proof.
  revert b. induction n as [|n IH]; intros b.
  - destruct b; [reflexivity|]. reflexivity.
  - destruct b as [|x b]; [reflexivity|].
    replace (2 * S n)%nat with (S (S (2 * n))) by lia.
    cbn [toHex substring firstn]. now rewrite IH.
Qed.

(** *** Base64 text *)

Lemma base64Char_table :
  forallb (fun n =>
             let v := Z.of_nat n in
             negb (Ascii.eqb (base64Char v) "="%char)
             && match unbase64 (base64Char v) with
                | Some w => w =? v
                | None => false
                end) (seq 0 64) = true.
Proof. vm_compute. reflexivity. Qed.

Lemma sextets_base64Char (v : Z) (r : string) :
  0 <= v < 64 -> sextets (String (base64Char v) r) = v :: sextets r.
Proof.
  intros H.
  pose proof (proj1 (forallb_forall _ _) base64Char_table (Z.to_nat v)) as T.
  specialize (T ltac:(apply in_seq; lia)).
  cbv beta zeta in T. rewrite Z2Nat.id in T by lia.
  apply andb_true_iff in T as [T1 T2].
  cbn [sextets].
  destruct (Ascii.eqb (base64Char v) "="%char); [discriminate|].
  destruct (unbase64 (base64Char v)) as [w|]; [|discriminate].
  apply Z.eqb_eq in T2. now subst.
Qed.

Lemma sextets_pad (r : string) : sextets (String "="%char r) = [].
Proof. reflexivity. Qed.

Ltac bytes_arith :=
  match goal with
  | |- byte_of_Z ?e = ?x =>
      replace e with (u8 x); [apply byte_of_Z_u8|];
      repeat match goal with
             | b : byte |- _ => pose proof (u8_range b); generalize dependent (u8 b); clear b; intros
             end;
      Z.div_mod_to_equations; lia
  end.

Lemma fromBase64_toBase64_upto (n : nat) (b : Buffer) :
  (length b <= n)%nat -> fromBase64 (toBase64 b) = b.
Proof.
  revert b. induction n as [|n IH]; intros b Hn.
  - destruct b; [reflexivity | simpl in Hn; lia].
  - destruct b as [|x [|y [|z r]]]; [reflexivity| | |].
    + unfold fromBase64. cbn [toBase64].
      pose proof (u8_range x).
      rewrite !sextets_base64Char by (Z.div_mod_to_equations; lia).
      rewrite sextets_pad. cbn [bytesOfSextets]. f_equal. bytes_arith.
    + unfold fromBase64. cbn [toBase64].
      pose proof (u8_range x). pose proof (u8_range y).
      rewrite !sextets_base64Char by (Z.div_mod_to_equations; lia).
      rewrite sextets_pad. cbn [bytesOfSextets]. repeat f_equal; bytes_arith.
    + unfold fromBase64. cbn [toBase64].
      pose proof (u8_range x). pose proof (u8_range y). pose proof (u8_range z).
      rewrite !sextets_base64Char by (Z.div_mod_to_equations; lia).
      cbn [bytesOfSextets]. fold (fromBase64 (toBase64 r)).
      rewrite IH by (simpl in Hn; lia).
      repeat f_equal; bytes_arith.
Qed.

(** Decoding the padded encoding of a buffer gives the buffer back. *)
Lemma fromBase64_toBase64 (b : Buffer) : fromBase64 (toBase64 b) = b.
Proof. apply (fromBase64_toBase64_upto (length b)). lia. Qed.

(** Base64 text is 7-bit text. *)
Lemma base64Char_ascii (v : Z) : (N_of_ascii (base64Char v) <? 128)%N = true.
Proof.
  unfold base64Char.
  destruct (Nat.lt_ge_cases (Z.to_nat v) 64) as [L|L].
  - assert (T : forallb (fun k => (N_of_ascii (nth k base64Alphabet "A"%char) <? 128)%N)
                  (seq 0 64) = true) by (vm_compute; reflexivity).
    apply (proj1 (forallb_forall _ _) T). apply in_seq. lia.
  - rewrite nth_overflow by exact L. reflexivity.
Qed.

Lemma isAscii_toBase64_upto (n : nat) (b : Buffer) :
  (length b <= n)%nat -> isAscii (toBase64 b) = true.
Proof.
  revert b. induction n as [|n IH]; intros b Hn.
  - destruct b; [reflexivity | simpl in Hn; lia].
  - destruct b as [|x [|y [|z r]]]; cbn [toBase64 isAscii];
      rewrite ?base64Char_ascii; cbn [andb]; try reflexivity.
    apply IH. simpl in Hn. lia.
Qed.

Lemma isAscii_toBase64 (b : Buffer) : isAscii (toBase64 b) = true.
Proof. apply (isAscii_toBase64_upto (length b)). lia. Qed.

Lemma fromLatin_toLatin (b : Buffer) : fromLatin (toLatin b) = b.
Proof. apply list_byte_of_string_of_list_byte. Qed.

Lemma toLatin_fromLatin (s : string) : toLatin (fromLatin s) = s.
Proof. apply string_of_list_byte_of_string. Qed.

End BufFacts.

(* ================================================================== *)
(** ** Properties of src/state-helpers.js *)
(* ================================================================== *)

Module StateHelpersProps.

Import StateHelpers BufFacts Sample.

Ltac split_table :=
  repeat match goal with
         | H : Forall _ (_ :: _) |- _ => inversion H; subst; clear H
         | H : Forall _ [] |- _ => clear H
         end.

(** Every comparison of the dispatch misses. *)
Ltac miss_all :=
  repeat first
    [ rewrite compareRange_prefix by assumption
    | rewrite compare_neq by congruence
    | rewrite compare_neq_truthy by congruence
    | progress cbn [bind orb] ].

Section Dispatch.

Context {codec : AddressCodec} {hashes : Hashes} {runtime : Runtime}
        {xfl : XflHelpers} {common : EvernodeCommon}.

(** [decodeStateData] fails closed: on a key of at least four bytes that
    the table does not recognise it throws the validation error, whatever
    the data. *)
Lemma decodeStateData_fails_closed (mem stateKey stateData : Buffer) :
  (4 <= length stateKey)%nat ->
  unrecognized HookStateKeys stateKey ->
  decodeStateData mem stateKey stateData = Throw invalidStateKey.
Proof.
  intros Hlen [Hp Hk]. unfold prefixes, wellKnownKeys in *. split_table.
  unfold decodeStateData, hasPrefix, isKey. miss_all.
  reflexivity.
Qed.

(** A key shorter than the prefix window is refused by the first
    comparison, with the runtime's range error. *)
Lemma short_key_range_error (mem stateKey stateData : Buffer) :
  (length stateKey < 4)%nat ->
  decodeStateData mem stateKey stateData = Throw RangeError /\
  decodeStateKey stateKey = Throw RangeError.
Proof.
  intros Hlen.
  assert (E : forall p, compareRange p stateKey 0 4 = Throw RangeError).
  { intros p. unfold compareRange.
    destruct (length stateKey <? 4)%nat eqn:L; [reflexivity|].
    apply Nat.ltb_ge in L. lia. }
  unfold decodeStateData, decodeStateKey, hasPrefix. rewrite !E. split; reflexivity.
Qed.

(** C1: on a key that matches none of the five prefixes and equals none of
    the well-known keys, [decodeStateKey] does not throw: the comparison
    with HOST_HEARTBEAT_FREQ is used as a truth value without [=== 0], it
    is non-zero on every other key, and the key is reported with the type
    CONFIGURATION. *)
Theorem decodeStateKey_unrecognized_is_configuration (stateKey : Buffer) :
  (4 <= length stateKey)%nat ->
  unrecognized HookStateKeys stateKey ->
  decodeStateKey stateKey = Ok (mkKeyInfo (toUpperCase (toHex stateKey)) CONFIGURATION).
Proof.
  intros Hlen [Hp Hk]. unfold prefixes, wellKnownKeys in *. split_table.
  unfold decodeStateKey, hasPrefix, isKey. miss_all.
  reflexivity.
Qed.

End Dispatch.

Lemma zeroKey_unrecognized : unrecognized sampleHookStateKeys zeroKey.
Proof.
  split; repeat constructor; intro E; vm_compute in E; discriminate E.
Qed.

(** The key of 32 zero bytes under the sample table. *)
Lemma decodeStateKey_unrecognized_is_configuration_witness :
  @decodeStateKey sampleCommon zeroKey
  = Ok (mkKeyInfo "0000000000000000000000000000000000000000000000000000000000000000"
          CONFIGURATION).
Proof.
  apply (@decodeStateKey_unrecognized_is_configuration sampleCommon zeroKey).
  - simpl. lia.
  - exact zeroKey_unrecognized.
Defined.

(** The same key through [decodeStateData]: the validation error. *)
Lemma decodeStateData_fails_closed_witness :
  @decodeStateData sampleCodec sampleHashes sampleRuntime sampleXfl sampleCommon
     [] zeroKey []
  = Throw invalidStateKey.
Proof.
  apply (@decodeStateData_fails_closed sampleCodec sampleHashes sampleRuntime sampleXfl
           sampleCommon [] zeroKey []).
  - simpl. lia.
  - exact zeroKey_unrecognized.
Defined.

(** The other face of the same comparison: the HOST_HEARTBEAT_FREQ key
    itself, which [decodeStateData] decodes as a configuration entry, is
    the one well-known key [decodeStateKey] rejects. *)
Example decodeStateKey_heartbeat_freq :
  @decodeStateKey sampleCommon (fromHex (HOST_HEARTBEAT_FREQ sampleHookStateKeys))
  = Throw invalidStateKey /\
  @decodeStateData sampleCodec sampleHashes sampleRuntime sampleXfl sampleCommon
     [] (fromHex (HOST_HEARTBEAT_FREQ sampleHookStateKeys)) (fromHex "0384")
  = Ok (mkState CONFIGURATION
          "4556520100000000000000000000000000000000000000000000000000000006"
          (ValueNumber 900)).
Proof. split; vm_compute; reflexivity. Qed.

(** *** Key generation and the storage index *)

Lemma allocUnsafe_length (n : nat) (mem : Buffer) : length (allocUnsafe n mem) = n.
Proof.
  unfold allocUnsafe. rewrite length_firstn, length_app, repeat_length. lia.
Qed.

Lemma write_whole (b bytes : Buffer) :
  length b = length bytes -> write b 0 bytes = bytes.
Proof.
  intros H. unfold write. cbn [firstn app Nat.add].
  rewrite skipn_all2 by lia. apply app_nil_r.
Qed.

(** The nine bytes written over an unsafe allocation do not depend on what
    the allocation held. *)
Lemma tag_and_zeros (mem : Buffer) (tag : Z) :
  0 <= tag <= 255 ->
  (buf <- writeUInt8 (allocUnsafe 9 mem) tag 0 ;;
   forLoop 8 0 (fun i b => writeUInt8 b 0 (i + 1)) buf)
  = Ok (byte_of_Z tag :: repeat x00 8).
Proof.
  intros Ht.
  pose proof (allocUnsafe_length 9 mem) as L.
  destruct (allocUnsafe 9 mem) as [|b0 [|b1 [|b2 [|b3 [|b4 [|b5 [|b6 [|b7 [|b8 [|b9 r]]]]]]]]]];
    try discriminate L.
  unfold writeUInt8 at 1.
  replace ((0 <=? tag) && (tag <=? 255)) with true by (symmetry; apply andb_true_iff; lia).
  reflexivity.
Qed.

Lemma firstn_exact {A : Type} (n : nat) (a r : list A) :
  length a = n -> firstn n (a ++ r) = a.
Proof.
  intros <-. rewrite firstn_app, Nat.sub_diag, firstn_all. cbn. apply app_nil_r.
Qed.

Lemma skipn_exact {A : Type} (n : nat) (a r : list A) :
  length a = n -> skipn n (a ++ r) = r.
Proof.
  intros <-. rewrite skipn_app, Nat.sub_diag, skipn_all. reflexivity.
Qed.

Lemma isUpperHex_toHex (b : Buffer) : isUpperHex (toUpperCase (toHex b)) = true.
Proof.
  induction b as [|x b IH]; [reflexivity|].
  cbn [toHex toUpperCase isUpperHex]. rewrite IH.
  destruct x; reflexivity.
Qed.

Section Keys.

Context {codec : AddressCodec} {hashes : Hashes} {common : EvernodeCommon}.

(** C6: for an address the codec decodes to a 20-byte account id, the three
    address-key generators return the upper-case hex text of the 32-byte
    key EVR, kind tag, eight zero bytes, account id; the first four bytes
    of that key are the prefix and the tag, the last twenty the account
    id.  What the unsafe allocation held does not show. *)
Theorem address_key_generators_layout (mem : Buffer) (address : string) (accountId : Buffer) :
  decodeAccountID address = Ok accountId ->
  length accountId = 20%nat ->
  generateHostAddrStateKey mem address
    = Ok (toUpperCase (toHex (addressKey STATE_KEY_TYPES.HOST_ADDR accountId))) /\
  generateTransfereeAddrStateKey mem address
    = Ok (toUpperCase (toHex (addressKey STATE_KEY_TYPES.TRANSFEREE_ADDR accountId))) /\
  generateCandidateOwnerStateKey mem address
    = Ok (toUpperCase (toHex (addressKey STATE_KEY_TYPES.CANDIDATE_OWNER accountId))) /\
  forall tag : Z,
    length (addressKey tag accountId) = 32%nat /\
    firstn 4 (addressKey tag accountId) = fromLatin EVERNODE_PREFIX ++ [byte_of_Z tag] /\
    skipn 12 (addressKey tag accountId) = accountId.
Proof.
  intros Hdec Hlen.
  assert (G : forall tag, 0 <= tag <= 255 ->
            (buf <- writeUInt8 (allocUnsafe 9 mem) tag 0 ;;
             buf <- forLoop 8 0 (fun i b => writeUInt8 b 0 (i + 1)) buf ;;
             addrBuf <- decodeAccountID address ;;
             Ok (toUpperCase (toHex (fromLatin EVERNODE_PREFIX ++ buf ++ addrBuf))))
            = Ok (toUpperCase (toHex (addressKey tag accountId)))).
  { intros tag Ht. pose proof (tag_and_zeros mem tag Ht) as T.
    destruct (writeUInt8 (allocUnsafe 9 mem) tag 0) as [buf|e]; cbn [bind] in *.
    - rewrite T. cbn [bind]. rewrite Hdec. reflexivity.
    - discriminate T. }
  repeat split.
  - apply (G STATE_KEY_TYPES.HOST_ADDR). unfold STATE_KEY_TYPES.HOST_ADDR. lia.
  - apply (G STATE_KEY_TYPES.TRANSFEREE_ADDR). unfold STATE_KEY_TYPES.TRANSFEREE_ADDR. lia.
  - apply (G STATE_KEY_TYPES.CANDIDATE_OWNER). unfold STATE_KEY_TYPES.CANDIDATE_OWNER. lia.
  - unfold addressKey. cbn. now rewrite Hlen.
Qed.

(** C5: the storage index is the upper-case hex text of the first 32 bytes
    of the SHA-512 digest of the tag 0x0076, the account id, the state key
    bytes and the namespace bytes, in this order: 64 characters among 0-9
    and A-F.  It is a function of the account, the key and the namespace
    alone: the unsafe allocation does not show. *)
Theorem getHookStateIndex_digest (mem : Buffer) (hookAccount stateKey : string)
    (hookNamespace : option string) (accountId : Buffer) :
  decodeAccountID hookAccount = Ok accountId ->
  length accountId = 20%nat ->
  (forall d, length (sha512 d) = 64%nat) ->
  let ns := match hookNamespace with
            | Some n => n
            | None => HOOK_NAMESPACE EvernodeConstants
            end in
  let input := stateIndexInput accountId (fromHex stateKey) (fromHex ns) in
  let index := toUpperCase (toHex (firstn 32 (sha512 input))) in
  getHookStateIndex mem hookAccount stateKey hookNamespace = Ok index /\
  (forall mem', getHookStateIndex mem' hookAccount stateKey hookNamespace = Ok index) /\
  String.length index = 64%nat /\
  isUpperHex index = true /\
  slice input 0 2 = [x00; x76] /\
  slice input 2 22 = accountId /\
  sliceFrom input 22 = fromHex stateKey ++ fromHex ns.
Proof.
  intros Hdec Hlen Hsha ns input index.
  assert (G : forall m, getHookStateIndex m hookAccount stateKey hookNamespace = Ok index).
  { intros m. unfold getHookStateIndex.
    unfold writeInt16BE, HOOK_STATE_LEDGER_TYPE_PREFIX.
    rewrite allocUnsafe_length. cbn [Z.leb Z.compare andb Nat.leb Nat.add Pos.compare
                                     Pos.compare_cont bind].
    rewrite write_whole by (now rewrite allocUnsafe_length).
    rewrite Hdec. cbn [bind]. unfold digestHex, update, createHash.
    change 64%nat with (2 * 32)%nat. rewrite substring_toHex.
    rewrite <- !app_assoc. reflexivity. }
  split; [apply G|]. split; [exact G|].
  split.
  { unfold index. rewrite length_toUpperCase, length_toHex, length_firstn, Hsha. reflexivity. }
  split; [apply isUpperHex_toHex|].
  unfold input, stateIndexInput, slice, sliceFrom.
  repeat split.
  - change (firstn (22 - 2) (accountId ++ fromHex stateKey ++ fromHex ns) = accountId).
    apply firstn_exact. exact Hlen.
  - change (skipn 20 (accountId ++ fromHex stateKey ++ fromHex ns)
            = fromHex stateKey ++ fromHex ns).
    apply skipn_exact. exact Hlen.
Qed.

End Keys.

Lemma sampleHashes_width (d : Buffer) : length (@sha512 sampleHashes d) = 64%nat.
Proof.
  change (length (firstn 64 (d ++ repeat x00 64)) = 64%nat).
  rewrite length_firstn, length_app, repeat_length. lia.
Qed.

Lemma address_key_generators_layout_witness :
  @generateHostAddrStateKey sampleCodec [xff; xff] sampleAddress
  = Ok "4556520300000000000000000102030405060708090A0B0C0D0E0F1011121314".
Proof.
  apply (@address_key_generators_layout sampleCodec [xff; xff] sampleAddress sampleAccountId);
    reflexivity.
Defined.

Lemma getHookStateIndex_digest_witness :
  @getHookStateIndex sampleCodec sampleHashes sampleCommon [xff; xff] sampleAddress
     "4556523200000000000000000000000000000000000000000000000000000000" None
  = Ok "00760102030405060708090A0B0C0D0E0F101112131445565232000000000000".
Proof.
  apply (@getHookStateIndex_digest sampleCodec sampleHashes sampleCommon [xff; xff]
           sampleAddress
           "4556523200000000000000000000000000000000000000000000000000000000" None
           sampleAccountId);
    [reflexivity | reflexivity | exact sampleHashes_width].
Defined.

(** *** The host address entry *)

Lemma readUIntBE_ok (w : nat) (b : Buffer) (off : nat) :
  (off + w <= length b)%nat ->
  readUIntBE w b off = Ok (be (slice b off (off + w)) 0).
Proof.
  intros H. unfold readUIntBE.
  destruct (off + w <=? length b)%nat eqn:E; [reflexivity|].
  apply Nat.leb_gt in E. lia.
Qed.

Lemma readUIntBE_short (w : nat) (b : Buffer) (off : nat) :
  (length b < off + w)%nat -> readUIntBE w b off = Throw RangeError.
Proof.
  intros H. unfold readUIntBE.
  destruct (off + w <=? length b)%nat eqn:E; [|reflexivity].
  apply Nat.leb_le in E. lia.
Qed.

(** Below [2^53] the conversion of a BigInt to a Number is exact. *)
Lemma NumberOfBigInt_exact (n : Z) : 0 <= n < 2 ^ 53 -> NumberOfBigInt n = n.
Proof.
  intros H. unfold NumberOfBigInt, bitLength.
  rewrite Z.abs_eq by lia.
  destruct (n <=? 0) eqn:E; [reflexivity|].
  apply Z.leb_gt in E.
  assert (Z.log2 n < 53) by (apply Z.log2_lt_pow2; lia).
  destruct (Z.log2 n + 1 - 53 <=? 0) eqn:F; [reflexivity|].
  apply Z.leb_gt in F. lia.
Qed.

Ltac host_offsets :=
  cbv [HOST_TOKEN_ID_OFFSET HOST_COUNTRY_CODE_OFFSET HOST_RESERVED_OFFSET
       HOST_DESCRIPTION_OFFSET HOST_REG_LEDGER_OFFSET HOST_REG_FEE_OFFSET
       HOST_TOT_INS_COUNT_OFFSET HOST_ACT_INS_COUNT_OFFSET
       HOST_HEARTBEAT_TIMESTAMP_OFFSET HOST_VERSION_OFFSET HOST_REG_TIMESTAMP_OFFSET
       HOST_TRANSFER_FLAG_OFFSET HOST_LAST_VOTE_CANDIDATE_IDX_OFFSET
       HOST_LAST_VOTE_TIMESTAMP_OFFSET HOST_SUPPORT_VOTE_FLAG_OFFSET
       readUInt8 readUInt16BE readUInt32BE readBigUInt64BE] in *.

Section HostAddressEntry.

Context {codec : AddressCodec} {runtime : Runtime}.

(** With 125 bytes or more every read succeeds and the length test
    passes. *)
Lemma decodeHostAddressState_long (stateKeyBuf stateDataBuf : Buffer) (address : string) :
  encodeAccountID (sliceFrom stateKeyBuf 12) = Ok address ->
  (125 <= length stateDataBuf)%nat ->
  exists d : HostAddress.t,
    decodeHostAddressState stateKeyBuf stateDataBuf = Ok d /\
    HostAddress.registrationTimestamp d
    = Some (NumberOfBigInt (be (slice stateDataBuf 103 111) 0)).
Proof.
  intros Henc Hlen.
  unfold decodeHostAddressState. rewrite Henc. cbn [bind].
  host_offsets.
  rewrite !readUIntBE_ok by lia. cbn [bind].
  destruct (103 <? length stateDataBuf)%nat eqn:E;
    [|apply Nat.ltb_ge in E; lia].
  eexists. split; reflexivity.
Qed.

Lemma be_nonneg (l : list byte) (acc : Z) : 0 <= acc -> 0 <= be l acc.
Proof.
  revert acc. induction l as [|x l IH]; intros acc Ha; cbn [be]; [exact Ha|].
  apply IH. pose proof (u8_range x). lia.
Qed.

(** A data buffer shorter than 125 bytes is refused: the reads that come
    before the length test need all of them. *)
Lemma decodeHostAddressState_short (stateKeyBuf stateDataBuf : Buffer) (address : string) :
  encodeAccountID (sliceFrom stateKeyBuf 12) = Ok address ->
  (length stateDataBuf < 125)%nat ->
  decodeHostAddressState stateKeyBuf stateDataBuf = Throw RangeError.
Proof.
  intros Henc Hlen.
  unfold decodeHostAddressState. rewrite Henc. cbn [bind].
  host_offsets. unfold readUIntBE.
  repeat match goal with
         | |- context [(?a <=? length stateDataBuf)%nat] =>
             let E := fresh "E" in
             destruct (a <=? length stateDataBuf)%nat eqn:E; cbn [bind];
             [apply Nat.leb_le in E | reflexivity]
         end.
  lia.
Qed.

(** C7: the length test that guards registrationTimestamp decides
    nothing.  The reads at offsets 111 to 124 come before it, so for a key
    whose account id the codec accepts every data buffer shorter than 125
    bytes is refused with the range error: the 103 bytes that end where
    the timestamp begins, the 111 bytes that end where it ends, and every
    length up to 124 at which the test holds.  No record without the field
    is returned.  From 125 bytes on the record has the field: the Number
    made from the big-endian unsigned 64-bit integer at offset 103, which
    is that integer when it is below 2^53. *)
Theorem decodeHostAddressState_registrationTimestamp
    (stateKeyBuf stateDataBuf : Buffer) (address : string) :
  encodeAccountID (sliceFrom stateKeyBuf 12) = Ok address ->
  let ts := be (slice stateDataBuf 103 111) 0 in
  ((length stateDataBuf < 125)%nat ->
   decodeHostAddressState stateKeyBuf stateDataBuf = Throw RangeError) /\
  ((125 <= length stateDataBuf)%nat ->
   exists d : HostAddress.t,
     decodeHostAddressState stateKeyBuf stateDataBuf = Ok d /\
     HostAddress.registrationTimestamp d = Some (NumberOfBigInt ts) /\
     (ts < 2 ^ 53 -> HostAddress.registrationTimestamp d = Some ts)) /\
  (forall d : HostAddress.t,
      decodeHostAddressState stateKeyBuf stateDataBuf = Ok d ->
      HostAddress.registrationTimestamp d <> None).
Proof.
  intros Henc ts. split; [|split].
  - intros Hlen. exact (decodeHostAddressState_short _ _ _ Henc Hlen).
  - intros Hlen.
    destruct (decodeHostAddressState_long _ _ _ Henc Hlen) as (d & Hd & Hts).
    exists d. split; [exact Hd|]. split; [exact Hts|].
    intros Hsmall. rewrite Hts. fold ts.
    rewrite NumberOfBigInt_exact; [reflexivity|].
    split; [apply be_nonneg; lia | exact Hsmall].
  - intros d Hd.
    destruct (Nat.lt_ge_cases (length stateDataBuf) 125) as [L|L].
    + rewrite (decodeHostAddressState_short _ _ _ Henc L) in Hd. discriminate Hd.
    + destruct (decodeHostAddressState_long _ _ _ Henc L) as (d' & Hd' & Hts).
      rewrite Hd in Hd'. injection Hd' as <-. rewrite Hts. discriminate.
Qed.

(** Hence a record that is returned always has the field. *)
Lemma decodeHostAddressState_never_omits (stateKeyBuf stateDataBuf : Buffer)
    (d : HostAddress.t) :
  decodeHostAddressState stateKeyBuf stateDataBuf = Ok d ->
  (125 <= length stateDataBuf)%nat /\
  HostAddress.registrationTimestamp d
  = Some (NumberOfBigInt (be (slice stateDataBuf 103 111) 0)).
Proof.
  intros H.
  destruct (encodeAccountID (sliceFrom stateKeyBuf 12)) as [address|e] eqn:Henc.
  - destruct (Nat.lt_ge_cases (length stateDataBuf) 125) as [L|L].
    + rewrite (decodeHostAddressState_short _ _ _ Henc L) in H. discriminate H.
    + split; [exact L|].
      destruct (decodeHostAddressState_long _ _ _ Henc L) as (d' & Hd & Hts).
      rewrite H in Hd. injection Hd as <-. exact Hts.
  - unfold decodeHostAddressState in H. rewrite Henc in H. discriminate H.
Qed.

End HostAddressEntry.

(** Under the sample codec: a valid host key and 125 bytes of data that
    hold the timestamp 258 (the bytes 01 02 at offsets 109 and 110).  Cut
    to the 111 bytes that end with the timestamp the buffer is refused;
    whole, it gives a record with the timestamp 258. *)
Lemma decodeHostAddressState_registrationTimestamp_witness :
  let stateDataBuf := alloc 103 x00 ++ fromHex "0000000000000102" ++ alloc 14 x00 in
  let ts := be (slice stateDataBuf 103 111) 0 in
  ts = 258 /\
  @decodeHostAddressState sampleCodec sampleRuntime sampleHostKey (firstn 111 stateDataBuf)
  = Throw RangeError /\
  exists d : HostAddress.t,
    @decodeHostAddressState sampleCodec sampleRuntime sampleHostKey stateDataBuf = Ok d /\
    HostAddress.registrationTimestamp d = Some (NumberOfBigInt ts) /\
    (ts < 2 ^ 53 -> HostAddress.registrationTimestamp d = Some ts).
Proof.
  intros stateDataBuf ts.
  split; [vm_compute; reflexivity|]. split.
  - apply (proj1 (@decodeHostAddressState_registrationTimestamp sampleCodec sampleRuntime
                    sampleHostKey (firstn 111 stateDataBuf) sampleAddress eq_refl)).
    vm_compute. lia.
  - apply (proj1 (proj2 (@decodeHostAddressState_registrationTimestamp sampleCodec
                           sampleRuntime sampleHostKey stateDataBuf sampleAddress eq_refl))).
    vm_compute. lia.
Defined.

Lemma decodeHostAddressState_never_omits_witness :
  (125 <= length (alloc 125 x00))%nat /\
  HostAddress.registrationTimestamp
    (HostAddress.mk sampleAddress
       "0000000000000000000000000000000000000000000000000000000000000000"
       [0%N; 0%N] [] 0 0 0 0 0 "0.0.0" 0 0 0 0 (Some 0))
  = Some (NumberOfBigInt (be (slice (alloc 125 x00) 103 111) 0)).
Proof.
  apply (@decodeHostAddressState_never_omits sampleCodec sampleRuntime sampleHostKey
           (alloc 125 x00)).
  vm_compute. reflexivity.
Defined.

(** The lengths around the test, under the sample codec.  The least
    length at which a record comes back is 125 (124 bytes, and the 103
    bytes that end before the timestamp, are refused), and at 125 the
    record has the field; a stored value of 2^53 + 1 is reported as
    2^53. *)
Example registrationTimestamp_lengths :
  @decodeHostAddressState sampleCodec sampleRuntime sampleHostKey (alloc 103 x00)
    = Throw RangeError /\
  @decodeHostAddressState sampleCodec sampleRuntime sampleHostKey (alloc 124 x00)
    = Throw RangeError /\
  (exists d : HostAddress.t,
      @decodeHostAddressState sampleCodec sampleRuntime sampleHostKey (alloc 125 x00) = Ok d /\
      HostAddress.registrationTimestamp d = Some 0) /\
  (exists d : HostAddress.t,
      @decodeHostAddressState sampleCodec sampleRuntime sampleHostKey
         (alloc 103 x00 ++ fromHex "0020000000000001" ++ alloc 14 x00) = Ok d /\
      be (fromHex "0020000000000001") 0 = 9007199254740993 /\
      HostAddress.registrationTimestamp d = Some 9007199254740992).
Proof.
  split; [vm_compute; reflexivity|].
  split; [vm_compute; reflexivity|].
  split; eexists; (split; [vm_compute; reflexivity|]); repeat split; vm_compute; reflexivity.
Qed.

End StateHelpersProps.

(* ================================================================== *)
(** ** Properties of src/util-helpers.js *)
(* ================================================================== *)

Module UtilHelpersProps.

Import UtilHelpers BufFacts Sample StateHelpersProps.

Section LeaseUri.

Context {runtime : Runtime} {xfl : XflHelpers} {common : EvernodeCommon}
        {th : TransactionHelper}.

(** Both entry points apply one layout to the buffer they decode. *)
Lemma decodeLeaseTokenUri_as_raw (encoded raw : string) :
  fromBase64 (hexToASCII encoded) = fromHex raw ->
  decodeLeaseTokenUri encoded = decodeLeaseNftUri raw.
Proof.
  intros H. unfold decodeLeaseTokenUri, decodeLeaseNftUri. rewrite H. reflexivity.
Qed.


(** What the layout reads from a buffer. *)
Lemma layout_inversion (hexUri : string) (d : LeaseDescriptor) :
  decodeLeaseNftUri hexUri = Ok d ->
  Nat.odd (String.length (LEASE_TOKEN_PREFIX_HEX EvernodeConstants)) = false /\
  (prefixLen + 2 + 16 + 8 <= length (fromHex hexUri))%nat /\
  halfTos d = slice (fromHex hexUri) (prefixLen + 2) 16 /\
  exists amount text,
    readBigInt64BE (fromHex hexUri) (prefixLen + 2 + 16) = Ok amount /\
    XflHelpers_toString amount = Ok text /\
    leaseAmount d = VNumber (parseFloat text).
Proof.
  unfold decodeLeaseNftUri. fold prefixLen.
  destruct (Nat.odd _) eqn:Hodd; [discriminate|].
  destruct (readUInt16BE (fromHex hexUri) prefixLen) as [idx|e]; [|discriminate].
  cbn [bind].
  destruct (readBigInt64BE (fromHex hexUri) (prefixLen + 2 + 16)) as [amount|e] eqn:Hread;
    [|discriminate].
  cbn [bind].
  destruct (XflHelpers_toString amount) as [text|e] eqn:Htext; [|discriminate].
  cbn [bind]. intros H. injection H as <-.
  split; [reflexivity|]. split.
  - unfold readBigInt64BE, readUIntBE in Hread.
    destruct (prefixLen + 2 + 16 + 8 <=? length (fromHex hexUri))%nat eqn:E;
      [now apply Nat.leb_le in E | discriminate Hread].
  - split; [reflexivity|]. exists amount, text. repeat split; assumption.
Qed.

Lemma length_slice (b : Buffer) (s e : nat) :
  (e <= length b)%nat -> length (slice b s e) = (e - s)%nat.
Proof.
  intros H. unfold slice. rewrite length_firstn, length_skipn. lia.
Qed.

(** C2: the half hash a decoder returns is the slice from offset
    prefixLen + 2 up to offset 16 of the buffer, not the 16 bytes that
    follow the lease index: it has 16 - (prefixLen + 2) bytes, fewer than
    16, and is a strict prefix of that window. *)
Theorem halfTos_ends_at_offset_16 (hexUri : string) (d : LeaseDescriptor) :
  (decodeLeaseNftUri hexUri = Ok d ->
   halfTos d = slice (fromHex hexUri) (prefixLen + 2) 16 /\
   length (halfTos d) = (16 - (prefixLen + 2))%nat /\
   length (halfHashWindow (fromHex hexUri)) = 16%nat /\
   halfTos d <> halfHashWindow (fromHex hexUri)) /\
  (decodeLeaseTokenUri hexUri = Ok d ->
   let uriBuf := fromBase64 (hexToASCII hexUri) in
   halfTos d = slice uriBuf (prefixLen + 2) 16 /\
   length (halfTos d) = (16 - (prefixLen + 2))%nat /\
   length (halfHashWindow uriBuf) = 16%nat /\
   halfTos d <> halfHashWindow uriBuf).
Proof.
  assert (G : forall raw, decodeLeaseNftUri raw = Ok d ->
            halfTos d = slice (fromHex raw) (prefixLen + 2) 16 /\
            length (halfTos d) = (16 - (prefixLen + 2))%nat /\
            length (halfHashWindow (fromHex raw)) = 16%nat /\
            halfTos d <> halfHashWindow (fromHex raw)).
  { intros raw H. apply layout_inversion in H as (_ & Hlen & Hhalf & _).
    assert (L1 : length (halfTos d) = (16 - (prefixLen + 2))%nat)
      by (rewrite Hhalf; apply length_slice; lia).
    assert (L2 : length (halfHashWindow (fromHex raw)) = 16%nat)
      by (unfold halfHashWindow; rewrite length_slice; lia).
    repeat split; try assumption.
    intros E. rewrite E, L2 in L1. lia. }
  split; [apply G|].
  intros H uriBuf.
  rewrite <- (fromHex_toHex uriBuf).
  apply G. rewrite <- H. symmetry. apply decodeLeaseTokenUri_as_raw.
  now rewrite fromHex_toHex.
Qed.

(** C3: when the prefix has an even number of hex digits, the buffer holds
    the eight bytes of the amount and the codec accepts them, each decoder
    returns a descriptor whose leaseAmount is the Number [parseFloat]
    makes of the codec's decimal text. *)
Theorem leaseAmount_is_parseFloat_of_decimal_text (hexUri : string) :
  Nat.odd (String.length (LEASE_TOKEN_PREFIX_HEX EvernodeConstants)) = false ->
  (forall amount text,
      readBigInt64BE (fromHex hexUri) (prefixLen + 2 + 16) = Ok amount ->
      XflHelpers_toString amount = Ok text ->
      exists d, decodeLeaseNftUri hexUri = Ok d /\
                leaseAmount d = VNumber (parseFloat text)) /\
  (forall amount text,
      readBigInt64BE (fromBase64 (hexToASCII hexUri)) (prefixLen + 2 + 16) = Ok amount ->
      XflHelpers_toString amount = Ok text ->
      exists d, decodeLeaseTokenUri hexUri = Ok d /\
                leaseAmount d = VNumber (parseFloat text)).
Proof.
  intros Heven.
  assert (G : forall raw amount text,
            readBigInt64BE (fromHex raw) (prefixLen + 2 + 16) = Ok amount ->
            XflHelpers_toString amount = Ok text ->
            exists d, decodeLeaseNftUri raw = Ok d /\
                      leaseAmount d = VNumber (parseFloat text)).
  { intros raw amount text Hread Htext.
    unfold decodeLeaseNftUri. fold prefixLen. rewrite Heven.
    assert (L : (prefixLen + 2 + 16 + 8 <= length (fromHex raw))%nat).
    { unfold readBigInt64BE, readUIntBE in Hread.
      destruct (prefixLen + 2 + 16 + 8 <=? length (fromHex raw))%nat eqn:E;
        [now apply Nat.leb_le in E | discriminate Hread]. }
    unfold readUInt16BE. rewrite readUIntBE_ok by lia. cbn [bind].
    rewrite Hread. cbn [bind]. rewrite Htext. cbn [bind].
    eexists. split; reflexivity. }
  split; [apply G|].
  intros amount text Hread Htext.
  rewrite <- (fromHex_toHex (fromBase64 (hexToASCII hexUri))) in Hread.
  destruct (G _ _ _ Hread Htext) as (d & Hd & Ha).
  exists d. split; [|exact Ha].
  rewrite <- Hd. apply decodeLeaseTokenUri_as_raw. now rewrite fromHex_toHex.
Qed.

End LeaseUri.

Lemma hexToASCII_model_contract : @hexToASCII_contract sampleTransactionHelper.
Proof.
  intros s _. unfold sampleTransactionHelper, hexToASCII, hexToASCII_model.
  now rewrite fromHex_toHex, fromHex_toUpperCase_toHex, toLatin_fromLatin.
Qed.

Lemma ascii_byte_code (b : byte) : N_of_ascii (ascii_of_byte b) = Byte.to_N b.
Proof. destruct b; reflexivity. Qed.

(** The second stand-in meets the contract too, and is no Latin-1
    decoder: on the byte FF it gives the character ?. *)
Lemma hexToASCII_utf8_model_contract : @hexToASCII_contract sampleUtf8Helper.
Proof.
  assert (G : forall s, isAscii s = true ->
            string_of_list_ascii
              (map (fun b => if u8 b <? 128 then ascii_of_byte b else "?"%char)
                 (fromLatin s)) = s).
  { induction s as [|c s IH]; [reflexivity|].
    cbn [isAscii]. intros H. apply andb_true_iff in H as [Hc Hs].
    unfold fromLatin in *.
    change (list_byte_of_string (String c s))
      with (byte_of_ascii c :: list_byte_of_string s).
    cbn [map string_of_list_ascii].
    rewrite (IH Hs). f_equal.
    rewrite <- (ascii_of_byte_of_ascii c) in Hc. rewrite ascii_byte_code in Hc.
    apply N.ltb_lt in Hc. unfold u8.
    destruct (Z.of_N (Byte.to_N (byte_of_ascii c)) <? 128) eqn:E.
    - apply ascii_of_byte_of_ascii.
    - apply Z.ltb_ge in E. lia. }
  intros s Hs. unfold sampleUtf8Helper, hexToASCII, hexToASCII_utf8_model.
  rewrite fromHex_toHex, fromHex_toUpperCase_toHex. split; apply G; exact Hs.
Qed.

Example hexToASCII_utf8_model_is_not_latin1 :
  @hexToASCII sampleUtf8Helper "FF" = "?" /\ @hexToASCII sampleTransactionHelper "FF" = toLatin [xff].
Proof. split; reflexivity. Qed.


(** The sample URI: prefix evrlease (8 bytes), so the half hash returned is
    bytes 10 to 15, six bytes, where the layout has sixteen. *)
Lemma halfTos_ends_at_offset_16_witness :
  let d := mkLease 7 (fromHex "A0A1A2A3A4A5") (VNumber 2%float) in
  let hexUri := toHex sampleLeaseBytes in
  halfTos d = slice (fromHex hexUri) (@prefixLen sampleCommon + 2) 16 /\
  length (halfTos d) = (16 - (@prefixLen sampleCommon + 2))%nat /\
  length (@halfHashWindow sampleCommon (fromHex hexUri)) = 16%nat /\
  halfTos d <> @halfHashWindow sampleCommon (fromHex hexUri).
Proof.
  intros d hexUri.
  assert (H : @decodeLeaseNftUri sampleRuntime sampleXfl sampleCommon hexUri = Ok d)
    by (vm_compute; reflexivity).
  exact (proj1 (@halfTos_ends_at_offset_16 sampleRuntime sampleXfl sampleCommon
                  sampleTransactionHelper hexUri d) H).
Defined.

(** Both decoders on the sample URI. *)
Example sample_lease_descriptors :
  @decodeLeaseNftUri sampleRuntime sampleXfl sampleCommon (toHex sampleLeaseBytes)
  = Ok (mkLease 7 (fromHex "A0A1A2A3A4A5") (VNumber 2%float)) /\
  @decodeLeaseTokenUri sampleRuntime sampleXfl sampleCommon sampleTransactionHelper
     sampleLeaseUri
  = Ok (mkLease 7 (fromHex "A0A1A2A3A4A5") (VNumber 2%float)) /\
  @halfHashWindow sampleCommon sampleLeaseBytes = fromHex "A0A1A2A3A4A5A6A7A8A9AAABACADAEAF".
Proof. repeat split; vm_compute; reflexivity. Qed.

Lemma leaseAmount_is_parseFloat_of_decimal_text_witness :
  exists d,
    @decodeLeaseNftUri sampleRuntime sampleXfl sampleCommon (toHex sampleLeaseBytes) = Ok d /\
    leaseAmount d = VNumber (@parseFloat sampleRuntime "2").
Proof.
  apply (proj1 (@leaseAmount_is_parseFloat_of_decimal_text sampleRuntime sampleXfl
                  sampleCommon sampleTransactionHelper (toHex sampleLeaseBytes)
                  ltac:(reflexivity)) 2 "2");
    vm_compute; reflexivity.
Defined.

(** C3, as stated, fails: the codec's text for the sample amount is "2",
    and the descriptor holds the Number 2, not that text. *)
Lemma leaseAmount_counterexample :
  exists d,
    @decodeLeaseNftUri sampleRuntime sampleXfl sampleCommon (toHex sampleLeaseBytes) = Ok d /\
    readBigInt64BE sampleLeaseBytes 26 = Ok 2 /\
    @XflHelpers_toString sampleXfl 2 = Ok "2" /\
    leaseAmount d = VNumber 2%float /\
    leaseAmount d <> VString "2".
Proof.
  eexists. split; [vm_compute; reflexivity|].
  repeat split; try (vm_compute; reflexivity).
  cbn [leaseAmount]. discriminate.
Qed.

End UtilHelpersProps.

(* ================================================================== *)
(** ** Properties of src/clients/tenant-client.js *)
(* ================================================================== *)

Module TenantClientProps.

Import TenantClient Sample.

Section Tenant.

Context {runtime : Runtime} {xfl : XflHelpers} {common : EvernodeCommon}
        {th : UtilHelpers.TransactionHelper} {client : Client}.

(** The callback of the offer lookup has a block body without [return]:
    on every element it gives [undefined], so [find] selects nothing. *)
Lemma find_block_selects_nothing (selected : Value) (offers : list UriToken) :
  find (fun uriOffer => block (strictEquals (VString (index uriOffer)) selected)) offers
  = None.
Proof.
  induction offers as [|o offers IH]; [reflexivity|].
  cbn [find block ToBoolean]. exact IH.
Qed.

(** C9: when the host lookup and the offer query succeed and
    options.leaseOfferIndex is truthy, the lookup selects no offer, whatever
    the offers are, and the call throws NO_OFFER. *)
Theorem acquireLeaseSubmit_selected_offer_is_never_found
    (hostAddress : string) (requirement options selected : Value) (host : string)
    (offers : option (list UriToken)) :
  getLeaseHost hostAddress = Ok host ->
  get (defaultEmpty options) "leaseOfferIndex" = Ok selected ->
  ToBoolean selected = true ->
  getLeaseOffers host = Ok offers ->
  acquireLeaseSubmit hostAddress requirement options
  = Throw (Reason NO_OFFER "No offers available.").
Proof.
  intros Hhost Hsel Htruthy Hoffers.
  unfold acquireLeaseSubmit.
  rewrite Hhost. cbn [bind]. rewrite Hsel. cbn [native bind].
  rewrite Hoffers. cbn [bind]. rewrite Htruthy. cbn [negb].
  destruct offers as [l|]; [|reflexivity].
  rewrite find_block_selects_nothing. reflexivity.
Qed.

(** The fail timer of a watch whose options argument is a Number is armed
    with the default delay. *)
Lemma watchExtendResponse_number_options (tx : Tx) (n : float) :
  watchExtendResponse tx (VNumber n) = pollExtend tx (VNumber DEFAULT_WAIT_TIMEOUT).
Proof. reflexivity. Qed.

(** C10: when [extendLease] reaches the watch (the lease token is found,
    its URI decodes, the payment is submitted) and the ledger index is a
    Number, the watch is the one armed with DEFAULT_WAIT_TIMEOUT = 60000,
    whatever the caller's options hold. *)
Theorem extendLease_watch_uses_default_timeout
    (hostAddress : string) (moments : float) (instanceName : string) (options : Value)
    (tokens : list UriToken) (uriToken : UriToken) (uriInfo : UtilHelpers.LeaseDescriptor)
    (tx : Tx) (n : float) :
  ledgerIndex = VNumber n ->
  getURITokens ownAddress = Ok (Some tokens) ->
  find (fun t => VBool (String.eqb (index t) instanceName)) tokens = Some uriToken ->
  UtilHelpers.decodeLeaseTokenUri (URI uriToken) = Ok uriInfo ->
  extendLeaseSubmit hostAddress
    match UtilHelpers.leaseAmount uriInfo with
    | VNumber x => PrimFloat.mul moments x
    | _ => PrimFloat.nan
    end
    instanceName (defaultEmpty options) = Ok tx ->
  extendLease hostAddress moments instanceName options
  = pollExtend tx (VNumber DEFAULT_WAIT_TIMEOUT) /\
  DEFAULT_WAIT_TIMEOUT = 60000%float.
Proof.
  intros Hidx Htokens Hfind Hdecode Hsubmit.
  split; [|reflexivity].
  unfold extendLease.
  rewrite Htokens, Hfind, Hdecode, Hsubmit, Hidx.
  apply watchExtendResponse_number_options.
Qed.

End Tenant.

(** The sample host has an offer whose index is the one asked for. *)
Lemma acquireLeaseSubmit_selected_offer_is_never_found_witness :
  let options := VObject (PCons "leaseOfferIndex" (VString "OFFER1") PNil) in
  @getLeaseOffers sampleClient "rHOST" = Ok (Some [sampleOffer]) /\
  index sampleOffer = "OFFER1" /\
  @acquireLeaseSubmit sampleClient "rHOST" VUndefined options
  = Throw (Reason NO_OFFER "No offers available.").
Proof.
  intros options.
  split; [reflexivity|]. split; [reflexivity|].
  exact (@acquireLeaseSubmit_selected_offer_is_never_found sampleClient
           "rHOST" VUndefined options (VString "OFFER1") "rHOST" (Some [sampleOffer])
           eq_refl eq_refl eq_refl eq_refl).
Defined.

(** A caller asks for a timeout of 500 ms; the watch is armed with 60000. *)
Lemma extendLease_watch_uses_default_timeout_witness :
  let options := VObject (PCons "timeout" (VNumber 500%float) PNil) in
  let tx := mkTx "TX2" 1001%float in
  @extendLease sampleRuntime sampleXfl sampleCommon sampleTransactionHelper sampleClient
     "rHOST" 3%float "LEASE1" options
  = @pollExtend sampleClient tx (VNumber DEFAULT_WAIT_TIMEOUT) /\
  DEFAULT_WAIT_TIMEOUT = 60000%float.
Proof.
  intros options tx.
  assert (Hdecode :
            @UtilHelpers.decodeLeaseTokenUri sampleRuntime sampleXfl sampleCommon
              sampleTransactionHelper (URI sampleLeaseToken)
            = Ok (UtilHelpers.mkLease 7 (fromHex "A0A1A2A3A4A5") (VNumber 2%float)))
    by (vm_compute; reflexivity).
  exact (@extendLease_watch_uses_default_timeout sampleRuntime sampleXfl sampleCommon
           sampleTransactionHelper sampleClient
           "rHOST" 3%float "LEASE1" options [sampleLeaseToken] sampleLeaseToken
           (UtilHelpers.mkLease 7 (fromHex "A0A1A2A3A4A5") (VNumber 2%float))
           tx 1000%float eq_refl eq_refl eq_refl Hdecode eq_refl).
Defined.

(** The same watch called with the caller's options would use them. *)
Example watchExtendResponse_with_options :
  @watchExtendResponse sampleClient (mkTx "TX2" 1001%float)
     (VObject (PCons "timeout" (VNumber 500%float) PNil))
  = @pollExtend sampleClient (mkTx "TX2" 1001%float) (VNumber 500%float).
Proof. vm_compute. reflexivity. Qed.

End TenantClientProps.

(* ================================================================== *)
(** ** Further properties of src/state-helpers.js *)
(* ================================================================== *)

Module StateHelpersMore.

Import StateHelpers BufFacts Sample StateHelpersProps.

(** *** Hex text determines the bytes *)

Lemma hexKeyText_inj (a b : Buffer) : hexKeyText a = hexKeyText b -> a = b.
Proof.
  unfold hexKeyText. intros H.
  rewrite <- (fromHex_toUpperCase_toHex a), <- (fromHex_toUpperCase_toHex b).
  now rewrite H.
Qed.

Lemma Ok_inj {E A : Type} (x y : A) : @Ok E A x = Ok y -> x = y.
Proof. intros H. now injection H. Qed.

Lemma fromHex_hexKeyText (a : Buffer) : fromHex (hexKeyText a) = a.
Proof. apply fromHex_toUpperCase_toHex. Qed.

Lemma u8_byte_of_Z (z : Z) : 0 <= z <= 255 -> u8 (byte_of_Z z) = z.
Proof.
  intros H. unfold byte_of_Z, u8. rewrite Z.mod_small by lia.
  destruct (Byte.of_N (Z.to_N z)) as [b|] eqn:E.
  - apply Byte.to_of_N in E. rewrite E. lia.
  - apply Byte.of_N_None_iff in E. lia.
Qed.

Section Generators.

Context {codec : AddressCodec} {hashes : Hashes} {common : EvernodeCommon}.

(** What each address-key generator computes. *)
Lemma address_generators_value (mem : Buffer) (address : string) :
  generateHostAddrStateKey mem address
  = (acc <- decodeAccountID address ;;
     Ok (hexKeyText (addressKey STATE_KEY_TYPES.HOST_ADDR acc))) /\
  generateTransfereeAddrStateKey mem address
  = (acc <- decodeAccountID address ;;
     Ok (hexKeyText (addressKey STATE_KEY_TYPES.TRANSFEREE_ADDR acc))) /\
  generateCandidateOwnerStateKey mem address
  = (acc <- decodeAccountID address ;;
     Ok (hexKeyText (addressKey STATE_KEY_TYPES.CANDIDATE_OWNER acc))).
Proof.
  assert (G : forall tag, 0 <= tag <= 255 ->
            (buf <- writeUInt8 (allocUnsafe 9 mem) tag 0 ;;
             buf <- forLoop 8 0 (fun i b => writeUInt8 b 0 (i + 1)) buf ;;
             addrBuf <- decodeAccountID address ;;
             Ok (toUpperCase (toHex (fromLatin EVERNODE_PREFIX ++ buf ++ addrBuf))))
            = (acc <- decodeAccountID address ;; Ok (hexKeyText (addressKey tag acc)))).
  { intros tag Ht. pose proof (tag_and_zeros mem tag Ht) as T.
    destruct (writeUInt8 (allocUnsafe 9 mem) tag 0) as [buf|e]; cbn [bind] in *.
    - rewrite T. cbn [bind]. reflexivity.
    - discriminate T. }
  repeat split.
  - apply (G STATE_KEY_TYPES.HOST_ADDR). unfold STATE_KEY_TYPES.HOST_ADDR. lia.
  - apply (G STATE_KEY_TYPES.TRANSFEREE_ADDR). unfold STATE_KEY_TYPES.TRANSFEREE_ADDR. lia.
  - apply (G STATE_KEY_TYPES.CANDIDATE_OWNER). unfold STATE_KEY_TYPES.CANDIDATE_OWNER. lia.
Qed.

Lemma one_byte_tag (mem : Buffer) (tag : Z) :
  0 <= tag <= 255 ->
  writeUInt8 (allocUnsafe 1 mem) tag 0 = Ok [byte_of_Z tag].
Proof.
  intros Ht. pose proof (allocUnsafe_length 1 mem) as L.
  destruct (allocUnsafe 1 mem) as [|b0 [|b1 r]]; try discriminate L.
  unfold writeUInt8.
  replace ((0 <=? tag) && (tag <=? 255)) with true by (symmetry; apply andb_true_iff; lia).
  reflexivity.
Qed.

(** What each content-key generator computes: it never throws. *)
Lemma content_generators_value (mem : Buffer) (text : string) :
  generateTokenIdStateKey mem text
  = Ok (hexKeyText (contentKey STATE_KEY_TYPES.TOKEN_ID (fromHex text))) /\
  generateCandidateIdStateKey mem text
  = Ok (hexKeyText (contentKey STATE_KEY_TYPES.CANDIDATE_ID (fromHex text))).
Proof.
  unfold generateTokenIdStateKey, generateCandidateIdStateKey.
  rewrite !one_byte_tag by (cbv; split; discriminate).
  split; reflexivity.
Qed.

Lemma addressKey_inj (t1 t2 : Z) (a1 a2 : Buffer) :
  0 <= t1 <= 255 -> 0 <= t2 <= 255 ->
  addressKey t1 a1 = addressKey t2 a2 -> t1 = t2 /\ a1 = a2.
Proof.
  intros H1 H2 E. unfold addressKey in E. cbn in E.
  injection E as Et Ea. split; [|exact Ea].
  rewrite <- (u8_byte_of_Z t1 H1), <- (u8_byte_of_Z t2 H2). now rewrite Et.
Qed.

(** Address keys separate accounts and kinds: two keys of one kind are
    equal exactly when the account ids are, and keys of different kinds
    are never equal.  What the unsafe allocations held plays no part. *)
Theorem address_keys_separate (mem1 mem2 : Buffer) (a1 a2 : string) (acc1 acc2 : Buffer) :
  decodeAccountID a1 = Ok acc1 ->
  decodeAccountID a2 = Ok acc2 ->
  (generateHostAddrStateKey mem1 a1 = generateHostAddrStateKey mem2 a2 <-> acc1 = acc2) /\
  (generateTransfereeAddrStateKey mem1 a1 = generateTransfereeAddrStateKey mem2 a2
   <-> acc1 = acc2) /\
  (generateCandidateOwnerStateKey mem1 a1 = generateCandidateOwnerStateKey mem2 a2
   <-> acc1 = acc2) /\
  generateHostAddrStateKey mem1 a1 <> generateTransfereeAddrStateKey mem2 a2 /\
  generateHostAddrStateKey mem1 a1 <> generateCandidateOwnerStateKey mem2 a2 /\
  generateTransfereeAddrStateKey mem1 a1 <> generateCandidateOwnerStateKey mem2 a2.
Proof.
  intros H1 H2.
  destruct (address_generators_value mem1 a1) as (Eh1 & Et1 & Eo1).
  destruct (address_generators_value mem2 a2) as (Eh2 & Et2 & Eo2).
  rewrite Eh1, Et1, Eo1, Eh2, Et2, Eo2, H1, H2. cbn [bind].
  assert (K : forall t1 t2, 0 <= t1 <= 255 -> 0 <= t2 <= 255 ->
            @Ok Exn string (hexKeyText (addressKey t1 acc1)) = Ok (hexKeyText (addressKey t2 acc2)) ->
            t1 = t2 /\ acc1 = acc2).
  { intros t1 t2 B1 B2 E. apply Ok_inj, hexKeyText_inj in E.
    now apply addressKey_inj. }
  unfold STATE_KEY_TYPES.HOST_ADDR, STATE_KEY_TYPES.TRANSFEREE_ADDR,
    STATE_KEY_TYPES.CANDIDATE_OWNER.
  repeat split;
    try (intros ->; reflexivity);
    intros E; apply K in E; try lia; destruct E as [Et Ea]; try exact Ea; lia.
Qed.


End Generators.

(** *** Generated keys and the dispatch *)

(** Peel the binds of a successful completion. *)
Ltac inv_binds H :=
  repeat match type of H with
         | bind ?r _ = Ok _ =>
             let x := fresh "v" in
             let E := fresh "E" in
             destruct r as [x|x] eqn:E; cbn [bind] in H; [|discriminate H]
         end.

Section Dispatched.

Context {codec : AddressCodec} {hashes : Hashes} {runtime : Runtime}
        {xfl : XflHelpers} {common : EvernodeCommon}.

Lemma hasPrefix_tagged (p : string) (t : byte) (rest : Buffer) :
  hasPrefix p (fromLatin "EVR" ++ [t] ++ rest)
  = Ok (compare (fromHex p) (fromLatin "EVR" ++ [t]) =? 0).
Proof. reflexivity. Qed.

(** Under the standard prefixes a key that begins with EVR and a kind tag
    is dispatched on that tag by both functions' prefix tests. *)
Lemma decodeStateKey_tagged (rest : Buffer) :
  standardPrefixes HookStateKeys ->
  let key t := fromLatin "EVR" ++ [t] ++ rest in
  decodeStateKey (key x02) = Ok (mkKeyInfo (hexKeyText (key x02)) TOKEN_ID) /\
  decodeStateKey (key x03) = Ok (mkKeyInfo (hexKeyText (key x03)) HOST_ADDR) /\
  decodeStateKey (key x04) = Ok (mkKeyInfo (hexKeyText (key x04)) TRANSFEREE_ADDR) /\
  decodeStateKey (key x05) = Ok (mkKeyInfo (hexKeyText (key x05)) CANDIDATE_OWNER) /\
  decodeStateKey (key x06) = Ok (mkKeyInfo (hexKeyText (key x06)) CANDIDATE_ID).
Proof.
  intros (P2 & P3 & P4 & P5 & P6) key. unfold key, decodeStateKey.
  rewrite !hasPrefix_tagged, P2, P3, P4, P5, P6.
  repeat split; reflexivity.
Qed.

(** Every key a generator produces is recognised by [decodeStateKey], with
    the generator's kind and the same key text. *)
Theorem generated_keys_are_recognised (mem : Buffer) (address text : string)
    (accountId : Buffer) :
  standardPrefixes HookStateKeys ->
  decodeAccountID address = Ok accountId ->
  (exists k, generateHostAddrStateKey mem address = Ok k /\
             decodeStateKey (fromHex k) = Ok (mkKeyInfo k HOST_ADDR)) /\
  (exists k, generateTransfereeAddrStateKey mem address = Ok k /\
             decodeStateKey (fromHex k) = Ok (mkKeyInfo k TRANSFEREE_ADDR)) /\
  (exists k, generateCandidateOwnerStateKey mem address = Ok k /\
             decodeStateKey (fromHex k) = Ok (mkKeyInfo k CANDIDATE_OWNER)) /\
  (exists k, generateTokenIdStateKey mem text = Ok k /\
             decodeStateKey (fromHex k) = Ok (mkKeyInfo k TOKEN_ID)) /\
  (exists k, generateCandidateIdStateKey mem text = Ok k /\
             decodeStateKey (fromHex k) = Ok (mkKeyInfo k CANDIDATE_ID)).
Proof.
  intros Hstd Hdec.
  destruct (address_generators_value mem address) as (Eh & Et & Eo).
  destruct (content_generators_value mem text) as (Ek & Ec).
  rewrite Eh, Et, Eo, Ek, Ec, Hdec. cbn [bind].
  repeat split; eexists; (split; [reflexivity|]); rewrite fromHex_hexKeyText.
  - apply (decodeStateKey_tagged (repeat x00 8 ++ accountId) Hstd).
  - apply (decodeStateKey_tagged (repeat x00 8 ++ accountId) Hstd).
  - apply (decodeStateKey_tagged (repeat x00 8 ++ accountId) Hstd).
  - apply (decodeStateKey_tagged (slice (fromHex text) 4 32) Hstd).
  - apply (decodeStateKey_tagged (slice (fromHex text) 4 32) Hstd).
Qed.

Lemma decodeHostAddressState_address (stateKeyBuf stateDataBuf : Buffer)
    (address : string) (d : HostAddress.t) :
  encodeAccountID (sliceFrom stateKeyBuf 12) = Ok address ->
  decodeHostAddressState stateKeyBuf stateDataBuf = Ok d ->
  HostAddress.address d = address.
Proof.
  intros Henc H. unfold decodeHostAddressState in H. rewrite Henc in H. cbn [bind] in H.
  inv_binds H.
  destruct (HOST_REG_TIMESTAMP_OFFSET <? length stateDataBuf)%nat.
  - inv_binds H. apply Ok_inj in H. now subst d.
  - apply Ok_inj in H. now subst d.
Qed.

(** Round trip of a host entry: the key generated for an address, decoded
    together with a data buffer of at least 125 bytes, gives a host record
    whose key text is the generated key and whose address is the address
    the key was generated for (for an address the codec maps to an account
    id and back). *)
Theorem host_key_round_trip (mem mem' : Buffer) (address : string)
    (accountId stateData : Buffer) :
  fromHex (PREFIX_HOST_ADDR HookStateKeys) = fromLatin "EVR" ++ [x03] ->
  decodeAccountID address = Ok accountId ->
  encodeAccountID accountId = Ok address ->
  (125 <= length stateData)%nat ->
  exists (k : string) (d : HostAddress.t),
    generateHostAddrStateKey mem address = Ok k /\
    decodeStateData mem' (fromHex k) stateData = Ok (mkState HOST_ADDR k (HostAddrFields d)) /\
    HostAddress.address d = address.
Proof.
  intros Hp Hdec Henc Hlen.
  destruct (address_generators_value mem address) as (Eh & _).
  rewrite Eh, Hdec. cbn [bind].
  set (key := addressKey STATE_KEY_TYPES.HOST_ADDR accountId).
  assert (Hslice : sliceFrom key 12 = accountId) by reflexivity.
  assert (Henc' : encodeAccountID (sliceFrom key 12) = Ok address)
    by (rewrite Hslice; exact Henc).
  destruct (decodeHostAddressState_long key stateData address Henc' Hlen) as (d & Hd & _).
  exists (hexKeyText key), d. split; [reflexivity|].
  rewrite fromHex_hexKeyText. split.
  - unfold decodeStateData.
    change key with (fromLatin "EVR" ++ [x03] ++ (repeat x00 8 ++ accountId)) at 1.
    rewrite hasPrefix_tagged, Hp. cbn [compare u8 Z.ltb Z.eqb bind].
    change (fromLatin "EVR" ++ [x03] ++ (repeat x00 8 ++ accountId)) with key.
    replace (compare (fromLatin "EVR" ++ [x03]) (fromLatin "EVR" ++ [x03]) =? 0) with true
      by (symmetry; reflexivity).
    rewrite Hd. reflexivity.
  - exact (decodeHostAddressState_address _ _ _ _ Henc' Hd).
Qed.

(** *** The token-id and candidate-owner entries *)

(** From [length l = n] for a literal [n], [l] as an explicit list. *)
Ltac explode l H :=
  repeat (destruct l as [|? l]; cbn [length] in H;
          [try discriminate H | first [discriminate H | apply Nat.succ_inj in H]]).

Ltac token_offsets :=
  cbv [HOST_ADDRESS_OFFSET HOST_CPU_MODEL_NAME_OFFSET HOST_CPU_COUNT_OFFSET
       HOST_CPU_SPEED_OFFSET HOST_CPU_MICROSEC_OFFSET HOST_RAM_MB_OFFSET
       HOST_DISK_MB_OFFSET HOST_EMAIL_ADDRESS_OFFSET HOST_EMAIL_ADDRESS_LEN
       PREV_HOST_ADDRESS_OFFSET TRANSFER_LEDGER_IDX_OFFSET TRANSFERRED_NFT_ID_OFFSET
       CANDIDATE_OWNER_ADDRESS_OFFSET CANDIDATE_IDX_OFFSET CANDIDATE_SHORT_NAME_OFFSET
       CANDIDATE_CREATED_TIMESTAMP_OFFSET CANDIDATE_PROPOSAL_FEE_OFFSET
       CANDIDATE_POSITIVE_VOTE_COUNT_OFFSET CANDIDATE_LAST_VOTE_TIMESTAMP_OFFSET
       CANDIDATE_STATUS_OFFSET CANDIDATE_STATUS_CHANGE_TIMESTAMP_OFFSET
       CANDIDATE_FOUNDATION_VOTE_STATUS_OFFSET
       readUInt8 readUInt16BE readUInt32BE readBigUInt64BE readBigInt64BE] in *.

Lemma decodeTokenIdState_long (stateDataBuf : Buffer) (address : string) :
  encodeAccountID (slice stateDataBuf 0 20) = Ok address ->
  (76 <= length stateDataBuf)%nat ->
  exists d : TokenId.t,
    decodeTokenIdState stateDataBuf = Ok d /\
    TokenId.address d = address /\
    TokenId.email d = removeNul (utf8 (slice stateDataBuf 76 116)).
Proof.
  intros Henc Hlen. unfold decodeTokenIdState. token_offsets.
  rewrite Henc. cbn [bind]. rewrite !readUIntBE_ok by lia. cbn [bind].
  eexists. repeat split; reflexivity.
Qed.

Lemma decodeTokenIdState_short (stateDataBuf : Buffer) (address : string) :
  encodeAccountID (slice stateDataBuf 0 20) = Ok address ->
  (length stateDataBuf < 76)%nat ->
  decodeTokenIdState stateDataBuf = Throw RangeError.
Proof.
  intros Henc Hlen. unfold decodeTokenIdState. token_offsets.
  rewrite Henc. cbn [bind]. unfold readUIntBE.
  repeat match goal with
         | |- context [(?a <=? length stateDataBuf)%nat] =>
             let E := fresh "E" in
             destruct (a <=? length stateDataBuf)%nat eqn:E; cbn [bind];
             [apply Nat.leb_le in E | reflexivity]
         end.
  lia.
Qed.

(** The address key stored with a token-id entry is the host-address key
    of the entry's address: for a key with the token-id tag and a data
    buffer of at least 76 bytes whose first 20 bytes the codec maps to an
    address and back, [decodeStateData] returns a token-id record whose
    addressKey is what [generateHostAddrStateKey] gives for its address. *)
Theorem token_entry_addressKey (mem mem' rest stateData : Buffer) (address : string) :
  standardPrefixes HookStateKeys ->
  (76 <= length stateData)%nat ->
  encodeAccountID (slice stateData 0 20) = Ok address ->
  decodeAccountID address = Ok (slice stateData 0 20) ->
  let stateKey := fromLatin "EVR" ++ [x02] ++ rest in
  exists (addressKeyText : string) (d : TokenId.t),
    decodeStateData mem stateKey stateData
    = Ok (mkState TOKEN_ID (hexKeyText stateKey) (TokenIdFields addressKeyText d)) /\
    TokenId.address d = address /\
    generateHostAddrStateKey mem' address = Ok addressKeyText.
Proof.
  intros (P2 & P3 & _) Hlen Henc Hdec stateKey.
  destruct (decodeTokenIdState_long stateData address Henc Hlen) as (d & Hd & Haddr & _).
  destruct (address_generators_value mem' address) as (Eh & _).
  rewrite Eh, Hdec. cbn [bind].
  exists (hexKeyText (addressKey STATE_KEY_TYPES.HOST_ADDR (slice stateData 0 20))), d.
  split; [|split; [exact Haddr | reflexivity]].
  unfold decodeStateData, stateKey.
  rewrite !hasPrefix_tagged, P2, P3. cbn [bind].
  replace (compare (fromLatin "EVR" ++ [x03]) (fromLatin "EVR" ++ [x02]) =? 0) with false
    by reflexivity.
  replace (compare (fromLatin "EVR" ++ [x02]) (fromLatin "EVR" ++ [x02]) =? 0) with true
    by reflexivity.
  rewrite Hd. token_offsets.
  assert (L : length (slice stateData 0 20) = 20%nat)
    by (apply UtilHelpersProps.length_slice; lia).
  unfold copy at 2.
  destruct (length stateData <? 0)%nat eqn:E0; [apply Nat.ltb_lt in E0; lia|].
  remember (slice stateData 0 20) as acc eqn:Eacc.
  explode acc L. reflexivity.
Qed.

(** The id key stored with a candidate-owner entry is the candidate-id key
    of the entry's unique id, the unique id has the new-hook type, and
    [decodeStateKey] recognises the id key as a candidate id. *)
Theorem candidate_owner_entry_idKey (mem mem' rest stateData : Buffer) (owner : string) :
  standardPrefixes HookStateKeys ->
  0 <= NewHook EvernodeConstants <= 255 ->
  length (sha512Half stateData) = 32%nat ->
  let stateKey := fromLatin "EVR" ++ [x05] ++ rest in
  encodeAccountID (sliceFrom stateKey 12) = Ok owner ->
  exists (idKey : string) (d : CandidateOwner.t),
    decodeStateData mem stateKey stateData
    = Ok (mkState CANDIDATE_OWNER (hexKeyText stateKey) (CandidateOwnerFields idKey d)) /\
    CandidateOwner.ownerAddress d = owner /\
    generateCandidateIdStateKey mem' (CandidateOwner.uniqueId d) = Ok idKey /\
    getCandidateType (CandidateOwner.uniqueId d) = Ok (NewHook EvernodeConstants) /\
    decodeStateKey (fromHex idKey) = Ok (mkKeyInfo idKey CANDIDATE_ID).
Proof.
  intros Hstd Htype Hsha stateKey Henc.
  pose proof Hstd as (P2 & P3 & P4 & P5 & P6).
  set (uid := [x00; x00; x00; x00; byte_of_Z (NewHook EvernodeConstants)]
              ++ slice (sha512Half stateData) 5 32).
  assert (Huid : getNewHookCandidateId stateData = Ok (hexKeyText uid)).
  { unfold getNewHookCandidateId, writeUInt8, uid.
    replace ((0 <=? NewHook EvernodeConstants) && (NewHook EvernodeConstants <=? 255))
      with true by (symmetry; apply andb_true_iff; lia).
    cbn [alloc repeat length Nat.leb Nat.add andb bind].
    unfold copy. rewrite Hsha. cbn [Nat.ltb Nat.leb].
    remember (sha512Half stateData) as dg eqn:Edg.
    explode dg Hsha. reflexivity. }
  set (idKeyBytes := contentKey STATE_KEY_TYPES.CANDIDATE_ID uid).
  exists (hexKeyText idKeyBytes).
  exists (CandidateOwner.mk owner (hexKeyText uid)
            (toUpperCase (toHex (slice stateData 0 32)))
            (toUpperCase (toHex (slice stateData 32 64)))
            (toUpperCase (toHex (slice stateData 64 (64 + 32))))).
  split; [|split; [|split; [|split]]].
  - unfold decodeStateData, stateKey.
    rewrite !hasPrefix_tagged, P2, P3, P4, P5. cbn [bind].
    replace (compare (fromLatin "EVR" ++ [x03]) (fromLatin "EVR" ++ [x05]) =? 0) with false
      by reflexivity.
    replace (compare (fromLatin "EVR" ++ [x02]) (fromLatin "EVR" ++ [x05]) =? 0) with false
      by reflexivity.
    replace (compare (fromLatin "EVR" ++ [x04]) (fromLatin "EVR" ++ [x05]) =? 0) with false
      by reflexivity.
    replace (compare (fromLatin "EVR" ++ [x05]) (fromLatin "EVR" ++ [x05]) =? 0) with true
      by reflexivity.
    unfold decodeCandidateOwnerState. fold stateKey. rewrite Henc. cbn [bind].
    rewrite Huid. cbn [bind CandidateOwner.uniqueId].
    rewrite fromHex_hexKeyText, P6.
    unfold idKeyBytes, uid, copy.
    assert (L : length (slice (sha512Half stateData) 5 32) = 27%nat)
      by (rewrite UtilHelpersProps.length_slice; lia).
    remember (slice (sha512Half stateData) 5 32) as tail eqn:Etail.
    explode tail L. reflexivity.
  - reflexivity.
  - cbn [CandidateOwner.uniqueId].
    destruct (content_generators_value mem' (hexKeyText uid)) as [_ Ec].
    rewrite Ec, fromHex_hexKeyText. reflexivity.
  - cbn [CandidateOwner.uniqueId]. unfold getCandidateType.
    rewrite fromHex_hexKeyText. unfold uid, readUInt8, readUIntBE.
    cbn [app length Nat.add Nat.leb slice skipn firstn Nat.sub be].
    rewrite u8_byte_of_Z by lia. reflexivity.
  - rewrite fromHex_hexKeyText.
    apply (decodeStateKey_tagged (slice uid 4 32) Hstd).
Qed.

(** *** The two dispatch functions side by side *)

Lemma NoDup_apart {A : Type} (l : list A) (i j : nat) (a b : A) :
  NoDup l -> nth_error l i = Some a -> nth_error l j = Some b -> i <> j -> a <> b.
Proof.
  intros Hnd Hi Hj Hij E. subst b.
  apply Hij. apply (proj1 (NoDup_nth_error l) Hnd).
  - apply nth_error_Some. rewrite Hi. discriminate.
  - now rewrite Hi, Hj.
Qed.

Lemma compare_hit (a b : Buffer) : (compare a b =? 0) = true -> a = b.
Proof. intros H. apply Z.eqb_eq in H. now apply compare_eq. Qed.

(** Decide one comparison of the dispatch and close the branch it
    selects. *)
Ltac agree_branch :=
  let H := fresh "H" in
  intros H; inv_binds H; apply Ok_inj in H; rewrite <- H;
  cbn [state_key state_type orb];
  try (exfalso; congruence);
  repeat match goal with
         | D : fromHex ?r <> fromHex ?x, E : fromHex ?x = ?k
           |- context [compare (fromHex ?r) ?k =? 0] =>
             rewrite (compare_neq (fromHex r) k) by congruence
         end;
  rewrite ?orb_true_r; cbn [orb];
  reflexivity.

(** Whenever [decodeStateData] returns an entry, [decodeStateKey] returns
    the same key text and the same type for that key, for every key but
    HOST_HEARTBEAT_FREQ (in a table without duplicate keys). *)
Theorem dispatchers_agree (mem stateKey stateData : Buffer) (s : State) :
  distinctKeys HookStateKeys ->
  stateKey <> fromHex (HOST_HEARTBEAT_FREQ HookStateKeys) ->
  decodeStateData mem stateKey stateData = Ok s ->
  decodeStateKey stateKey = Ok (mkKeyInfo (state_key s) (state_type s)).
Proof.
  intros [Hnd Hcand] Hhb.
  assert (Hhb' : truthy (compare (fromHex (HOST_HEARTBEAT_FREQ HookStateKeys)) stateKey)
                 = true) by (apply compare_neq_truthy; congruence).
  set (K := HookStateKeys) in *.
  assert (D : forall j x, nth_error (wellKnownKeys K) j = Some x -> 4%nat <> j ->
                          fromHex (REWARD_INFO K) <> fromHex x).
  { intros j x Hj Hne.
    apply (NoDup_apart (map fromHex (wellKnownKeys K)) 4 j); try assumption.
    - reflexivity.
    - rewrite nth_error_map, Hj. reflexivity. }
  pose proof (D 5%nat _ eq_refl ltac:(lia)) as D5.
  pose proof (D 6%nat _ eq_refl ltac:(lia)) as D6.
  pose proof (D 7%nat _ eq_refl ltac:(lia)) as D7.
  pose proof (D 9%nat _ eq_refl ltac:(lia)) as D9.
  pose proof (D 10%nat _ eq_refl ltac:(lia)) as D10.
  pose proof (D 11%nat _ eq_refl ltac:(lia)) as D11.
  pose proof (D 12%nat _ eq_refl ltac:(lia)) as D12.
  pose proof (D 16%nat _ eq_refl ltac:(lia)) as D16.
  pose proof (D 17%nat _ eq_refl ltac:(lia)) as D17.
  clear D Hnd.
  unfold decodeStateData, decodeStateKey, hasPrefix, compareRange, isKey.
  fold K. rewrite Hhb'.
  destruct (length stateKey <? 4)%nat;
    [cbn [bind]; intros H; discriminate H | cbn [bind]].
  set (w := slice stateKey 0 4).
  destruct (compare (fromHex (PREFIX_HOST_ADDR K)) w =? 0) eqn:E1; [agree_branch|].
  destruct (compare (fromHex (PREFIX_HOST_TOKENID K)) w =? 0) eqn:E2; [agree_branch|].
  destruct (compare (fromHex (PREFIX_TRANSFEREE_ADDR K)) w =? 0) eqn:E3; [agree_branch|].
  destruct (compare (fromHex (PREFIX_CANDIDATE_OWNER K)) w =? 0) eqn:E4.
  { destruct (compare (fromHex (PREFIX_CANDIDATE_ID K)) w =? 0) eqn:E5; [|agree_branch].
    apply compare_hit in E4, E5. congruence. }
  destruct (compare (fromHex (PREFIX_CANDIDATE_ID K)) w =? 0) eqn:E5; [agree_branch|].
  repeat match goal with
         | |- context [compare (fromHex (?f K)) stateKey =? 0] =>
             let E := fresh "E" in
             destruct (compare (fromHex (f K)) stateKey =? 0) eqn:E;
             [apply compare_hit in E; cbn [orb]; agree_branch | cbn [orb]]
         end.
  intros H; discriminate H.
Qed.

(** *** Unsafe allocations never show *)

Lemma decodeTransfereeAddrState_allocation (mem mem' stateKeyBuf stateDataBuf : Buffer) :
  decodeTransfereeAddrState mem stateKeyBuf stateDataBuf
  = decodeTransfereeAddrState mem' stateKeyBuf stateDataBuf.
Proof.
  unfold decodeTransfereeAddrState.
  destruct (encodeAccountID (slice stateDataBuf PREV_HOST_ADDRESS_OFFSET
                               TRANSFER_LEDGER_IDX_OFFSET)) as [prev|e]; [|reflexivity].
  cbn [bind].
  destruct (encodeAccountID (sliceFrom stateKeyBuf 12)) as [future|e]; [|reflexivity].
  cbn [bind].
  destruct (address_generators_value mem prev) as (-> & _).
  destruct (address_generators_value mem' prev) as (-> & _).
  reflexivity.
Qed.

(** No result depends on what an unsafe allocation held: the decoded entry
    and the five generated keys are functions of the key, the data and the
    address alone. *)
Theorem results_ignore_unsafe_allocations (mem mem' stateKey stateData : Buffer)
    (text : string) :
  decodeStateData mem stateKey stateData = decodeStateData mem' stateKey stateData /\
  generateHostAddrStateKey mem text = generateHostAddrStateKey mem' text /\
  generateTransfereeAddrStateKey mem text = generateTransfereeAddrStateKey mem' text /\
  generateCandidateOwnerStateKey mem text = generateCandidateOwnerStateKey mem' text /\
  generateTokenIdStateKey mem text = generateTokenIdStateKey mem' text /\
  generateCandidateIdStateKey mem text = generateCandidateIdStateKey mem' text.
Proof.
  destruct (address_generators_value mem text) as (-> & -> & ->).
  destruct (address_generators_value mem' text) as (-> & -> & ->).
  destruct (content_generators_value mem text) as (-> & ->).
  destruct (content_generators_value mem' text) as (-> & ->).
  repeat split.
  unfold decodeStateData.
  now rewrite (decodeTransfereeAddrState_allocation mem mem').
Qed.

(** *** Candidate identifiers *)

Lemma length_hexKeyText (b : Buffer) : String.length (hexKeyText b) = (2 * length b)%nat.
Proof. unfold hexKeyText. now rewrite length_toUpperCase, length_toHex. Qed.

Lemma writeUInt8_in_range (b : Buffer) (v : Z) (off : nat) :
  0 <= v <= 255 -> (off + 1 <= length b)%nat ->
  writeUInt8 b v off = Ok (write b off [byte_of_Z v]).
Proof.
  intros Hv Hoff. unfold writeUInt8.
  replace ((0 <=? v) && (v <=? 255)) with true by (symmetry; apply andb_true_iff; lia).
  destruct (off + 1 <=? length b)%nat eqn:E; [reflexivity|].
  apply Nat.leb_gt in E. lia.
Qed.

(** The three candidate-id constructors build a 32-byte id (64 hex
    characters) whose byte 4 is the candidate type, which
    [getCandidateType] reads back; the first four bytes are zero; the
    content follows: bytes 5 to 31 of the digest, or of the namespace, or
    seven zero bytes and the account id. *)
Theorem candidate_ids_carry_their_type (hashesBuf : Buffer) (hostAddress : string)
    (accountId : Buffer) :
  let C := EvernodeConstants in
  0 <= NewHook C <= 255 ->
  0 <= PilotedMode C <= 255 ->
  0 <= DudHost C <= 255 ->
  length (sha512Half hashesBuf) = 32%nat ->
  length (fromHex (HOOK_NAMESPACE C)) = 32%nat ->
  decodeAccountID hostAddress = Ok accountId ->
  length accountId = 20%nat ->
  (exists id : Buffer,
      getNewHookCandidateId hashesBuf = Ok (hexKeyText id) /\
      getCandidateType (hexKeyText id) = Ok (NewHook C) /\
      String.length (hexKeyText id) = 64%nat /\
      id = repeat x00 4 ++ [byte_of_Z (NewHook C)] ++ slice (sha512Half hashesBuf) 5 32) /\
  (exists id : Buffer,
      getPilotedModeCandidateId = Ok (hexKeyText id) /\
      getCandidateType (hexKeyText id) = Ok (PilotedMode C) /\
      String.length (hexKeyText id) = 64%nat /\
      id = repeat x00 4 ++ [byte_of_Z (PilotedMode C)]
           ++ slice (fromHex (HOOK_NAMESPACE C)) 5 32) /\
  (exists id : Buffer,
      getDudHostCandidateId hostAddress = Ok (hexKeyText id) /\
      getCandidateType (hexKeyText id) = Ok (DudHost C) /\
      String.length (hexKeyText id) = 64%nat /\
      id = repeat x00 4 ++ [byte_of_Z (DudHost C)] ++ repeat x00 7 ++ accountId).
Proof.
  intros C Hn Hp Hd Hsha Hns Hdec Hacc.
  assert (T : forall (t : Z) (tail : Buffer),
            0 <= t <= 255 -> length tail = 27%nat ->
            getCandidateType (hexKeyText (repeat x00 4 ++ [byte_of_Z t] ++ tail)) = Ok t /\
            String.length (hexKeyText (repeat x00 4 ++ [byte_of_Z t] ++ tail)) = 64%nat).
  { intros t tail Ht Ltail. split.
    - unfold getCandidateType. rewrite fromHex_hexKeyText.
      unfold readUInt8. rewrite readUIntBE_ok
        by (rewrite !length_app, Ltail; cbn; lia).
      cbn [repeat app slice skipn firstn Nat.sub Nat.add be].
      rewrite u8_byte_of_Z by lia. reflexivity.
    - rewrite length_hexKeyText, !length_app, Ltail. reflexivity. }
  split; [|split].
  - exists (repeat x00 4 ++ [byte_of_Z (NewHook C)] ++ slice (sha512Half hashesBuf) 5 32).
    assert (L : length (slice (sha512Half hashesBuf) 5 32) = 27%nat)
      by (rewrite UtilHelpersProps.length_slice; lia).
    destruct (T (NewHook C) _ Hn L) as [T1 T2].
    split; [|repeat split; assumption].
    unfold getNewHookCandidateId. fold C.
    rewrite writeUInt8_in_range by (cbn; lia). cbn [bind].
    unfold copy. rewrite Hsha. cbn [Nat.ltb Nat.leb bind].
    remember (slice (sha512Half hashesBuf) 5 32) as tail eqn:Et.
    explode tail L. reflexivity.
  - exists (repeat x00 4 ++ [byte_of_Z (PilotedMode C)]
            ++ slice (fromHex (HOOK_NAMESPACE C)) 5 32).
    assert (L : length (slice (fromHex (HOOK_NAMESPACE C)) 5 32) = 27%nat)
      by (rewrite UtilHelpersProps.length_slice; lia).
    destruct (T (PilotedMode C) _ Hp L) as [T1 T2].
    split; [|repeat split; assumption].
    unfold getPilotedModeCandidateId. fold C.
    rewrite writeUInt8_in_range by (cbn; lia). cbn [bind].
    unfold copy. rewrite Hns. cbn [Nat.ltb Nat.leb bind].
    remember (slice (fromHex (HOOK_NAMESPACE C)) 5 32) as tail eqn:Et.
    explode tail L. reflexivity.
  - exists (repeat x00 4 ++ [byte_of_Z (DudHost C)] ++ repeat x00 7 ++ accountId).
    destruct (T (DudHost C) (repeat x00 7 ++ accountId) Hd) as [T1 T2].
    { rewrite length_app, Hacc. reflexivity. }
    split; [|repeat split; assumption].
    unfold getDudHostCandidateId. fold C.
    rewrite writeUInt8_in_range by (cbn; lia). cbn [bind].
    rewrite Hdec. cbn [bind]. unfold copy. rewrite Hacc. cbn [Nat.ltb Nat.leb bind].
    explode accountId Hacc. reflexivity.
Qed.

(** *** Lengths the entity decoders accept *)

(** The moment-base entry has two optional trailing fields.  With the 8
    bytes of the base index alone both take their defaults; with 12 bytes
    the transition moment is read and the type defaults to ledger; with 13
    or more the type byte is read.  A buffer of 9 to 11 bytes passes the
    length test of the transition moment and fails in its read; fewer than
    8 bytes fail in the first read. *)
Theorem moment_base_info_lengths (mem stateKey stateData : Buffer) :
  let K := HookStateKeys in
  (4 <= length stateKey)%nat ->
  Forall (fun p => firstn 4 stateKey <> fromHex p) (prefixes K) ->
  stateKey <> fromHex (HOST_COUNT K) ->
  stateKey = fromHex (MOMENT_BASE_INFO K) ->
  let entry moment type :=
    Ok (mkState SIGLETON (hexKeyText stateKey)
          (ValueMomentBaseInfo (NumberOfBigInt (be (slice stateData 0 8) 0)) moment type)) in
  ((length stateData < 8)%nat ->
   decodeStateData mem stateKey stateData = Throw RangeError) /\
  (length stateData = 8%nat ->
   decodeStateData mem stateKey stateData = entry 0 "ledger") /\
  ((8 < length stateData < 12)%nat ->
   decodeStateData mem stateKey stateData = Throw RangeError) /\
  (length stateData = 12%nat ->
   decodeStateData mem stateKey stateData = entry (be (slice stateData 8 12) 0) "ledger") /\
  ((12 < length stateData)%nat ->
   decodeStateData mem stateKey stateData
   = entry (be (slice stateData 8 12) 0)
       (if be (slice stateData 12 13) 0 =? 0 then "ledger" else "timestamp")).
Proof.
  intros K Hlen Hp Hhc.
  unfold prefixes in Hp. split_table.
  intros Hkey entry.
  assert (Hhit : (compare (fromHex (MOMENT_BASE_INFO K)) stateKey =? 0) = true)
    by (rewrite <- Hkey; rewrite compare_refl; reflexivity).
  assert (R : decodeStateData mem stateKey stateData
              = (baseIdx <- readBigUInt64BE stateData MOMENT_BASE_POINT_OFFSET ;;
                 baseTransitionMoment <-
                   (if (MOMENT_AT_TRANSITION_OFFSET <? length stateData)%nat
                    then readUInt32BE stateData MOMENT_AT_TRANSITION_OFFSET
                    else Ok 0) ;;
                 momentType <-
                   (if (length stateData <=? MOMENT_TYPE_OFFSET)%nat then Ok "ledger"
                    else (t <- readUInt8 stateData MOMENT_TYPE_OFFSET ;;
                          Ok (if t =? MOMENT_TYPES_LEDGER then "ledger" else "timestamp"))) ;;
                 Ok (mkState SIGLETON (hexKeyText stateKey)
                       (ValueMomentBaseInfo (NumberOfBigInt baseIdx) baseTransitionMoment
                          momentType)))).
  { unfold decodeStateData, hasPrefix, isKey. fold K.
    repeat rewrite compareRange_prefix by assumption. cbn [bind].
    repeat (rewrite compare_neq by congruence; cbn [bind]).
    rewrite Hhit. reflexivity. }
  rewrite R. clear R.
  cbv [MOMENT_BASE_POINT_OFFSET MOMENT_AT_TRANSITION_OFFSET MOMENT_TYPE_OFFSET
       MOMENT_TYPES_LEDGER readBigUInt64BE readUInt32BE readUInt8].
  repeat split; intros L.
  - rewrite readUIntBE_short by lia. reflexivity.
  - rewrite readUIntBE_ok by lia. cbn [bind].
    destruct (8 <? length stateData)%nat eqn:E1; [apply Nat.ltb_lt in E1; lia|].
    destruct (length stateData <=? 12)%nat eqn:E2; [|apply Nat.leb_gt in E2; lia].
    reflexivity.
  - rewrite readUIntBE_ok by lia. cbn [bind].
    destruct (8 <? length stateData)%nat eqn:E1; [|apply Nat.ltb_ge in E1; lia].
    rewrite readUIntBE_short by lia. reflexivity.
  - rewrite readUIntBE_ok by lia. cbn [bind].
    destruct (8 <? length stateData)%nat eqn:E1; [|apply Nat.ltb_ge in E1; lia].
    rewrite readUIntBE_ok by lia. cbn [bind].
    destruct (length stateData <=? 12)%nat eqn:E2; [|apply Nat.leb_gt in E2; lia].
    reflexivity.
  - rewrite readUIntBE_ok by lia. cbn [bind].
    destruct (8 <? length stateData)%nat eqn:E1; [|apply Nat.ltb_ge in E1; lia].
    rewrite readUIntBE_ok by lia. cbn [bind].
    destruct (length stateData <=? 12)%nat eqn:E2; [apply Nat.leb_le in E2; lia|].
    rewrite readUIntBE_ok by lia. reflexivity.
Qed.

(** The token-id decoder needs 76 bytes of data and no more: once the
    codec has accepted the first 20 bytes as an address, a shorter buffer
    is refused with the range error, and from 76 bytes on a record is
    returned, the e-mail being whatever the buffer holds from offset 76 up
    to 116 (nothing at all at 76 bytes). *)
Theorem token_entry_needs_76_bytes (stateDataBuf : Buffer) (address : string) :
  encodeAccountID (slice stateDataBuf 0 20) = Ok address ->
  ((length stateDataBuf < 76)%nat -> decodeTokenIdState stateDataBuf = Throw RangeError) /\
  ((76 <= length stateDataBuf)%nat ->
   exists d : TokenId.t,
     decodeTokenIdState stateDataBuf = Ok d /\
     TokenId.address d = address /\
     TokenId.email d = removeNul (utf8 (slice stateDataBuf 76 116))) /\
  (length stateDataBuf = 76%nat ->
   exists d : TokenId.t,
     decodeTokenIdState stateDataBuf = Ok d /\ TokenId.email d = removeNul (utf8 [])).
Proof.
  intros Henc. split; [|split].
  - now apply decodeTokenIdState_short with (address := address).
  - now apply decodeTokenIdState_long.
  - intros L.
    destruct (decodeTokenIdState_long stateDataBuf address Henc) as (d & Hd & _ & He);
      [lia|].
    exists d. split; [exact Hd|]. rewrite He. unfold slice.
    rewrite skipn_all2 by lia. reflexivity.
Qed.

(** The transferee decoder needs 28 bytes of data: once the codec has
    accepted both addresses, a shorter buffer is refused with the range
    error; from 28 bytes on a record is returned whose previous-host key
    is the host-address key of the previous host and whose token id is the
    hex text of whatever the buffer holds from offset 28 up to 60. *)
Theorem transferee_entry_needs_28_bytes (mem stateKeyBuf stateDataBuf : Buffer)
    (prevHost futureOwner : string) (prevId : Buffer) :
  encodeAccountID (slice stateDataBuf 0 20) = Ok prevHost ->
  encodeAccountID (sliceFrom stateKeyBuf 12) = Ok futureOwner ->
  decodeAccountID prevHost = Ok prevId ->
  ((length stateDataBuf < 28)%nat ->
   decodeTransfereeAddrState mem stateKeyBuf stateDataBuf = Throw RangeError) /\
  ((28 <= length stateDataBuf)%nat ->
   decodeTransfereeAddrState mem stateKeyBuf stateDataBuf
   = Ok (TransfereeAddr.mk futureOwner
           (hexKeyText (addressKey STATE_KEY_TYPES.HOST_ADDR prevId))
           prevHost
           (NumberOfBigInt (be (slice stateDataBuf 20 28) 0))
           (hexKeyText (slice stateDataBuf 28 60)))).
Proof.
  intros Hprev Hfuture Hdec.
  unfold decodeTransfereeAddrState. token_offsets.
  rewrite Hprev, Hfuture. cbn [bind].
  destruct (address_generators_value mem prevHost) as (-> & _).
  rewrite Hdec. cbn [bind].
  split; intros L.
  - rewrite readUIntBE_short by lia. reflexivity.
  - rewrite readUIntBE_ok by lia. reflexivity.
Qed.

(** The candidate-id decoder reads the status byte first: fewer than 73
    bytes are refused with the range error before the address codec is
    asked.  With 82 bytes or more, an owner the codec accepts and a fee
    the scaled-decimal codec accepts, a record is returned; its status is
    one of the five status names and its foundation vote status is
    supported or rejected. *)
Theorem candidate_entry_lengths (stateDataBuf : Buffer) :
  ((length stateDataBuf < 73)%nat ->
   decodeCandidateIdState stateDataBuf = Throw RangeError) /\
  (forall (owner fee : string),
      (82 <= length stateDataBuf)%nat ->
      encodeAccountID (slice stateDataBuf 0 20) = Ok owner ->
      XflHelpers_toString
        (let v := be (slice stateDataBuf 52 60) 0 in if v <? 2 ^ 63 then v else v - 2 ^ 64)
      = Ok fee ->
      exists d : CandidateId.t,
        decodeCandidateIdState stateDataBuf = Ok d /\
        CandidateId.ownerAddress d = owner /\
        CandidateId.proposalFee d = fee /\
        In (CandidateId.status d) ["supported"; "elected"; "vetoed"; "expired"; "rejected"] /\
        In (CandidateId.foundationVoteStatus d) ["supported"; "rejected"]).
Proof.
  split.
  - intros L. unfold decodeCandidateIdState. token_offsets.
    rewrite readUIntBE_short by lia. reflexivity.
  - intros owner fee L Henc Hfee.
    unfold decodeCandidateIdState. token_offsets.
    rewrite !readUIntBE_ok by lia. cbn [bind].
    rewrite Henc. cbn [bind Nat.add]. cbv zeta in Hfee. rewrite Hfee. cbn [bind].
    eexists. split; [reflexivity|].
    cbn [CandidateId.ownerAddress CandidateId.proposalFee CandidateId.status
         CandidateId.foundationVoteStatus].
    repeat split.
    + repeat match goal with
             | |- In (if ?c then _ else _) _ => destruct c
             end; cbn; tauto.
    + match goal with
      | |- In (if ?c then _ else _) _ => destruct c
      end; cbn; tauto.
Qed.

End Dispatched.

(** *** The sample table and sample entries *)

#[local] Existing Instance sampleCodec.
#[local] Existing Instance sampleHashes.
#[local] Existing Instance sampleRuntime.
#[local] Existing Instance sampleXfl.
#[local] Existing Instance sampleCommon.

Lemma sample_standardPrefixes : standardPrefixes sampleHookStateKeys.
Proof. repeat split; vm_compute; reflexivity. Qed.

Lemma sample_distinctKeys : distinctKeys sampleHookStateKeys.
Proof.
  split.
  - vm_compute.
    repeat (constructor;
            [ let H := fresh in
              intro H; cbn [In] in H;
              repeat (destruct H as [H|H]; [discriminate H|]); exact H | ]).
    constructor.
  - intro E. vm_compute in E. discriminate E.
Qed.

Lemma address_keys_separate_witness :
  let mem1 := [] in
  let mem2 := [xff] in
  let a1 := sampleAddress in
  let a2 := otherAddress in
  let acc1 := sampleAccountId in
  let acc2 := otherAccountId in
  (generateHostAddrStateKey mem1 a1 = generateHostAddrStateKey mem2 a2 <-> acc1 = acc2) /\
  (generateTransfereeAddrStateKey mem1 a1 = generateTransfereeAddrStateKey mem2 a2
   <-> acc1 = acc2) /\
  (generateCandidateOwnerStateKey mem1 a1 = generateCandidateOwnerStateKey mem2 a2
   <-> acc1 = acc2) /\
  generateHostAddrStateKey mem1 a1 <> generateTransfereeAddrStateKey mem2 a2 /\
  generateHostAddrStateKey mem1 a1 <> generateCandidateOwnerStateKey mem2 a2 /\
  generateTransfereeAddrStateKey mem1 a1 <> generateCandidateOwnerStateKey mem2 a2.
Proof.
  intros mem1 mem2 a1 a2 acc1 acc2.
  apply (address_keys_separate mem1 mem2 a1 a2 acc1 acc2); vm_compute; reflexivity.
Defined.

Lemma generated_keys_are_recognised_witness :
  let mem := [xff] in
  let address := sampleAddress in
  let text := sampleTokenId in
  (exists k, generateHostAddrStateKey mem address = Ok k /\
             decodeStateKey (fromHex k) = Ok (mkKeyInfo k HOST_ADDR)) /\
  (exists k, generateTransfereeAddrStateKey mem address = Ok k /\
             decodeStateKey (fromHex k) = Ok (mkKeyInfo k TRANSFEREE_ADDR)) /\
  (exists k, generateCandidateOwnerStateKey mem address = Ok k /\
             decodeStateKey (fromHex k) = Ok (mkKeyInfo k CANDIDATE_OWNER)) /\
  (exists k, generateTokenIdStateKey mem text = Ok k /\
             decodeStateKey (fromHex k) = Ok (mkKeyInfo k TOKEN_ID)) /\
  (exists k, generateCandidateIdStateKey mem text = Ok k /\
             decodeStateKey (fromHex k) = Ok (mkKeyInfo k CANDIDATE_ID)).
Proof.
  intros mem address text.
  apply (generated_keys_are_recognised mem address text sampleAccountId).
  - exact sample_standardPrefixes.
  - vm_compute. reflexivity.
Defined.

Lemma host_key_round_trip_witness :
  let mem := [xff] in
  let mem' := [] in
  let address := sampleAddress in
  let stateData := alloc 125 x00 in
  exists (k : string) (d : HostAddress.t),
    generateHostAddrStateKey mem address = Ok k /\
    decodeStateData mem' (fromHex k) stateData = Ok (mkState HOST_ADDR k (HostAddrFields d)) /\
    HostAddress.address d = address.
Proof.
  intros mem mem' address stateData.
  apply (host_key_round_trip mem mem' address sampleAccountId stateData).
  - vm_compute. reflexivity.
  - vm_compute. reflexivity.
  - vm_compute. reflexivity.
  - simpl. lia.
Defined.

Lemma token_entry_addressKey_witness :
  let mem := [] in
  let mem' := [xff] in
  let rest := alloc 28 x00 in
  let stateData := sampleEntryData 76 in
  let address := sampleAddress in
  let stateKey := fromLatin "EVR" ++ [x02] ++ rest in
  exists (addressKeyText : string) (d : TokenId.t),
    decodeStateData mem stateKey stateData
    = Ok (mkState TOKEN_ID (hexKeyText stateKey) (TokenIdFields addressKeyText d)) /\
    TokenId.address d = address /\
    generateHostAddrStateKey mem' address = Ok addressKeyText.
Proof.
  intros mem mem' rest stateData address.
  apply (token_entry_addressKey mem mem' rest stateData address).
  - exact sample_standardPrefixes.
  - simpl. lia.
  - vm_compute. reflexivity.
  - vm_compute. reflexivity.
Defined.

Lemma candidate_owner_entry_idKey_witness :
  let mem := [] in
  let mem' := [xff] in
  let rest := alloc 8 x00 ++ sampleAccountId in
  let stateData := alloc 96 x00 in
  let owner := sampleAddress in
  let stateKey := fromLatin "EVR" ++ [x05] ++ rest in
  exists (idKey : string) (d : CandidateOwner.t),
    decodeStateData mem stateKey stateData
    = Ok (mkState CANDIDATE_OWNER (hexKeyText stateKey) (CandidateOwnerFields idKey d)) /\
    CandidateOwner.ownerAddress d = owner /\
    generateCandidateIdStateKey mem' (CandidateOwner.uniqueId d) = Ok idKey /\
    getCandidateType (CandidateOwner.uniqueId d) = Ok (NewHook EvernodeConstants) /\
    decodeStateKey (fromHex idKey) = Ok (mkKeyInfo idKey CANDIDATE_ID).
Proof.
  intros mem mem' rest stateData owner.
  apply (candidate_owner_entry_idKey mem mem' rest stateData owner).
  - exact sample_standardPrefixes.
  - simpl. lia.
  - vm_compute. reflexivity.
  - vm_compute. reflexivity.
Defined.

(** The host count of five under the sample table. *)
Lemma dispatchers_agree_witness :
  let stateKey := fromHex (HOST_COUNT sampleHookStateKeys) in
  let s := mkState SIGLETON (HOST_COUNT sampleHookStateKeys) (ValueNumber 5) in
  decodeStateKey stateKey = Ok (mkKeyInfo (state_key s) (state_type s)).
Proof.
  intros stateKey s.
  apply (dispatchers_agree [] stateKey (fromHex "00000005") s).
  - exact sample_distinctKeys.
  - intro E. vm_compute in E. discriminate E.
  - vm_compute. reflexivity.
Defined.

Lemma candidate_ids_carry_their_type_witness :
  let hashesBuf := fromHex "A1A2A3" in
  let hostAddress := sampleAddress in
  let accountId := sampleAccountId in
  let C := EvernodeConstants in
  (exists id : Buffer,
      getNewHookCandidateId hashesBuf = Ok (hexKeyText id) /\
      getCandidateType (hexKeyText id) = Ok (NewHook C) /\
      String.length (hexKeyText id) = 64%nat /\
      id = repeat x00 4 ++ [byte_of_Z (NewHook C)] ++ slice (sha512Half hashesBuf) 5 32) /\
  (exists id : Buffer,
      getPilotedModeCandidateId = Ok (hexKeyText id) /\
      getCandidateType (hexKeyText id) = Ok (PilotedMode C) /\
      String.length (hexKeyText id) = 64%nat /\
      id = repeat x00 4 ++ [byte_of_Z (PilotedMode C)]
           ++ slice (fromHex (HOOK_NAMESPACE C)) 5 32) /\
  (exists id : Buffer,
      getDudHostCandidateId hostAddress = Ok (hexKeyText id) /\
      getCandidateType (hexKeyText id) = Ok (DudHost C) /\
      String.length (hexKeyText id) = 64%nat /\
      id = repeat x00 4 ++ [byte_of_Z (DudHost C)] ++ repeat x00 7 ++ accountId).
Proof.
  intros hashesBuf hostAddress accountId.
  apply (candidate_ids_carry_their_type hashesBuf hostAddress accountId);
    first [ simpl; lia | vm_compute; reflexivity ].
Defined.

(** The eight bytes of the base index alone: both defaults. *)
Lemma moment_base_info_lengths_witness :
  let mem := [] in
  let stateKey := fromHex (MOMENT_BASE_INFO sampleHookStateKeys) in
  let stateData := fromHex "0000000000000007" in
  let entry moment type :=
    Ok (mkState SIGLETON (hexKeyText stateKey)
          (ValueMomentBaseInfo (NumberOfBigInt (be (slice stateData 0 8) 0)) moment type)) in
  ((length stateData < 8)%nat ->
   decodeStateData mem stateKey stateData = Throw RangeError) /\
  (length stateData = 8%nat ->
   decodeStateData mem stateKey stateData = entry 0 "ledger") /\
  ((8 < length stateData < 12)%nat ->
   decodeStateData mem stateKey stateData = Throw RangeError) /\
  (length stateData = 12%nat ->
   decodeStateData mem stateKey stateData = entry (be (slice stateData 8 12) 0) "ledger") /\
  ((12 < length stateData)%nat ->
   decodeStateData mem stateKey stateData
   = entry (be (slice stateData 8 12) 0)
       (if be (slice stateData 12 13) 0 =? 0 then "ledger" else "timestamp")).
Proof.
  intros mem stateKey stateData.
  apply (moment_base_info_lengths mem stateKey stateData).
  - simpl. lia.
  - repeat constructor; intro E; vm_compute in E; discriminate E.
  - intro E. vm_compute in E. discriminate E.
  - reflexivity.
Defined.

Lemma token_entry_needs_76_bytes_witness :
  let stateDataBuf := sampleEntryData 76 in
  let address := sampleAddress in
  ((length stateDataBuf < 76)%nat -> decodeTokenIdState stateDataBuf = Throw RangeError) /\
  ((76 <= length stateDataBuf)%nat ->
   exists d : TokenId.t,
     decodeTokenIdState stateDataBuf = Ok d /\
     TokenId.address d = address /\
     TokenId.email d = removeNul (utf8 (slice stateDataBuf 76 116))) /\
  (length stateDataBuf = 76%nat ->
   exists d : TokenId.t,
     decodeTokenIdState stateDataBuf = Ok d /\ TokenId.email d = removeNul (utf8 [])).
Proof.
  intros stateDataBuf address.
  apply (token_entry_needs_76_bytes stateDataBuf address).
  vm_compute. reflexivity.
Defined.

Lemma transferee_entry_needs_28_bytes_witness :
  let mem := [xff] in
  let stateKeyBuf := fromLatin "EVR" ++ [x04] ++ alloc 8 x00 ++ otherAccountId in
  let stateDataBuf := sampleEntryData 60 in
  let prevHost := sampleAddress in
  let futureOwner := otherAddress in
  let prevId := sampleAccountId in
  ((length stateDataBuf < 28)%nat ->
   decodeTransfereeAddrState mem stateKeyBuf stateDataBuf = Throw RangeError) /\
  ((28 <= length stateDataBuf)%nat ->
   decodeTransfereeAddrState mem stateKeyBuf stateDataBuf
   = Ok (TransfereeAddr.mk futureOwner
           (hexKeyText (addressKey STATE_KEY_TYPES.HOST_ADDR prevId))
           prevHost
           (NumberOfBigInt (be (slice stateDataBuf 20 28) 0))
           (hexKeyText (slice stateDataBuf 28 60)))).
Proof.
  intros mem stateKeyBuf stateDataBuf prevHost futureOwner prevId.
  apply (transferee_entry_needs_28_bytes mem stateKeyBuf stateDataBuf prevHost futureOwner
           prevId); vm_compute; reflexivity.
Defined.

(** A key of three bytes. *)
Lemma short_key_range_error_witness :
  let stateKey := fromLatin "EVR" in
  decodeStateData [] stateKey [] = Throw RangeError /\
  decodeStateKey stateKey = Throw RangeError.
Proof.
  intros stateKey.
  apply (short_key_range_error [] stateKey []).
  simpl. lia.
Defined.

(** *** The state list *)

Lemma find_key (states : list Entry) (key : string) :
  (Forall (fun s => entry_key s <> key) states /\
   find (fun s => VBool (String.eqb key (entry_key s))) states = None) \/
  (exists before s after,
      states = before ++ s :: after /\
      Forall (fun e => entry_key e <> key) before /\
      entry_key s = key /\
      find (fun s => VBool (String.eqb key (entry_key s))) states = Some s).
Proof.
  induction states as [|e states IH]; [left; split; [constructor | reflexivity]|].
  cbn [find ToBoolean]. destruct (String.eqb key (entry_key e)) eqn:E.
  - apply String.eqb_eq in E. right. exists [], e, states.
    repeat split; [constructor | congruence].
  - apply String.eqb_neq in E.
    destruct IH as [[Hall Hnone]|(before & s & after & -> & Hb & Hk & Hfind)].
    + left. split; [constructor; [congruence | exact Hall] | exact Hnone].
    + right. exists (e :: before), s, after.
      repeat split; [constructor; [congruence | exact Hb] | exact Hk | exact Hfind].
Qed.

Lemma find_key_first (before after : list Entry) (s : Entry) (key : string) :
  Forall (fun e => entry_key e <> key) before ->
  entry_key s = key ->
  find (fun s => VBool (String.eqb key (entry_key s))) (before ++ s :: after) = Some s.
Proof.
  intros Hb Hk. induction Hb as [|e before He _ IH]; cbn [app find ToBoolean].
  - rewrite Hk, String.eqb_refl. reflexivity.
  - replace (String.eqb key (entry_key e)) with false; [exact IH|].
    symmetry. apply String.eqb_neq. congruence.
Qed.

(** [getStateData] gives the data of the first element with the key, and
    [null] when no element has it.  A [null] result does not tell the two
    apart: it is returned exactly when no element has the key or the
    first one that has it holds [null]. *)
Theorem getStateData_first_match (states : list Entry) (key : string) :
  (forall before s after,
      states = before ++ s :: after ->
      Forall (fun e => entry_key e <> key) before ->
      entry_key s = key ->
      getStateData states key = entry_data s) /\
  (Forall (fun s => entry_key s <> key) states -> getStateData states key = VNull) /\
  (getStateData states key = VNull <->
   Forall (fun s => entry_key s <> key) states \/
   exists before s after,
     states = before ++ s :: after /\
     Forall (fun e => entry_key e <> key) before /\
     entry_key s = key /\
     entry_data s = VNull).
Proof.
  assert (Hit : forall before s after,
             states = before ++ s :: after ->
             Forall (fun e => entry_key e <> key) before ->
             entry_key s = key ->
             getStateData states key = entry_data s).
  { intros before s after -> Hb Hk. unfold getStateData.
    now rewrite find_key_first. }
  assert (Miss : Forall (fun s => entry_key s <> key) states ->
                 getStateData states key = VNull).
  { intros Hall. unfold getStateData.
    destruct (find_key states key) as [[_ ->]|(before & s & after & -> & _ & Hk & _)];
      [reflexivity|].
    apply Forall_app in Hall as [_ Hall]. inversion Hall; subst. congruence. }
  split; [exact Hit|]. split; [exact Miss|]. split.
  - intros Hnull.
    destruct (find_key states key) as [[Hall _]|(before & s & after & E & Hb & Hk & _)].
    + left. exact Hall.
    + right. exists before, s, after. repeat split; try assumption.
      rewrite <- Hnull. symmetry. now apply (Hit before s after).
  - intros [Hall|(before & s & after & E & Hb & Hk & Hd)].
    + now apply Miss.
    + rewrite <- Hd. now apply (Hit before s after).
Qed.

(** A miss and a stored [null] give the same result. *)
Example getStateData_null_is_ambiguous :
  getStateData [mkEntry "k1" VNull] "k1" = VNull /\
  getStateData [mkEntry "k1" VNull] "k2" = VNull /\
  getStateData [mkEntry "k0" (VString "00"); mkEntry "k1" (VString "AB");
                mkEntry "k1" (VString "CD")] "k1" = VString "AB".
Proof. repeat split. Qed.

End StateHelpersMore.

(* ================================================================== *)
(** ** Further properties of src/util-helpers.js *)
(* ================================================================== *)

Module UtilHelpersMore.

Import UtilHelpers BufFacts Sample StateHelpersProps UtilHelpersProps.

Section LeaseUri.

Context {runtime : Runtime} {xfl : XflHelpers} {common : EvernodeCommon}
        {th : TransactionHelper}.

Lemma layout_short (hexUri : string) :
  (length (fromHex hexUri) < prefixLen + 2 + 16 + 8)%nat ->
  decodeLeaseNftUri hexUri = Throw RangeError.
Proof.
  intros L. unfold decodeLeaseNftUri. fold prefixLen.
  destruct (Nat.odd _); [reflexivity|].
  unfold readUInt16BE, readBigInt64BE.
  destruct (Nat.le_gt_cases (prefixLen + 2) (length (fromHex hexUri))) as [L2|L2].
  - rewrite readUIntBE_ok by exact L2. cbn [bind].
    rewrite readUIntBE_short by lia. reflexivity.
  - rewrite readUIntBE_short by lia. reflexivity.
Qed.

(** The lease layout needs the prefix and 26 bytes more: on a shorter
    buffer both decoders throw the range error, before the scaled-decimal
    codec is asked; so does a prefix of an odd number of hex digits,
    whatever the buffer. *)
Theorem lease_uri_shorter_than_layout (hexUri : string) :
  ((length (fromHex hexUri) < prefixLen + 26)%nat ->
   decodeLeaseNftUri hexUri = Throw RangeError) /\
  ((length (fromBase64 (hexToASCII hexUri)) < prefixLen + 26)%nat ->
   decodeLeaseTokenUri hexUri = Throw RangeError) /\
  (Nat.odd (String.length (LEASE_TOKEN_PREFIX_HEX EvernodeConstants)) = true ->
   decodeLeaseNftUri hexUri = Throw RangeError /\
   decodeLeaseTokenUri hexUri = Throw RangeError).
Proof.
  split; [|split].
  - intros L. apply layout_short. lia.
  - intros L.
    rewrite (decodeLeaseTokenUri_as_raw hexUri (toHex (fromBase64 (hexToASCII hexUri))))
      by (now rewrite fromHex_toHex).
    apply layout_short. rewrite fromHex_toHex. lia.
  - intros Hodd. unfold decodeLeaseNftUri, decodeLeaseTokenUri. rewrite Hodd. split; reflexivity.
Qed.

End LeaseUri.

End UtilHelpersMore.

(* ================================================================== *)
(** ** Further properties of src/clients/tenant-client.js *)
(* ================================================================== *)

Module TenantClientMore.

Import TenantClient BufFacts Sample TenantClientProps.

(** *** The first element [find] selects *)

Lemma find_first {A : Type} (f : A -> Value) (before after : list A) (x : A) :
  Forall (fun y => ToBoolean (f y) = false) before ->
  ToBoolean (f x) = true ->
  find f (before ++ x :: after) = Some x.
Proof.
  intros Hb Hx. induction Hb as [|y before Hy _ IH]; cbn [app find].
  - now rewrite Hx.
  - now rewrite Hy.
Qed.

Lemma find_split {A : Type} (f : A -> Value) (l : list A) (x : A) :
  find f l = Some x ->
  exists before after,
    l = before ++ x :: after /\
    Forall (fun y => ToBoolean (f y) = false) before /\
    ToBoolean (f x) = true.
Proof.
  induction l as [|y l IH]; cbn [find]; [discriminate|].
  destruct (ToBoolean (f y)) eqn:E.
  - intros H. injection H as <-. exists [], l. repeat split; [constructor | exact E].
  - intros H. destruct (IH H) as (before & after & -> & Hb & Hx).
    exists (y :: before), after. repeat split; [constructor; assumption | exact Hx].
Qed.

Lemma find_none {A : Type} (f : A -> Value) (l : list A) :
  Forall (fun y => ToBoolean (f y) = false) l -> find f l = None.
Proof.
  induction 1 as [|y l Hy _ IH]; cbn [find]; [reflexivity|]. now rewrite Hy.
Qed.

Lemma defaultEmpty_idempotent (v : Value) : defaultEmpty (defaultEmpty v) = defaultEmpty v.
Proof. destruct v; reflexivity. Qed.

Section Tenant.

Context {runtime : Runtime} {xfl : XflHelpers} {common : EvernodeCommon}
        {th : UtilHelpers.TransactionHelper} {client : Client}.

(** *** The host check *)

(** [getLeaseHost] looks at one token only, the first whose URI has the
    host-token prefix.  It returns (the address it was given) exactly when
    that token is issued by the registry and the host info is present and
    active; a first prefixed token of another issuer makes the host
    invalid whatever follows it in the list. *)
Theorem getLeaseHost_first_prefixed_token (hostAddress : string) (tokens : list UriToken) :
  getURITokens hostAddress = Ok (Some tokens) ->
  (forall host : string,
      getLeaseHost hostAddress = Ok host <->
      host = hostAddress /\
      exists before t after info,
        tokens = before ++ t :: after /\
        Forall (fun n => String.prefix TOKEN_PREFIX_HEX (URI n) = false) before /\
        String.prefix TOKEN_PREFIX_HEX (URI t) = true /\
        Issuer t = registryAddress /\
        getHostInfo hostAddress = Ok (Some info) /\
        active info = true) /\
  (forall before t after,
      tokens = before ++ t :: after ->
      Forall (fun n => String.prefix TOKEN_PREFIX_HEX (URI n) = false) before ->
      String.prefix TOKEN_PREFIX_HEX (URI t) = true ->
      Issuer t <> registryAddress ->
      getLeaseHost hostAddress = Throw (Reason HOST_INVALID "Host is not registered.")) /\
  (Forall (fun n => String.prefix TOKEN_PREFIX_HEX (URI n) = false) tokens ->
   getLeaseHost hostAddress = Throw (Reason HOST_INVALID "Host is not registered.")).
Proof.
  intros Htokens. unfold getLeaseHost. rewrite Htokens. cbn [bind].
  split; [|split].
  - intros host. split.
    + destruct (find _ tokens) as [t|] eqn:F; [|discriminate].
      apply find_split in F as (before & after & -> & Hb & Ht). cbn [ToBoolean] in Hb, Ht.
      destruct (String.eqb (Issuer t) registryAddress) eqn:I; cbn [negb]; [|discriminate].
      destruct (getHostInfo hostAddress) as [[info|]|e] eqn:Hinfo; cbn [bind];
        try discriminate.
      destruct (active info) eqn:A; cbn [negb]; [|discriminate].
      intros H. injection H as <-. split; [reflexivity|].
      exists before, t, after, info. apply String.eqb_eq in I.
      repeat split; assumption.
    + intros (-> & before & t & after & info & -> & Hb & Ht & I & Hinfo & A).
      rewrite (find_first _ before after t) by assumption.
      apply String.eqb_eq in I. rewrite I. cbn [negb].
      rewrite Hinfo. cbn [bind]. rewrite A. reflexivity.
  - intros before t after -> Hb Ht I.
    rewrite (find_first _ before after t) by assumption.
    apply String.eqb_neq in I. rewrite I. reflexivity.
  - intros Hall. rewrite find_none by assumption. reflexivity.
Qed.

(** *** What a successful submit has done *)

Lemma acquireLeaseSubmit_defaultEmpty (hostAddress : string) (requirement options : Value) :
  acquireLeaseSubmit hostAddress requirement (defaultEmpty options)
  = acquireLeaseSubmit hostAddress requirement options.
Proof. unfold acquireLeaseSubmit. now rewrite defaultEmpty_idempotent. Qed.

(** Whenever [acquireLeaseSubmit] returns a transaction, the host passed
    the host check, no lease offer index was asked for, the offer bought
    is the first one the host lists, and the memo carries the requirement
    encrypted with the host's (truthy) message key. *)
Theorem acquireLeaseSubmit_buys_first_offer
    (hostAddress : string) (requirement options : Value) (tx : Tx) :
  acquireLeaseSubmit hostAddress requirement options = Ok tx ->
  exists (host : string) (selected : Value) (offer : UriToken) (rest : list UriToken)
         (encKey iv ephemPrivateKey : Value) (ecrypted : string) (transactionOptions : Value),
    getLeaseHost hostAddress = Ok host /\
    get (defaultEmpty options) "leaseOfferIndex" = Ok selected /\
    ToBoolean selected = false /\
    getLeaseOffers host = Ok (Some (offer :: rest)) /\
    getMessageKey host = Ok encKey /\
    ToBoolean encKey = true /\
    get (defaultEmpty options) "iv" = Ok iv /\
    get (defaultEmpty options) "ephemPrivateKey" = Ok ephemPrivateKey /\
    encrypt encKey requirement iv ephemPrivateKey = Ok ecrypted /\
    get (defaultEmpty options) "transactionOptions" = Ok transactionOptions /\
    buyURIToken offer [mkMemo ACQUIRE_LEASE BASE64 ecrypted]
      [mkHookParam PARAM_EVENT_TYPE_KEY ACQUIRE_LEASE] transactionOptions = Ok tx.
Proof.
  unfold acquireLeaseSubmit.
  destruct (getLeaseHost hostAddress) as [host|e] eqn:Hhost; cbn [bind]; [|discriminate].
  destruct (get (defaultEmpty options) "leaseOfferIndex") as [selected|e] eqn:Hsel;
    cbn [native bind]; [|discriminate].
  destruct (getLeaseOffers host) as [offers|e] eqn:Hoffers; cbn [bind]; [|discriminate].
  destruct (ToBoolean selected) eqn:Htruthy; cbn [negb].
  { destruct offers as [l|]; [|discriminate].
    rewrite find_block_selects_nothing. discriminate. }
  destruct offers as [[|offer rest]|]; cbn [nth_error]; try discriminate.
  destruct (getMessageKey host) as [encKey|e] eqn:Hkey; cbn [bind]; [|discriminate].
  destruct (ToBoolean encKey) eqn:Hk; cbn [negb]; [|discriminate].
  destruct (get (defaultEmpty options) "iv") as [iv|e] eqn:Hiv; cbn [native bind];
    [|discriminate].
  destruct (get (defaultEmpty options) "ephemPrivateKey") as [ephem|e] eqn:Hephem;
    cbn [native bind]; [|discriminate].
  destruct (encrypt encKey requirement iv ephem) as [ecrypted|e] eqn:Henc; cbn [bind];
    [|discriminate].
  destruct (get (defaultEmpty options) "transactionOptions") as [topts|e] eqn:Htopts;
    cbn [native bind]; [|discriminate].
  intros Hbuy.
  exists host, selected, offer, rest, encKey, iv, ephem, ecrypted, topts.
  repeat split; assumption.
Qed.

(** *** A payment that is never made *)

Lemma decodeLeaseTokenUri_short (hexUri : string) :
  (length (fromBase64 (UtilHelpers.hexToASCII hexUri)) < prefixLen + 26)%nat ->
  UtilHelpers.decodeLeaseTokenUri hexUri = Throw RangeError.
Proof.
  intros L.
  rewrite (UtilHelpersProps.decodeLeaseTokenUri_as_raw hexUri
             (toHex (fromBase64 (UtilHelpers.hexToASCII hexUri))))
    by (now rewrite fromHex_toHex).
  apply UtilHelpersMore.layout_short. rewrite fromHex_toHex. lia.
Qed.

(** [extendLease] before the payment: without a token of the given index
    (none in the list, or no list) the promise is rejected with NO_TOKEN;
    with a token whose URI decodes to fewer bytes than the lease layout
    needs, or when the token query fails, the promise is left unsettled:
    neither resolved nor rejected. *)
Theorem extendLease_before_the_payment
    (hostAddress : string) (moments : float) (instanceName : string) (options : Value) :
  let noToken :=
    Rejected (mkRejection EXTEND_ERR (inl NO_TOKEN)
                (Some (ContentText "Could not find the uri token for lease extend request."))) in
  (getURITokens ownAddress = Ok None ->
   extendLease hostAddress moments instanceName options = noToken) /\
  (forall tokens,
      getURITokens ownAddress = Ok (Some tokens) ->
      Forall (fun n => index n <> instanceName) tokens ->
      extendLease hostAddress moments instanceName options = noToken) /\
  (forall tokens before t after,
      getURITokens ownAddress = Ok (Some tokens) ->
      tokens = before ++ t :: after ->
      Forall (fun n => index n <> instanceName) before ->
      index t = instanceName ->
      (length (fromBase64 (UtilHelpers.hexToASCII (URI t))) < prefixLen + 26)%nat ->
      extendLease hostAddress moments instanceName options = Pending) /\
  (forall e,
      getURITokens ownAddress = Throw e ->
      extendLease hostAddress moments instanceName options = Pending).
Proof.
  intros noToken. unfold extendLease. repeat split.
  - intros ->. reflexivity.
  - intros tokens -> Hall. rewrite find_none; [reflexivity|].
    eapply Forall_impl; [|exact Hall]. cbn [ToBoolean].
    intros n Hn. now apply String.eqb_neq.
  - intros tokens before t after -> -> Hb Ht L.
    rewrite (find_first _ before after t).
    + now rewrite decodeLeaseTokenUri_short.
    + eapply Forall_impl; [|exact Hb]. cbn [ToBoolean].
      intros n Hn. now apply String.eqb_neq.
    + cbn [ToBoolean]. now apply String.eqb_eq.
  - intros e ->. reflexivity.
Qed.

End Tenant.

Section Acquire.

Context {client : Client} {watch : AcquireWatch}.

(** [acquireLease] settles as its two steps do: a failed submit rejects
    the promise with ACQUIRE_ERR and the error's reason (TRANSACTION_FAILURE
    for an error without one); after a successful submit the watch is
    armed with the caller's [options.timeout], or with 60000 when that is
    falsy, and its outcome is the promise's. *)
Theorem acquireLease_settles_with_the_watch
    (hostAddress : string) (requirement options : Value) :
  (forall error : Failure,
      acquireLeaseSubmit hostAddress requirement options = Throw error ->
      exists reason content,
        acquireLease hostAddress requirement options
        = Rejected (mkRejection ACQUIRE_ERR (inl reason) (Some content)) /\
        (forall r text, error = Reason r text ->
                        reason = r /\ (text <> "" -> content = ContentText text)) /\
        (forall e, error = Native e ->
                   reason = TRANSACTION_FAILURE /\ content = ContentError error)) /\
  (forall tx : Tx,
      acquireLeaseSubmit hostAddress requirement options = Ok tx ->
      exists timeout : Value,
        get (defaultEmpty options) "timeout" = Ok timeout /\
        acquireLease hostAddress requirement options
        = pollAcquire tx (if ToBoolean timeout then timeout else VNumber 60000%float)).
Proof.
  unfold acquireLease. rewrite acquireLeaseSubmit_defaultEmpty. split.
  - intros error ->. destruct error as [r text|e]; cbn [submitRejection].
    + eexists _, _. split; [reflexivity|]. split; [|discriminate].
      intros r' text' H. injection H as <- <-. split; [reflexivity|].
      intros Hne. apply String.eqb_neq in Hne. now rewrite Hne.
    + eexists _, _. split; [reflexivity|]. split; [discriminate|].
      intros e' _. split; reflexivity.
  - intros tx Hsubmit. rewrite Hsubmit.
    unfold watchAcquireResponse. rewrite defaultEmpty_idempotent.
    unfold acquireLeaseSubmit in Hsubmit.
    destruct (getLeaseHost hostAddress) as [host|e]; cbn [bind] in Hsubmit;
      [|discriminate Hsubmit].
    destruct (defaultEmpty options) as [| |b|n|s|props] eqn:D;
      cbn [get native bind] in Hsubmit; try discriminate Hsubmit;
      cbn [get]; eexists; (split; [reflexivity|]); reflexivity.
Qed.

(** A registered, active host with offers, asked for one of them by its
    index: [acquireLease] is rejected with NO_OFFER, whatever the offers
    are. *)
Theorem acquireLease_with_offer_index_is_rejected
    (hostAddress : string) (requirement options selected : Value) (host : string)
    (offers : option (list UriToken)) :
  getLeaseHost hostAddress = Ok host ->
  get (defaultEmpty options) "leaseOfferIndex" = Ok selected ->
  ToBoolean selected = true ->
  getLeaseOffers host = Ok offers ->
  acquireLease hostAddress requirement options
  = Rejected (mkRejection ACQUIRE_ERR (inl NO_OFFER)
                (Some (ContentText "No offers available."))).
Proof.
  intros Hhost Hsel Htruthy Hoffers.
  unfold acquireLease. rewrite acquireLeaseSubmit_defaultEmpty.
  unfold acquireLeaseSubmit.
  rewrite Hhost. cbn [bind]. rewrite Hsel. cbn [native bind].
  rewrite Hoffers. cbn [bind]. rewrite Htruthy. cbn [negb].
  destruct offers as [l|]; [rewrite find_block_selects_nothing|]; reflexivity.
Qed.

End Acquire.

(** The sample host holds one prefixed token, issued by the registry. *)
Lemma getLeaseHost_first_prefixed_token_witness :
  let hostAddress := "rHOST" in
  let tokens := [sampleHostToken] in
  let A := @getLeaseHost sampleClient hostAddress in
  let prefixed n := String.prefix (@TOKEN_PREFIX_HEX sampleClient) (URI n) in
  (forall host : string,
      A = Ok host <->
      host = hostAddress /\
      exists before t after info,
        tokens = before ++ t :: after /\
        Forall (fun n => prefixed n = false) before /\
        prefixed t = true /\
        Issuer t = @registryAddress sampleClient /\
        @getHostInfo sampleClient hostAddress = Ok (Some info) /\
        active info = true) /\
  (forall before t after,
      tokens = before ++ t :: after ->
      Forall (fun n => prefixed n = false) before ->
      prefixed t = true ->
      Issuer t <> @registryAddress sampleClient ->
      A = Throw (Reason HOST_INVALID "Host is not registered.")) /\
  (Forall (fun n => prefixed n = false) tokens ->
   A = Throw (Reason HOST_INVALID "Host is not registered.")).
Proof.
  intros hostAddress tokens A prefixed.
  apply (@getLeaseHost_first_prefixed_token sampleClient hostAddress tokens).
  reflexivity.
Defined.

(** The sample tenant, no options: the sample offer is bought. *)
Lemma acquireLeaseSubmit_buys_first_offer_witness :
  let options := VUndefined in
  let requirement := VString "requirement" in
  exists (host : string) (selected : Value) (offer : UriToken) (rest : list UriToken)
         (encKey iv ephemPrivateKey : Value) (ecrypted : string) (transactionOptions : Value),
    @getLeaseHost sampleClient "rHOST" = Ok host /\
    get (defaultEmpty options) "leaseOfferIndex" = Ok selected /\
    ToBoolean selected = false /\
    @getLeaseOffers sampleClient host = Ok (Some (offer :: rest)) /\
    @getMessageKey sampleClient host = Ok encKey /\
    ToBoolean encKey = true /\
    get (defaultEmpty options) "iv" = Ok iv /\
    get (defaultEmpty options) "ephemPrivateKey" = Ok ephemPrivateKey /\
    @encrypt sampleClient encKey requirement iv ephemPrivateKey = Ok ecrypted /\
    get (defaultEmpty options) "transactionOptions" = Ok transactionOptions /\
    @buyURIToken sampleClient offer
      [mkMemo (@ACQUIRE_LEASE sampleClient) (@BASE64 sampleClient) ecrypted]
      [mkHookParam (@PARAM_EVENT_TYPE_KEY sampleClient) (@ACQUIRE_LEASE sampleClient)]
      transactionOptions
    = Ok (mkTx "TX1" 1000%float).
Proof.
  intros options requirement.
  apply (@acquireLeaseSubmit_buys_first_offer sampleClient "rHOST" requirement options
           (mkTx "TX1" 1000%float)).
  reflexivity.
Defined.

(** The sample host has an offer whose index is the one asked for. *)
Lemma acquireLease_with_offer_index_is_rejected_witness :
  let options := VObject (PCons "leaseOfferIndex" (VString "OFFER1") PNil) in
  @acquireLease sampleClient sampleAcquireWatch "rHOST" VUndefined options
  = Rejected (mkRejection ACQUIRE_ERR (inl NO_OFFER)
                (Some (ContentText "No offers available."))).
Proof.
  intros options.
  apply (@acquireLease_with_offer_index_is_rejected sampleClient sampleAcquireWatch
           "rHOST" VUndefined options (VString "OFFER1") "rHOST" (Some [sampleOffer]));
    reflexivity.
Defined.

End TenantClientMore.

(* ================================================================== *)
(** ** Properties of HookClientFactory *)
(* ================================================================== *)

Module HookClientFactoryProps.

Import HookClientFactory Sample.

Section Factory.

Context {gov : Governor}.

(** What [getAccountAddress] does whatever the type asked for: it
    connects, then disconnects; a failure of the disconnect is the one
    reported, else the failure of the connect. *)
Lemma getAccountAddress_cases (hookType : string) :
  snd (getAccountAddress hookType) = [Connect; Disconnect] /\
  (forall e, disconnect = Throw e -> fst (getAccountAddress hookType) = Throw e) /\
  (forall e, disconnect = Ok tt -> connect = Throw e ->
             fst (getAccountAddress hookType) = Throw e) /\
  (disconnect = Ok tt -> connect = Ok tt ->
   fst (getAccountAddress hookType)
   = Ok (if String.eqb hookType (registry HookTypes) then registryAddress config
         else if String.eqb hookType (heartbeat HookTypes) then heartbeatAddress config
         else if String.eqb hookType (reputation HookTypes) then reputationAddress config
         else VUndefined)).
Proof.
  unfold getAccountAddress.
  destruct disconnect as [[]|d]; destruct connect as [[]|c];
    repeat match goal with
           | |- context [String.eqb ?a ?b] => destruct (String.eqb a b)
           end;
    cbn [fst snd]; repeat split; intros; congruence.
Qed.

(** The factory by cases.  The governor client is made without any call;
    a type that is none of the four gives [null] without any call.  Any
    other client is made after one connect and one disconnect that both
    succeeded, and carries the address the governor's configuration has
    for its own type.  A failure is that of the disconnect, else that of
    the connect, and the governor was disconnected in both cases. *)
Theorem create_by_cases (hookType : string) :
  let T := HookTypes in
  (hookType = governor T -> create hookType = (Ok (Some GovernorClient), [])) /\
  (hookType <> governor T -> hookType <> registry T ->
   hookType <> heartbeat T -> hookType <> reputation T ->
   create hookType = (Ok None, [])) /\
  (forall (c : HookClient) (calls : list Call),
      create hookType = (Ok (Some c), calls) ->
      (c = GovernorClient /\ calls = [] /\ hookType = governor T) \/
      (calls = [Connect; Disconnect] /\ connect = Ok tt /\ disconnect = Ok tt /\
       hookType <> governor T /\
       ((hookType = registry T /\ c = RegistryClient (registryAddress config)) \/
        (hookType = heartbeat T /\ c = HeartbeatClient (heartbeatAddress config)) \/
        (hookType = reputation T /\ c = ReputationClient (reputationAddress config))))) /\
  (forall (e : Exn) (calls : list Call),
      create hookType = (Throw e, calls) ->
      calls = [Connect; Disconnect] /\
      (disconnect = Throw e \/ (disconnect = Ok tt /\ connect = Throw e))).
Proof.
  intros T. unfold create, getAccountAddress. fold T.
  destruct (String.eqb_spec hookType (governor T)) as [G|G];
    destruct (String.eqb_spec hookType (registry T)) as [R|R];
    destruct (String.eqb_spec hookType (heartbeat T)) as [H|H];
    destruct (String.eqb_spec hookType (reputation T)) as [P|P];
    destruct disconnect as [[]|d]; destruct connect as [[]|cn];
    (split; [intros; first [reflexivity | contradiction]|]);
    (split; [intros; first [reflexivity | contradiction]|]);
    (split; intros ? calls E; [|]);
    try discriminate E; injection E as <- <-;
    first [ left; repeat split; assumption
          | right; repeat split; try assumption; tauto
          | split; [reflexivity | tauto] ].
Qed.

End Factory.

(** The sample governor, asked for the registry client. *)
Example create_registry_sample :
  @create sampleGovernor "REGISTRY"
  = (Ok (Some (RegistryClient (VString "rREGISTRY"))), [Connect; Disconnect]) /\
  @create sampleOfflineGovernor "REGISTRY"
  = (Throw (External "connect"), [Connect; Disconnect]) /\
  @create sampleOfflineGovernor "GOVERNOR" = (Ok (Some GovernorClient), []) /\
  @create sampleGovernor "registry" = (Ok None, []).
Proof. repeat split. Qed.

End HookClientFactoryProps.

(* ================================================================== *)
(** ** Properties of src/clients/hook-client.js *)
(* ================================================================== *)

Module HookClientProps.

Import StateHelpers HookClient BufFacts Sample.

Lemma prefix_append (p s t : string) :
  String.prefix p s = true -> String.prefix p (s ++ t) = true.
Proof.
  revert s. induction p as [|c p IH]; intros s.
  - intros _. destruct (s ++ t)%string; reflexivity.
  - destruct s as [|d s]; cbn [String.prefix String.append]; [discriminate|].
    destruct (ascii_dec c d); [apply IH | discriminate].
Qed.

Lemma substring_whole (s : string) : substring 0 (String.length s) s = s.
Proof. induction s as [|c s IH]; cbn; [reflexivity | now rewrite IH]. Qed.

(** The text of a host-address key: the 24 digits of the prefix, the tag
    and the padding, then the 40 digits of the account id. *)
Lemma hostKey_text (accountId : Buffer) :
  hexKeyText (addressKey STATE_KEY_TYPES.HOST_ADDR accountId)
  = ("455652030000000000000000" ++ hexKeyText accountId)%string.
Proof. reflexivity. Qed.

Lemma sliceLast_hostKey (accountId : Buffer) :
  length accountId = 20%nat ->
  sliceLast 40 (hexKeyText (addressKey STATE_KEY_TYPES.HOST_ADDR accountId))
  = hexKeyText accountId.
Proof.
  intros L. unfold sliceLast.
  assert (Lk : String.length (hexKeyText accountId) = 40%nat).
  { unfold hexKeyText. rewrite length_toUpperCase, length_toHex, L. reflexivity. }
  rewrite hostKey_text. cbn [String.append String.length]. rewrite Lk.
  cbn [Nat.sub substring]. rewrite <- Lk at 1. apply substring_whole.
Qed.

Section Hosts.

Context {codec : AddressCodec} {runtime : Runtime}.
Variable HOST_ADDR : string.

Lemma getHosts_skips (s : HookState) (states : list HookState) :
  String.prefix HOST_ADDR (key s) = false ->
  getHosts HOST_ADDR (s :: states) = getHosts HOST_ADDR states.
Proof. intros H. unfold getHosts. cbn [filter]. now rewrite H. Qed.

(** The host list and the key generator: among states of other kinds, the
    one state stored under the key [generateHostAddrStateKey] gives for an
    address is reported as one host, whose address is that address (for an
    address the codec maps to a 20-byte account id and back) and whose
    transaction hash is the 64 characters of the data text from position
    14. *)
Theorem getHosts_reads_generated_keys (mem : Buffer) (address : string)
    (accountId : Buffer) (dataText : string) (before after : list HookState) :
  String.prefix HOST_ADDR "45565203" = true ->
  decodeAccountID address = Ok accountId ->
  encodeAccountID accountId = Ok address ->
  length accountId = 20%nat ->
  Forall (fun s => String.prefix HOST_ADDR (key s) = false) before ->
  Forall (fun s => String.prefix HOST_ADDR (key s) = false) after ->
  exists (k : string) (h : Host),
    generateHostAddrStateKey mem address = Ok k /\
    getHosts HOST_ADDR (before ++ mkHookState k dataText :: after) = Ok [h] /\
    HookClient.address h = address /\
    txHash h = substring 14 64 dataText.
Proof.
  intros Hp Hdec Henc L Hb Ha.
  destruct (StateHelpersMore.address_generators_value mem address) as (G & _).
  rewrite Hdec in G. cbn [bind] in G.
  eexists _, _. split; [exact G|].
  assert (Hrest : getHosts HOST_ADDR after = Ok []).
  { clear - Ha. induction Ha as [|s after Hs _ IH]; [reflexivity|].
    now rewrite getHosts_skips. }
  assert (Hone : forall data,
             hostOfState (mkHookState
                            (hexKeyText (addressKey STATE_KEY_TYPES.HOST_ADDR accountId)) data)
             = Ok (mkHost address
                     (utf8 (fromHex (substring 8 6 data)))
                     (substring 14 64 data)
                     (removeNul (utf8 (fromHex (substring 78 120 data))))
                     (removeNul (utf8 (fromHex (substring 198 20 data)))))).
  { intros data. unfold hostOfState. cbn [key HookClient.data].
    rewrite sliceLast_hostKey by exact L.
    rewrite StateHelpersMore.fromHex_hexKeyText, Henc. reflexivity. }
  induction Hb as [|s before Hs _ IH]; cbn [app].
  - unfold getHosts in *. cbn [filter key].
    rewrite hostKey_text.
    change ("455652030000000000000000" ++ hexKeyText accountId)%string
      with ("45565203" ++ ("0000000000000000" ++ hexKeyText accountId))%string.
    rewrite (prefix_append _ "45565203" _ Hp).
    cbn [mapResult]. rewrite Hone. cbn [bind]. rewrite Hrest. cbn [bind].
    repeat split.
  - rewrite getHosts_skips by exact Hs. exact IH.
Qed.

End Hosts.

(** The sample list: one host entry and one entry of another kind. *)
Lemma getHosts_reads_generated_keys_witness :
  let HOST_ADDR := "45565203" in
  let mem := [] in
  let address := sampleAddress in
  let dataText := HookClient.data sampleHostState in
  let before := [sampleOtherState] in
  let after := [sampleOtherState] in
  exists (k : string) (h : Host),
    @generateHostAddrStateKey sampleCodec mem address = Ok k /\
    @getHosts sampleCodec sampleRuntime HOST_ADDR (before ++ mkHookState k dataText :: after)
    = Ok [h] /\
    HookClient.address h = address /\
    txHash h = substring 14 64 dataText.
Proof.
  intros HOST_ADDR mem address dataText before after.
  apply (@getHosts_reads_generated_keys sampleCodec sampleRuntime HOST_ADDR mem address
           sampleAccountId dataText before after).
  - reflexivity.
  - vm_compute. reflexivity.
  - vm_compute. reflexivity.
  - reflexivity.
  - repeat constructor.
  - repeat constructor.
Defined.

End HookClientProps.

(* ================================================================== *)
(** ** Properties of the watch loops *)
(* ================================================================== *)

Module WatchProps.

Import TenantClient Watch Sample.

Local Open Scope N_scope.

Section Loop.

Context {A : Type}.
Variable isRelevant : Event -> bool.
Variable settle : N -> Event -> Settlement A.
Variable timedOut : WatchRejection.
Variable sleepMs : N.
Variable history : nat -> Poll.
Variable deadline : N.

Hypothesis sleeps : 0 < sleepMs.

Local Abbreviation scan := (scan isRelevant).
Local Abbreviation passes := (passes isRelevant settle timedOut sleepMs history deadline).
Local Abbreviation passStart := (passStart sleepMs history).
Local Abbreviation foundAt := (foundAt isRelevant sleepMs history).

Lemma scan_passed_over (now : N) (l : list (N * option Event)) :
  Forall (passedOver isRelevant) l -> scan now l = (now + extractionMs l, None).
Proof.
  intros H. revert now. induction H as [|[ms res] l Hr _ IH]; intros now.
  - cbn. f_equal. lia.
  - cbn [Watch.scan]. unfold passedOver in Hr. cbn [snd] in Hr.
    assert (E : scan (now + ms) l = (now + extractionMs ((ms, res) :: l), None)).
    { rewrite IH. f_equal. unfold extractionMs. cbn. lia. }
    destruct res as [ev|]; [rewrite Hr|]; exact E.
Qed.

Lemma scan_found (now : N) (before after : list (N * option Event)) (ms : N) (ev : Event) :
  Forall (passedOver isRelevant) before ->
  isRelevant ev = true ->
  scan now (before ++ (ms, Some ev) :: after) = (now + extractionMs before + ms, Some ev).
Proof.
  intros H Hev. revert now. induction H as [|[ms' res] l Hr _ IH]; intros now.
  - cbn. rewrite Hev. f_equal. lia.
  - cbn [app Watch.scan]. unfold passedOver in Hr. cbn [snd] in Hr.
    assert (E : scan (now + ms') (l ++ (ms, Some ev) :: after)
                = (now + extractionMs ((ms', res) :: l) + ms, Some ev)).
    { rewrite IH. f_equal. unfold extractionMs. cbn. lia. }
    destruct res as [ev'|]; [rewrite Hr|]; exact E.
Qed.

(** The [for] loop either passes over the whole list or stops at its
    first relevant event. *)
Lemma scan_cases (now : N) (l : list (N * option Event)) :
  (Forall (passedOver isRelevant) l /\ scan now l = (now + extractionMs l, None)) \/
  (exists before ms ev after,
      l = before ++ (ms, Some ev) :: after /\
      Forall (passedOver isRelevant) before /\
      isRelevant ev = true /\
      scan now l = (now + extractionMs before + ms, Some ev)).
Proof.
  assert (D : Forall (passedOver isRelevant) l \/
              exists before ms ev after,
                l = before ++ (ms, Some ev) :: after /\
                Forall (passedOver isRelevant) before /\
                isRelevant ev = true).
  { induction l as [|[ms res] l IH]; [left; constructor|].
    assert (C : passedOver isRelevant (ms, res) \/
                exists ev, res = Some ev /\ isRelevant ev = true).
    { unfold passedOver. cbn [snd]. destruct res as [ev|]; [|left; exact I].
      destruct (isRelevant ev) eqn:E;
        [right; exists ev; split; [reflexivity | exact E] | left; reflexivity]. }
    destruct C as [C|(ev & -> & Hev)].
    - destruct IH as [IH|(before & ms' & ev & after & -> & Hb & Hev)].
      + left. constructor; assumption.
      + right. exists ((ms, res) :: before), ms', ev, after.
        repeat split; [constructor; assumption | exact Hev].
    - right. exists [], ms, ev, l. repeat split; [constructor | exact Hev]. }
  destruct D as [D|(before & ms & ev & after & -> & Hb & Hev)].
  - left. split; [exact D | now apply scan_passed_over].
  - right. exists before, ms, ev, after. repeat split; try assumption.
    now apply scan_found.
Qed.

Lemma passStart_step (i : nat) : passStart i + sleepMs <= passStart (S i).
Proof. cbn [Vocabulary.passStart]. lia. Qed.

Lemma passStart_mono (i k : nat) : (i <= k)%nat -> passStart i <= passStart k.
Proof.
  induction 1 as [|k _ IH]; [lia|]. pose proof (passStart_step k). lia.
Qed.

Lemma passStart_lower (i : nat) : N.of_nat i * sleepMs <= passStart i.
Proof.
  induction i as [|i IH]; [cbn; lia|]. pose proof (passStart_step i). lia.
Qed.

Lemma foundAt_after_start (i : nat) (t : N) (ev : Event) :
  foundAt i t ev -> passStart i <= t.
Proof. intros (_ & before & ms & after & _ & _ & _ & ->). lia. Qed.

(** The loop when the first relevant event is met before the deadline:
    the timer is cleared and what follows the loop runs one sleep
    later. *)
Lemma passes_found (k : nat) (t : N) (ev : Event) :
  foundAt k t ev ->
  t < deadline ->
  forall fuel i,
    (i <= k)%nat -> (k - i < fuel)%nat ->
    passes fuel i (passStart i) = Some (settle (t + sleepMs) ev).
Proof.
  intros F Ht. pose proof (foundAt_after_start _ _ _ F) as Hstart.
  destruct F as (Hearlier & before & ms & after & Hk & Hb & Hev & Et).
  induction fuel as [|fuel IH]; intros i Hik Hfuel; [lia|].
  cbn [Watch.passes].
  destruct (Nat.eq_dec i k) as [->|Hne].
  - rewrite Hk, (scan_found _ before after ms ev Hb Hev). rewrite <- Et.
    destruct (deadline <=? t) eqn:E; [apply N.leb_le in E; lia | reflexivity].
  - assert (Hi : (i < k)%nat) by lia.
    rewrite (scan_passed_over _ _ (Hearlier i Hi)).
    change (passStart i + queryMs (history i) + extractionMs (extracted (history i))
            + sleepMs) with (passStart i + queryMs (history i)
                             + extractionMs (extracted (history i)) + sleepMs).
    assert (E : passStart i + queryMs (history i) + extractionMs (extracted (history i))
                + sleepMs = passStart (S i)) by (cbn [Vocabulary.passStart]; lia).
    rewrite E.
    pose proof (passStart_mono (S i) k ltac:(lia)).
    destruct (deadline <=? passStart (S i)) eqn:D; [apply N.leb_le in D; lia|].
    apply IH; lia.
Qed.

(** The loop when no relevant event is met before the deadline: the
    timer rejects at the deadline. *)
Lemma passes_timeout :
  (forall k t ev, foundAt k t ev -> deadline <= t) ->
  forall fuel i,
    (forall j, (j < i)%nat -> Forall (passedOver isRelevant) (extracted (history j))) ->
    passStart i <= deadline ->
    deadline < passStart i + N.of_nat fuel * sleepMs ->
    passes fuel i (passStart i) = Some (RejectedAt deadline timedOut).
Proof.
  intros Hlate. induction fuel as [|fuel IH]; intros i Hearlier Hstart Hfuel; [lia|].
  cbn [Watch.passes].
  destruct (scan_cases (passStart i + queryMs (history i)) (extracted (history i)))
    as [[Hall ->]|(before & ms & ev & after & Hk & Hb & Hev & ->)].
  - assert (E : passStart i + queryMs (history i) + extractionMs (extracted (history i))
                + sleepMs = passStart (S i)) by (cbn [Vocabulary.passStart]; lia).
    rewrite E.
    destruct (deadline <=? passStart (S i)) eqn:D; [reflexivity|].
    apply N.leb_gt in D. apply IH.
    + intros j Hj. destruct (Nat.eq_dec j i) as [->|]; [exact Hall | apply Hearlier; lia].
    + lia.
    + pose proof (passStart_step i). lia.
  - assert (F : foundAt i (passStart i + queryMs (history i) + extractionMs before + ms) ev).
    { split; [exact Hearlier|]. exists before, ms, after. repeat split; assumption. }
    apply Hlate in F.
    destruct (deadline <=? _) eqn:D; [reflexivity | apply N.leb_gt in D; lia].
Qed.

(** The fuel [watch] gives the loop is enough. *)
Lemma fuel_covers : deadline < N.of_nat (S (N.to_nat (deadline / sleepMs))) * sleepMs.
Proof.
  replace (N.of_nat (S (N.to_nat (deadline / sleepMs))))
    with (N.succ (deadline / sleepMs)) by lia.
  pose proof (N.mul_succ_div_gt deadline sleepMs ltac:(lia)). lia.
Qed.

Lemma watch_found (k : nat) (t : N) (ev : Event) :
  foundAt k t ev ->
  t < deadline ->
  watch isRelevant settle timedOut sleepMs history deadline
  = Some (settle (t + sleepMs) ev).
Proof.
  intros F Ht. unfold watch.
  apply (passes_found k t ev F Ht); [lia|].
  pose proof (foundAt_after_start _ _ _ F). pose proof (passStart_lower k).
  assert (N.of_nat k <= deadline / sleepMs).
  { apply N.div_le_lower_bound; lia. }
  lia.
Qed.

Lemma watch_timeout :
  (forall k t ev, foundAt k t ev -> deadline <= t) ->
  watch isRelevant settle timedOut sleepMs history deadline
  = Some (RejectedAt deadline timedOut).
Proof.
  intros Hlate. unfold watch.
  apply (passes_timeout Hlate); [intros j Hj; lia | cbn; lia |].
  pose proof fuel_covers. cbn [Vocabulary.passStart]. lia.
Qed.

Lemma scan_later (now : N) (l : list (N * option Event)) : now <= fst (scan now l).
Proof.
  revert now. induction l as [|[ms res] l IH]; intros now; cbn [Watch.scan fst]; [lia|].
  pose proof (IH (now + ms)).
  destruct res as [ev|]; [destruct (isRelevant ev)|]; cbn [fst]; lia.
Qed.

(** The loop always comes to an end. *)
Lemma passes_total (fuel i : nat) (now : N) :
  now <= deadline ->
  deadline < now + N.of_nat fuel * sleepMs ->
  exists s, passes fuel i now = Some s.
Proof.
  revert i now. induction fuel as [|fuel IH]; intros i now Hnow Hfuel; [lia|].
  cbn [Watch.passes].
  pose proof (scan_later (now + queryMs (history i)) (extracted (history i))) as L.
  destruct (scan (now + queryMs (history i)) (extracted (history i))) as [found [ev|]];
    cbn [fst] in L.
  - destruct (deadline <=? found); eexists; reflexivity.
  - destruct (deadline <=? found + sleepMs) eqn:D; [eexists; reflexivity|].
    apply N.leb_gt in D. apply IH; lia.
Qed.

Lemma watch_total :
  exists s, watch isRelevant settle timedOut sleepMs history deadline = Some s.
Proof.
  unfold watch. apply passes_total; [lia|]. pose proof fuel_covers. lia.
Qed.

End Loop.

(** *** The two watches *)

Lemma strictEquals_string (v : Value) (s : string) :
  ToBoolean (strictEquals v (VString s)) = true <-> v = VString s.
Proof.
  destruct v; cbn; split; try discriminate; intros H.
  - apply String.eqb_eq in H. now subst.
  - injection H as ->. apply String.eqb_refl.
Qed.

Lemma nameIs_true (ev : Event) (s : string) : nameIs ev s = true <-> name ev = VString s.
Proof. apply strictEquals_string. Qed.

Lemma refId_object (d : Value) (field txId : string) :
  ToBoolean (strictEquals (optionalGet d field) (VString txId)) = true ->
  exists props, d = VObject props /\ lookup field props = VString txId.
Proof.
  intros H. apply strictEquals_string in H.
  destruct d; cbn in H; try discriminate H. eexists. split; [reflexivity | exact H].
Qed.

Section Watchers.

Context {events : EvernodeEvents} {timers : Timers}.


(** Both functions return for every history and every options value. *)
Lemma watches_return (history : nat -> Poll) (tx : Tx) (options : Value) :
  (exists s, watchAcquireResponse history tx options = Some s) /\
  (exists s, watchExtendResponse history tx options = Some s).
Proof.
  unfold watchAcquireResponse, watchExtendResponse.
  destruct (get (defaultEmpty options) "timeout");
    split; try (eexists; reflexivity); apply watch_total; lia.
Qed.

End Watchers.



(** The other two clauses on the sample histories: an error event is
    reported with its reason, and a history that never answers is timed
    out at the deadline. *)
Example watch_samples :
  @watchAcquireResponse sampleEvents sampleTimers (answeringIn 1 sampleAcquireSuccess)
     sampleTx VUndefined
  = Some (ResolvedAt 4025
            (mkAcquireResponse (VString "T9") (VString "instance") (VString "TX1"))) /\
  @watchAcquireResponse sampleEvents sampleTimers (answeringIn 2 sampleAcquireError)
     sampleTx VUndefined
  = Some (RejectedAt 6037
            (EventError ACQUIRE_ERR (VString "T9") (VString "user_install_error")
               (Some (VString "TX1")))) /\
  @watchAcquireResponse sampleEvents sampleTimers neverAnswering sampleTx VUndefined
  = Some (RejectedAt 60000 (TimedOut ACQUIRE_ERR)) /\
  @watchExtendResponse sampleEvents sampleTimers neverAnswering sampleTx
     (VObject (PCons "timeout" (VNumber 500%float) PNil))
  = Some (RejectedAt 500 (TimedOut EXTEND_ERR)) /\
  @watchExtendResponse sampleEvents sampleTimers neverAnswering sampleTx VNull
  = Some NeverSettled.
Proof. repeat split; vm_compute; reflexivity. Qed.

End WatchProps.
